(** * klink-backend: the bookkeeping API of [backend/index.js]

    A shallow embedding of the Express application: JavaScript values as
    far as the handlers inspect them, the two PostgreSQL tables with the
    constraints the schema declares, the pooled connection with its
    BEGIN / COMMIT / ROLLBACK discipline, the body parser in front of
    the nine routes, the [requireAuth] gate and the error-handling
    middleware; then the properties of the write path, the owner scoping
    and the validation, and further ones: what every route keeps, the
    discipline of the pool, updates, deletes, listings, budget categories
    and status codes. *)

From Stdlib Require Import ZArith List String Ascii Bool Lia.
From Stdlib Require Import Sorting.Sorted Sorting.Permutation.
Import ListNotations.

Open Scope string_scope.
Open Scope list_scope.
Open Scope Z_scope.

(* ================================================================== *)
(** * JavaScript values *)
(* ================================================================== *)

(** A JavaScript number.  Every finite double is a dyadic rational
    [m * 2^e]; the handlers only ask whether a number is NaN, whether it
    is zero, and (through the INTEGER columns) which integer it is. *)
Inductive JsNum : Type :=
| NaN
| Infinity (negative : bool)
| Finite (m e : Z).

(** The values a request can carry ([express.json()] yields null,
    booleans, numbers, strings, arrays and objects; an absent key reads as
    [undefined]) and the [Date] objects the handlers build; [JsDate None]
    is an Invalid Date, whose [getTime()] is NaN. *)
#[warnings="-register-all"]
Inductive JsValue : Type :=
| JsUndefined
| JsNull
| JsBool (b : bool)
| JsNumber (n : JsNum)
| JsString (s : string)
| JsDate (t : option Z)
| JsArray (items : list JsValue)
| JsObject (fields : list (string * JsValue)).

Definition JsInt (z : Z) : JsValue := JsNumber (Finite z 0).

(** ToBoolean, as [!x], [x && y] and [if (x)] apply it. *)
Definition truthy (v : JsValue) : bool :=
  match v with
  | JsUndefined | JsNull => false
  | JsBool b => b
  | JsNumber NaN => false
  | JsNumber (Infinity _) => true
  | JsNumber (Finite m _) => negb (m =? 0)
  | JsString s => negb (s =? "")%string
  | JsDate _ | JsArray _ | JsObject _ => true
  end.

(** [x === undefined] *)
Definition is_undefined (v : JsValue) : bool :=
  match v with JsUndefined => true | _ => false end.

(** [typeof x !== 'number' || isNaN(x)] of line 238: for a number,
    [isNaN] is true of NaN alone. *)
Definition not_a_valid_number (v : JsValue) : bool :=
  match v with
  | JsNumber NaN => true
  | JsNumber _ => false
  | _ => true
  end.

(** Property read [o.k] on a parsed JSON object: [undefined] when the key
    is absent. *)
Fixpoint get (o : list (string * JsValue)) (k : string) : JsValue :=
  match o with
  | [] => JsUndefined
  | (k', v) :: o' => if (k' =? k)%string then v else get o' k
  end.

(** A thrown [Error]: node-pg sets [code] to the SQLSTATE of a database
    error. *)
Record JsError : Type := mkError {
  code : option string;
  message : string;
  stack : string
}.

(* ------------------------------------------------------------------ *)
(** ** [parseInt(string)] *)

(** A string is held as the bytes of its UTF-8 form, the form in which a
    path parameter arrives and a TEXT column stores it. *)
Definition byte (c : ascii) : Z := Z.of_nat (nat_of_ascii c).

(** The code point of a UTF-8 sequence of one, two and three bytes. *)
Definition utf8_1 (c1 : ascii) : option Z :=
  if byte c1 <? 128 then Some (byte c1) else None.

Definition utf8_2 (c1 c2 : ascii) : option Z :=
  let cp := (byte c1 - 192) * 64 + (byte c2 - 128) in
  if (192 <=? byte c1) && (byte c1 <? 224) && (128 <=? byte c2) && (byte c2 <? 192)
     && (128 <=? cp)
  then Some cp else None.

Definition utf8_3 (c1 c2 c3 : ascii) : option Z :=
  let cp := (byte c1 - 224) * 4096 + (byte c2 - 128) * 64 + (byte c3 - 128) in
  if (224 <=? byte c1) && (byte c1 <? 240) && (128 <=? byte c2) && (byte c2 <? 192)
     && (128 <=? byte c3) && (byte c3 <? 192) && (2048 <=? cp)
  then Some cp else None.

(** The white space and the line terminators of ECMAScript: TAB, LF, VT,
    FF, CR, the space, U+00A0, U+1680, U+2000 to U+200A, U+2028, U+2029,
    U+202F, U+205F, U+3000 and U+FEFF. *)
Definition is_js_space (cp : Z) : bool :=
  ((9 <=? cp) && (cp <=? 13)) || (cp =? 32) || (cp =? 160) || (cp =? 5760)
  || ((8192 <=? cp) && (cp <=? 8202)) || (cp =? 8232) || (cp =? 8233)
  || (cp =? 8239) || (cp =? 8287) || (cp =? 12288) || (cp =? 65279).

Definition is_space_of (cp : option Z) : bool :=
  match cp with Some n => is_js_space n | None => false end.

(** The string without its leading white space; every such character
    takes one, two or three bytes. *)
Fixpoint skip_space (s : string) : string :=
  match s with
  | String c1 r1 =>
      if is_space_of (utf8_1 c1) then skip_space r1
      else
        match r1 with
        | String c2 r2 =>
            if is_space_of (utf8_2 c1 c2) then skip_space r2
            else
              match r2 with
              | String c3 r3 =>
                  if is_space_of (utf8_3 c1 c2 c3) then skip_space r3 else s
              | EmptyString => s
              end
        | EmptyString => s
        end
  | EmptyString => s
  end.

(** The value of [c] as a digit of the given radix, if it is one. *)
Definition digit_value (radix : Z) (c : ascii) : option Z :=
  let n := byte c in
  let d := if (48 <=? n) && (n <=? 57) then n - 48
           else if (97 <=? n) && (n <=? 122) then n - 87
           else if (65 <=? n) && (n <=? 90) then n - 55
           else radix in
  if d <? radix then Some d else None.

(** The longest prefix of digits, read from the left; [acc] is the value
    of the digits read so far, [None] before the first one. *)
Fixpoint read_digits (radix : Z) (s : string) (acc : option Z) : option Z :=
  match s with
  | String c s' =>
      match digit_value radix c with
      | Some d =>
          read_digits radix s'
            (Some (match acc with Some a => a * radix + d | None => d end))
      | None => acc
      end
  | EmptyString => acc
  end.

(** The Number value of an integer: the nearest double, ties going to
    the even mantissa.  Up to 2^53 that is the integer itself; beyond, the
    53 leading bits are kept and rounded, and what rounds to 2^1024 or
    more is infinite.  The sign of zero is not kept: neither the query
    parameter nor the JSON answer made of the number shows it. *)
Definition to_double (n : Z) : JsNum :=
  let a := Z.abs n in
  let k := Z.log2 a - 52 in
  if k <=? 0 then Finite n 0
  else
    let q := a / 2 ^ k in
    let r := a mod 2 ^ k in
    let half := 2 ^ (k - 1) in
    let q' := if (half <? r) || ((r =? half) && Z.odd q) then q + 1 else q in
    if 1024 <=? Z.log2 (q' * 2 ^ k) then Infinity (n <? 0)
    else Finite (Z.sgn n * q') k.

(** [parseInt(s)] with no radix argument: leading white space is
    dropped, then an optional sign, then a [0x] / [0X] prefix switches to
    radix 16; the result is the Number value of the integer the longest
    digit prefix denotes, NaN when there is none. *)
Definition parseInt (s : string) : JsNum :=
  let s1 := skip_space s in
  let '(sign, s2) :=
    match s1 with
    | String "-" r => (-1, r)
    | String "+" r => (1, r)
    | _ => (1, s1)
    end in
  let '(radix, s3) :=
    match s2 with
    | String "0" (String "x" r) => (16, r)
    | String "0" (String "X" r) => (16, r)
    | _ => (10, s2)
    end in
  match read_digits radix s3 None with
  | Some z => to_double (sign * z)
  | None => NaN
  end.

(* ================================================================== *)
(** * The platform

    What the handlers call and this repository does not define: the
    [Date] constructor of the JavaScript engine, node-pg's text form of a
    query parameter, and the input functions PostgreSQL applies to a text
    parameter bound to an INTEGER or a TIMESTAMP column.  Timestamps are
    identified with the instant they denote, in milliseconds since the
    epoch. *)
(* ================================================================== *)

Class Platform : Type := {
  (** [new Date(v).getTime()], [None] for NaN (Invalid Date) *)
  Date_new : JsValue -> option Z;
  (** node-pg's [prepareValue] on a value that is neither null, nor a
      string, nor a number bound to an INTEGER column *)
  prepareValue : JsValue -> string;
  (** the integer input function; [None] is SQLSTATE 22P02 or 22003 *)
  int4in : string -> option Z;
  (** the timestamp input function; [None] is SQLSTATE 22007 *)
  timestamp_in : string -> option Z
}.

(* ================================================================== *)
(** * The data model *)
(* ================================================================== *)

(** [CREATE TABLE transactions], lines 51-60. *)
Record Transaction : Type := mkTransaction {
  id : Z;
  user_id : string;
  description : string;
  amount : Z;
  category : string;
  date : Z;
  created_at : Z
}.

(** Modelled from the spec: the [budget_categories] table, whose CREATE
    TABLE statement is not in the source.  The columns are those the
    queries of lines 109-178 name ([id], [user_id], [name], [amount],
    [created_at]), typed like their namesakes in [transactions]; section 3
    of the specification makes [name] unique per owner, the constraint
    whose violation line 135 reports. *)
Record BudgetCategory : Type := mkCategory {
  bc_id : Z;
  bc_user_id : string;
  bc_name : string;
  bc_amount : Z;
  bc_created_at : Z
}.

Record Tables : Type := mkTables {
  transactions : list Transaction;
  budget_categories : list BudgetCategory
}.

(** One result row: [RETURNING *] and [SELECT *] give whole rows,
    [SELECT id] gives the identifier alone. *)
Inductive Row : Type :=
| TransactionRow (t : Transaction)
| IdRow (i : Z)
| CategoryRow (c : BudgetCategory).

(** The 60-second window of line 262, in the unit of the clock
    (milliseconds), and the range of an INTEGER column. *)
Definition one_minute : Z := 60000.
Definition int4_min : Z := - 2147483648.
Definition int4_max : Z := 2147483647.

(* ================================================================== *)
(** * The storage layer *)
(* ================================================================== *)

(** The statements the handlers send, each with the parameter array of
    its call site.  [SelectTransactions] is the text assembled at lines
    200-213: the BETWEEN clause and the category clause are present or
    not. *)
Inductive Stmt : Type :=
| BEGIN
| COMMIT
| ROLLBACK
| SelectCategories (userId : JsValue)
| InsertCategory (userId name amount : JsValue)
| UpdateCategory (name amount categoryId userId : JsValue)
| DeleteCategory (categoryId userId : JsValue)
| SelectTransactions (userId : JsValue) (range : option (JsValue * JsValue))
    (category : option JsValue)
| SelectRecent (userId description amount category date : JsValue)
| InsertTransaction (userId description amount category date : JsValue)
| SelectOwned (transactionId userId : JsValue)
| UpdateTransaction (description amount category date transactionId userId : JsValue)
| DeleteTransaction (transactionId userId : JsValue).

(** The database as one connection sees it: the committed tables, the
    tables of the open transaction if there is one, and the two SERIAL
    sequences, which are not transactional. *)
Record Store : Type := mkStore {
  committed : Tables;
  pending : option Tables;
  transactions_id_seq : Z;
  budget_categories_id_seq : Z
}.

Definition visible (s : Store) : Tables :=
  match pending s with Some t => t | None => committed s end.

Definition write (s : Store) (t : Tables) : Store :=
  match pending s with
  | Some _ => mkStore (committed s) (Some t) (transactions_id_seq s) (budget_categories_id_seq s)
  | None => mkStore t None (transactions_id_seq s) (budget_categories_id_seq s)
  end.

Definition Result (A : Type) : Type := (JsError + A)%type.

Definition and_then {A B} (r : Result A) (k : A -> Result B) : Result B :=
  match r with inl e => inl e | inr a => k a end.

Notation "x <-- r ;; k" := (and_then r (fun x => k))
  (at level 61, r at next level, right associativity).

Definition pg_error (sqlstate msg : string) : JsError :=
  mkError (Some sqlstate) msg ("error: " ++ msg)%string.

Definition invalid_integer : JsError :=
  pg_error "22P02" "invalid input syntax for type integer".
Definition integer_out_of_range : JsError :=
  pg_error "22003" "value is out of range for type integer".
Definition invalid_timestamp : JsError :=
  pg_error "22007" "invalid input syntax for type timestamp".
Definition not_null_violation (column : string) : JsError :=
  pg_error "23502"
    ("null value in column " ++ column ++ " violates not-null constraint")%string.
Definition unique_violation (constraint : string) : JsError :=
  pg_error "23505"
    ("duplicate key value violates unique constraint " ++ constraint)%string.
Definition sequence_limit_exceeded : JsError :=
  pg_error "2200H" "nextval: reached maximum value of sequence".

(** The integer a finite number [m * 2^e] is, if it is one. *)
Definition integer_value (m e : Z) : option Z :=
  if 0 <=? e then Some (m * 2 ^ e)
  else if m mod 2 ^ (- e) =? 0 then Some (m / 2 ^ (- e))
  else None.

(** A number bound to an INTEGER column.  node-pg sends [String(n)] and
    the server reads it back as an integer: that succeeds exactly on the
    integers of the 32-bit range; "NaN", "Infinity" and a number with a
    fraction are not integer syntax (SQLSTATE 22P02), an integer outside
    the range is refused as well (22003, or 22P02 once [String(n)] takes
    the exponent form). *)
Definition int4_of_num (n : JsNum) : Result (option Z) :=
  match n with
  | NaN | Infinity _ => inl invalid_integer
  | Finite m e =>
      match integer_value m e with
      | Some z =>
          if (int4_min <=? z) && (z <=? int4_max) then inr (Some z)
          else inl integer_out_of_range
      | None => inl invalid_integer
      end
  end.

Section Storage.

Context {P : Platform}.

(** Parameter binding by column type; [inr None] is SQL NULL. *)
Definition bind_int4 (v : JsValue) : Result (option Z) :=
  match v with
  | JsUndefined | JsNull => inr None
  | JsNumber n => int4_of_num n
  | JsString s =>
      match int4in s with Some z => inr (Some z) | None => inl invalid_integer end
  | _ =>
      match int4in (prepareValue v) with
      | Some z => inr (Some z)
      | None => inl invalid_integer
      end
  end.

Definition bind_text (v : JsValue) : Result (option string) :=
  match v with
  | JsUndefined | JsNull => inr None
  | JsString s => inr (Some s)
  | _ => inr (Some (prepareValue v))
  end.

Definition bind_timestamp (v : JsValue) : Result (option Z) :=
  match v with
  | JsUndefined | JsNull => inr None
  | JsDate (Some t) => inr (Some t)
  | JsDate None => inl invalid_timestamp
  | JsString s =>
      match timestamp_in s with Some t => inr (Some t) | None => inl invalid_timestamp end
  | _ =>
      match timestamp_in (prepareValue v) with
      | Some t => inr (Some t)
      | None => inl invalid_timestamp
      end
  end.

(** A value written into a NOT NULL column: the constraint is checked on
    the row being written, after the parameters have been bound. *)
Definition required {A} (column : string) (o : option A) : Result A :=
  match o with Some a => inr a | None => inl (not_null_violation column) end.

(** [column = $n]: never true of NULL. *)
Definition eq_text (p : option string) (x : string) : bool :=
  match p with Some a => (a =? x)%string | None => false end.

Definition eq_int (p : option Z) (x : Z) : bool :=
  match p with Some a => a =? x | None => false end.

(** [column BETWEEN $lo AND $hi] *)
Definition between (lo hi : option Z) (x : Z) : bool :=
  match lo, hi with
  | Some l, Some h => (l <=? x) && (x <=? h)
  | _, _ => false
  end.

(* ------------------------------------------------------------------ *)
(** ** [transactions] *)

(** The key of [UNIQUE(user_id, description, amount, category, date)]. *)
Definition same_tuple (a b : Transaction) : bool :=
  (user_id a =? user_id b)%string && (description a =? description b)%string
  && (amount a =? amount b) && (category a =? category b)%string
  && (date a =? date b).

(** [ORDER BY date DESC, created_at DESC]: [a] may stand before [b]. *)
Definition newer_first (a b : Transaction) : bool :=
  (date b <? date a) || ((date b =? date a) && (created_at b <=? created_at a)).

Fixpoint insert_sorted {A} (before : A -> A -> bool) (x : A) (l : list A) : list A :=
  match l with
  | [] => [x]
  | y :: l' => if before x y then x :: l else y :: insert_sorted before x l'
  end.

Definition order_by {A} (before : A -> A -> bool) (l : list A) : list A :=
  fold_right (insert_sorted before) [] l.

(** Lines 256-262. *)
Definition select_recent (userId description_ amount_ category_ date_ : JsValue)
    (now : Z) (tb : Tables) : Result (list Row) :=
  u <-- bind_text userId ;;
  d <-- bind_text description_ ;;
  a <-- bind_int4 amount_ ;;
  c <-- bind_text category_ ;;
  t <-- bind_timestamp date_ ;;
  inr (map (fun r => IdRow (id r))
         (filter (fun r => eq_text u (user_id r) && eq_text d (description r)
                           && eq_int a (amount r) && eq_text c (category r)
                           && eq_int t (date r)
                           && (now - one_minute <? created_at r))
            (transactions tb))).

(** [nextval] on the sequence behind [id SERIAL] (line 52): the sequence
    has the type of the column, a 32-bit INTEGER, and hands out no value
    the column cannot hold; at its limit it raises SQLSTATE 2200H and stays
    where it is. *)
Definition nextval (seq : Z) : Result Z :=
  if (int4_min <=? seq) && (seq <=? int4_max) then inr seq
  else inl sequence_limit_exceeded.

(** Lines 276-279.  The identifier is drawn from the sequence before the
    constraints are checked, so a rejected insert still consumes it. *)
Definition insert_transaction (userId description_ amount_ category_ date_ : JsValue)
    (now : Z) (s : Store) : Result (list Row) * Store :=
  match (u <-- bind_text userId ;;
         d <-- bind_text description_ ;;
         a <-- bind_int4 amount_ ;;
         c <-- bind_text category_ ;;
         t <-- bind_timestamp date_ ;;
         i <-- nextval (transactions_id_seq s) ;;
         inr (u, d, a, c, t, i)) with
  | inl e => (inl e, s)
  | inr (u, d, a, c, t, i) =>
      let s' := mkStore (committed s) (pending s) (transactions_id_seq s + 1)
                  (budget_categories_id_seq s) in
      let tb := visible s in
      match (u' <-- required "user_id" u ;;
             d' <-- required "description" d ;;
             a' <-- required "amount" a ;;
             c' <-- required "category" c ;;
             t' <-- required "date" t ;;
             inr (mkTransaction i u' d' a' c' t' now)) with
      | inl e => (inl e, s')
      | inr new =>
          if existsb (fun r => id r =? id new) (transactions tb) then
            (inl (unique_violation "transactions_pkey"), s')
          else if existsb (same_tuple new) (transactions tb) then
            (inl (unique_violation
                    "transactions_user_id_description_amount_category_date_key"), s')
          else
            (inr [TransactionRow new],
             write s' (mkTables (transactions tb ++ [new]) (budget_categories tb)))
      end
  end.

(** Line 316. *)
Definition select_owned (transactionId userId : JsValue) (tb : Tables)
    : Result (list Row) :=
  i <-- bind_int4 transactionId ;;
  u <-- bind_text userId ;;
  inr (map (fun r => IdRow (id r))
         (filter (fun r => eq_int i (id r) && eq_text u (user_id r))
            (transactions tb))).

(** Lines 329-332.  With no row to update nothing is checked beyond the
    types of the parameters. *)
Definition update_transaction
    (description_ amount_ category_ date_ transactionId userId : JsValue)
    (s : Store) : Result (list Row) * Store :=
  match (d <-- bind_text description_ ;;
         a <-- bind_int4 amount_ ;;
         c <-- bind_text category_ ;;
         t <-- bind_timestamp date_ ;;
         i <-- bind_int4 transactionId ;;
         u <-- bind_text userId ;;
         inr (d, a, c, t, i, u)) with
  | inl e => (inl e, s)
  | inr (d, a, c, t, i, u) =>
      let tb := visible s in
      let hit r := eq_int i (id r) && eq_text u (user_id r) in
      if negb (existsb hit (transactions tb)) then (inr [], s)
      else
        match (d' <-- required "description" d ;;
               a' <-- required "amount" a ;;
               c' <-- required "category" c ;;
               t' <-- required "date" t ;;
               inr (d', a', c', t')) with
        | inl e => (inl e, s)
        | inr (d', a', c', t') =>
            let set r := mkTransaction (id r) (user_id r) d' a' c' t' (created_at r) in
            let rows := map (fun r => if hit r then set r else r) (transactions tb) in
            if existsb (fun r => hit r
                         && existsb (fun o => negb (id o =? id r)
                                              && same_tuple (set r) o) rows)
                 (transactions tb)
            then (inl (unique_violation
                         "transactions_user_id_description_amount_category_date_key"), s)
            else (inr (map (fun r => TransactionRow (set r))
                         (filter hit (transactions tb))),
                  write s (mkTables rows (budget_categories tb)))
        end
  end.

(** Line 357. *)
Definition delete_transaction (transactionId userId : JsValue) (s : Store)
    : Result (list Row) * Store :=
  match (i <-- bind_int4 transactionId ;;
         u <-- bind_text userId ;;
         inr (i, u)) with
  | inl e => (inl e, s)
  | inr (i, u) =>
      let tb := visible s in
      let hit r := eq_int i (id r) && eq_text u (user_id r) in
      (inr (map TransactionRow (filter hit (transactions tb))),
       write s (mkTables (filter (fun r => negb (hit r)) (transactions tb))
                  (budget_categories tb)))
  end.

(** Lines 200-213. *)
Definition select_transactions (userId : JsValue) (range : option (JsValue * JsValue))
    (category_ : option JsValue) (tb : Tables) : Result (list Row) :=
  u <-- bind_text userId ;;
  in_range <-- match range with
               | Some (startDate, endDate) =>
                   lo <-- bind_timestamp startDate ;;
                   hi <-- bind_timestamp endDate ;;
                   inr (between lo hi)
               | None => inr (fun _ => true)
               end ;;
  in_category <-- match category_ with
                  | Some c => c' <-- bind_text c ;; inr (eq_text c')
                  | None => inr (fun _ => true)
                  end ;;
  inr (map TransactionRow
         (order_by newer_first
            (filter (fun r => eq_text u (user_id r) && in_range (date r)
                              && in_category (category r))
               (transactions tb)))).

(* ------------------------------------------------------------------ *)
(** ** [budget_categories] *)

(** [ORDER BY created_at DESC] *)
Definition newest_first (a b : BudgetCategory) : bool :=
  bc_created_at b <=? bc_created_at a.

(** Line 109. *)
Definition select_categories (userId : JsValue) (tb : Tables) : Result (list Row) :=
  u <-- bind_text userId ;;
  inr (map CategoryRow
         (order_by newest_first
            (filter (fun r => eq_text u (bc_user_id r)) (budget_categories tb)))).

(** Line 129. *)
Definition insert_category (userId name amount_ : JsValue) (now : Z) (s : Store)
    : Result (list Row) * Store :=
  match (u <-- bind_text userId ;;
         n <-- bind_text name ;;
         a <-- bind_int4 amount_ ;;
         inr (u, n, a)) with
  | inl e => (inl e, s)
  | inr (u, n, a) =>
      let s' := mkStore (committed s) (pending s) (transactions_id_seq s)
                  (budget_categories_id_seq s + 1) in
      let tb := visible s in
      match (u' <-- required "user_id" u ;;
             n' <-- required "name" n ;;
             a' <-- required "amount" a ;;
             inr (mkCategory (budget_categories_id_seq s) u' n' a' now)) with
      | inl e => (inl e, s')
      | inr new =>
          if existsb (fun r => bc_id r =? bc_id new) (budget_categories tb) then
            (inl (unique_violation "budget_categories_pkey"), s')
          else if existsb (fun r => (bc_user_id r =? bc_user_id new)%string
                                    && (bc_name r =? bc_name new)%string)
                    (budget_categories tb) then
            (inl (unique_violation "budget_categories_user_id_name_key"), s')
          else
            (inr [CategoryRow new],
             write s' (mkTables (transactions tb) (budget_categories tb ++ [new])))
      end
  end.

(** Line 157. *)
Definition update_category (name amount_ categoryId userId : JsValue) (s : Store)
    : Result (list Row) * Store :=
  match (n <-- bind_text name ;;
         a <-- bind_int4 amount_ ;;
         i <-- bind_int4 categoryId ;;
         u <-- bind_text userId ;;
         inr (n, a, i, u)) with
  | inl e => (inl e, s)
  | inr (n, a, i, u) =>
      let tb := visible s in
      let hit r := eq_int i (bc_id r) && eq_text u (bc_user_id r) in
      if negb (existsb hit (budget_categories tb)) then (inr [], s)
      else
        match (n' <-- required "name" n ;;
               a' <-- required "amount" a ;;
               inr (n', a')) with
        | inl e => (inl e, s)
        | inr (n', a') =>
            let set r := mkCategory (bc_id r) (bc_user_id r) n' a' (bc_created_at r) in
            let rows := map (fun r => if hit r then set r else r) (budget_categories tb) in
            if existsb (fun r => hit r
                         && existsb (fun o => negb (bc_id o =? bc_id r)
                                              && (bc_user_id o =? bc_user_id r)%string
                                              && (bc_name o =? n')%string) rows)
                 (budget_categories tb)
            then (inl (unique_violation "budget_categories_user_id_name_key"), s)
            else (inr (map (fun r => CategoryRow (set r))
                         (filter hit (budget_categories tb))),
                  write s (mkTables (transactions tb) rows))
        end
  end.

(** Line 178. *)
Definition delete_category (categoryId userId : JsValue) (s : Store)
    : Result (list Row) * Store :=
  match (i <-- bind_int4 categoryId ;;
         u <-- bind_text userId ;;
         inr (i, u)) with
  | inl e => (inl e, s)
  | inr (i, u) =>
      let tb := visible s in
      let hit r := eq_int i (bc_id r) && eq_text u (bc_user_id r) in
      (inr (map CategoryRow (filter hit (budget_categories tb))),
       write s (mkTables (transactions tb)
                  (filter (fun r => negb (hit r)) (budget_categories tb))))
  end.

(* ------------------------------------------------------------------ *)
(** ** Executing a statement *)

(** A read leaves the store as it is. *)
Definition reading (r : Result (list Row)) (s : Store) : Result (list Row) * Store :=
  (r, s).

(** One statement at server time [now].  BEGIN opens a transaction on
    the committed tables (and is a warning, with no effect, inside one);
    COMMIT installs the tables of the open transaction; ROLLBACK drops
    them. *)
Definition exec (q : Stmt) (now : Z) (s : Store) : Result (list Row) * Store :=
  match q with
  | BEGIN =>
      (inr [], mkStore (committed s) (Some (visible s)) (transactions_id_seq s)
                 (budget_categories_id_seq s))
  | COMMIT =>
      (inr [], mkStore (visible s) None (transactions_id_seq s)
                 (budget_categories_id_seq s))
  | ROLLBACK =>
      (inr [], mkStore (committed s) None (transactions_id_seq s)
                 (budget_categories_id_seq s))
  | SelectCategories u => reading (select_categories u (visible s)) s
  | InsertCategory u n a => insert_category u n a now s
  | UpdateCategory n a i u => update_category n a i u s
  | DeleteCategory i u => delete_category i u s
  | SelectTransactions u range c => reading (select_transactions u range c (visible s)) s
  | SelectRecent u d a c t => reading (select_recent u d a c t now (visible s)) s
  | InsertTransaction u d a c t => insert_transaction u d a c t now s
  | SelectOwned i u => reading (select_owned i u (visible s)) s
  | UpdateTransaction d a c t i u => update_transaction d a c t i u s
  | DeleteTransaction i u => delete_transaction i u s
  end.

End Storage.

(* ================================================================== *)
(** * Asynchronous handlers *)
(* ================================================================== *)

(** What a request leaves behind on the pool. *)
Inductive Event : Type :=
| Connect
| Query (q : Stmt)
| Release.

(** The world a handler runs in: the store, the server clock of the
    request, the failures the storage connection is going to suffer (the
    [k]-th entry is the error that interrupts the [k]-th statement, if
    any), and the events so far. *)
Record World : Type := mkWorld {
  store : Store;
  clock : Z;
  faults : list (option JsError);
  log : list Event
}.

(** An awaited computation returns or throws. *)
Inductive Outcome (A : Type) : Type :=
| Returned (a : A)
| Thrown (e : JsError).

Arguments Returned {A} a.
Arguments Thrown {A} e.

Definition Async (A : Type) : Type := World -> Outcome A * World.

Definition ret {A} (a : A) : Async A := fun w => (Returned a, w).

Definition throw {A} (e : JsError) : Async A := fun w => (Thrown e, w).

Definition bind {A B} (m : Async A) (k : A -> Async B) : Async B :=
  fun w =>
    match m w with
    | (Returned a, w') => k a w'
    | (Thrown e, w') => (Thrown e, w')
    end.

Notation "x <- m ;; k" := (bind m (fun x => k))
  (at level 61, m at next level, right associativity).
Notation "m ;;; k" := (bind m (fun _ => k))
  (at level 61, right associativity).

(** [try { m } catch (err) { h err }] *)
Definition try_catch {A} (m : Async A) (h : JsError -> Async A) : Async A :=
  fun w =>
    match m w with
    | (Returned a, w') => (Returned a, w')
    | (Thrown e, w') => h e w'
    end.

(** [try { m } finally { f }] *)
Definition finally {A} (m : Async A) (f : Async unit) : Async A :=
  fun w =>
    match m w with
    | (r, w') =>
        match f w' with
        | (Returned _, w'') => (r, w'')
        | (Thrown e, w'') => (Thrown e, w'')
        end
    end.

Definition record (ev : Event) : Async unit :=
  fun w => (Returned tt, mkWorld (store w) (clock w) (faults w) (log w ++ [ev])).

(** [pool.connect()] and [client.release()] *)
Definition pool_connect : Async unit := record Connect.
Definition client_release : Async unit := record Release.

Section Application.

Context {P : Platform}.

(** [client.query(...)]: the statement is interrupted by the failure
    scheduled for it, or runs. *)
Definition client_query (q : Stmt) : Async (list Row) :=
  fun w =>
    let logged := log w ++ [Query q] in
    match faults w with
    | Some e :: rest => (Thrown e, mkWorld (store w) (clock w) rest logged)
    | _ =>
        let '(r, s) := exec q (clock w) (store w) in
        (match r with inl e => Thrown e | inr rows => Returned rows end,
         mkWorld s (clock w) (tl (faults w)) logged)
    end.

(** [pool.query(...)]: one statement on a pooled connection. *)
Definition pool_query (q : Stmt) : Async (list Row) := client_query q.

(* ------------------------------------------------------------------ *)
(** ** Requests and responses *)

Record Auth : Type := mkAuth { userId : JsValue }.

Record Request : Type := mkRequest {
  req_auth : option Auth;
  req_params_id : string;
  req_query : list (string * JsValue);
  req_body : list (string * JsValue)
}.

Record Response : Type := mkResponse {
  status : Z;
  json : JsValue
}.

(** [process.env] *)
Record Env : Type := mkEnv { NODE_ENV : option string }.

Definition transaction_json (t : Transaction) : JsValue :=
  JsObject [("id", JsInt (id t)); ("user_id", JsString (user_id t));
            ("description", JsString (description t)); ("amount", JsInt (amount t));
            ("category", JsString (category t)); ("date", JsDate (Some (date t)));
            ("created_at", JsDate (Some (created_at t)))].

Definition category_json (c : BudgetCategory) : JsValue :=
  JsObject [("id", JsInt (bc_id c)); ("user_id", JsString (bc_user_id c));
            ("name", JsString (bc_name c)); ("amount", JsInt (bc_amount c));
            ("created_at", JsDate (Some (bc_created_at c)))].

Definition row_json (r : Row) : JsValue :=
  match r with
  | TransactionRow t => transaction_json t
  | IdRow i => JsObject [("id", JsInt i)]
  | CategoryRow c => category_json c
  end.

(** [result.rows[0]] *)
Definition first_row (rows : list Row) : JsValue :=
  match rows with
  | r :: _ => row_json r
  | [] => JsUndefined
  end.

(** [rows[0].id] *)
Definition first_id (rows : list Row) : JsValue :=
  match rows with
  | TransactionRow t :: _ => JsInt (id t)
  | IdRow i :: _ => JsInt i
  | CategoryRow c :: _ => JsInt (bc_id c)
  | [] => JsUndefined
  end.

(** [req.auth.userId]: a TypeError when [req.auth] is undefined. *)
Definition auth_userId (req : Request) : Async JsValue :=
  match req_auth req with
  | Some a => ret (userId a)
  | None =>
      throw (mkError None "Cannot read properties of undefined (reading 'userId')"
               "TypeError")
  end.

(** [err.code === sqlstate] *)
Definition has_code (err : JsError) (sqlstate : string) : bool :=
  match code err with
  | Some c => (c =? sqlstate)%string
  | None => false
  end.

(** [process.env.NODE_ENV === mode] *)
Definition node_env_is (env : Env) (mode : string) : bool :=
  match NODE_ENV env with
  | Some m => (m =? mode)%string
  | None => false
  end.

(** The error-handling middleware, lines 381-398.  A key whose value is
    [undefined] is left out of the JSON body. *)
Definition errorHandler (env : Env) (err : JsError) : Response :=
  if has_code err "23505" then
    mkResponse 409
      (JsObject [("error", JsString "Conflict");
                 ("message", JsString "This transaction already exists")])
  else
    mkResponse 500
      (JsObject
         ([("error", JsString "Internal Server Error");
           ("message",
            JsString (if node_env_is env "production"
                      then "An unexpected error occurred"
                      else message err))]
          ++ (if node_env_is env "development"
              then [("stack", JsString (stack err))]
              else []))).

(** [next(err)] hands the error to the error-handling middleware. *)
Definition next (env : Env) (err : JsError) : Async Response :=
  ret (errorHandler env err).

Definition unauthorized : Response :=
  mkResponse 401
    (JsObject [("error", JsString "Unauthorized");
               ("message", JsString "Authentication required for this operation")]).

(** [req.auth?.userId], and [requireAuth] of lines 86-94; [handler] is
    what [next()] runs. *)
Definition optional_userId (req : Request) : JsValue :=
  match req_auth req with
  | Some a => userId a
  | None => JsUndefined
  end.

Definition requireAuth (req : Request) (handler : Async Response) : Async Response :=
  if negb (truthy (optional_userId req)) then ret unauthorized else handler.

Definition missing_fields (fields : list string) : Response :=
  mkResponse 400
    (JsObject [("error", JsString "Missing required fields");
               ("required", JsArray (map JsString fields))]).

Definition not_found (msg : string) : Response :=
  mkResponse 404 (JsObject [("error", JsString "Not found"); ("message", JsString msg)]).

(** [isNaN(d.getTime())] *)
Definition isNaN_getTime (d : JsValue) : bool :=
  match d with
  | JsDate (Some _) => false
  | _ => true
  end.

(** [rows.length === 0] *)
Definition no_rows (rows : list Row) : bool := (List.length rows =? 0)%nat.

(* ------------------------------------------------------------------ *)
(** ** Routes *)

(** GET /health, lines 97-99. *)
Definition get_health : Async Response :=
  fun w =>
    (Returned (mkResponse 200
                 (JsObject [("status", JsString "healthy");
                            ("timestamp", JsDate (Some (clock w)))])), w).

(** GET /budget-categories, lines 104-116. *)
Definition get_budget_categories (env : Env) (req : Request) : Async Response :=
  try_catch
    (userId <- auth_userId req ;;
     result <- pool_query (SelectCategories userId) ;;
     ret (mkResponse 200 (JsArray (map row_json result))))
    (next env).

(** POST /budget-categories, lines 119-143. *)
Definition post_budget_categories (env : Env) (req : Request) : Async Response :=
  try_catch
    (let name := get (req_body req) "name" in
     let amount := get (req_body req) "amount" in
     userId <- auth_userId req ;;
     if negb (truthy name) || is_undefined amount then
       ret (missing_fields ["name"; "amount"])
     else
       result <- pool_query (InsertCategory userId name amount) ;;
       ret (mkResponse 201 (first_row result)))
    (fun err =>
       if has_code err "23505" then
         ret (mkResponse 409
                (JsObject [("error", JsString "Duplicate category");
                           ("message",
                            JsString "A category with this name already exists for the user.")]))
       else next env err).

(** PUT /budget-categories/:id, lines 146-169. *)
Definition put_budget_categories (env : Env) (req : Request) : Async Response :=
  try_catch
    (let name := get (req_body req) "name" in
     let amount := get (req_body req) "amount" in
     userId <- auth_userId req ;;
     let categoryId := JsString (req_params_id req) in
     if negb (truthy name) || is_undefined amount then
       ret (missing_fields ["name"; "amount"])
     else
       result <- pool_query (UpdateCategory name amount categoryId userId) ;;
       if no_rows result then
         ret (not_found "Category not found or not authorized to update")
       else ret (mkResponse 200 (first_row result)))
    (next env).

(** DELETE /budget-categories/:id, lines 172-190. *)
Definition delete_budget_categories (env : Env) (req : Request) : Async Response :=
  try_catch
    (userId <- auth_userId req ;;
     let categoryId := JsString (req_params_id req) in
     result <- pool_query (DeleteCategory categoryId userId) ;;
     if no_rows result then
       ret (not_found "Category not found or not authorized to delete")
     else
       ret (mkResponse 200
              (JsObject [("message", JsString "Category deleted successfully");
                         ("id", categoryId)])))
    (next env).

(** GET /transactions, lines 195-221. *)
Definition get_transactions (env : Env) (req : Request) : Async Response :=
  try_catch
    (userId <- auth_userId req ;;
     let startDate := get (req_query req) "startDate" in
     let endDate := get (req_query req) "endDate" in
     let category := get (req_query req) "category" in
     let range := if truthy startDate && truthy endDate
                  then Some (startDate, endDate) else None in
     let by_category := if truthy category then Some category else None in
     result <- pool_query (SelectTransactions userId range by_category) ;;
     ret (mkResponse 200 (JsArray (map row_json result))))
    (next env).

(** The conflict answer of lines 268-272. *)
Definition duplicate_transaction (duplicateId : JsValue) : Response :=
  mkResponse 409
    (JsObject
       [("error", JsString "Duplicate transaction");
        ("message",
         JsString "A similar transaction was submitted in the last minute. Please wait or modify the details.");
        ("duplicateId", duplicateId)]).

(** The storage transaction of POST /transactions, lines 253-285: what
    the handler runs once the request has passed validation. *)
Definition write_guard (userId description amount category transactionDate : JsValue)
    : Async Response :=
  client_query BEGIN ;;;
  existingTransaction <-
    client_query (SelectRecent userId description amount category transactionDate) ;;
  if negb (no_rows existingTransaction) then
    client_query ROLLBACK ;;;
    ret (duplicate_transaction (first_id existingTransaction))
  else
    result <-
      client_query (InsertTransaction userId description amount category
                      transactionDate) ;;
    client_query COMMIT ;;;
    ret (mkResponse 201 (first_row result)).

(** POST /transactions, lines 224-293. *)
Definition post_transactions (env : Env) (req : Request) : Async Response :=
  pool_connect ;;;
  finally
    (try_catch
       (let description := get (req_body req) "description" in
        let amount := get (req_body req) "amount" in
        let category := get (req_body req) "category" in
        let date := get (req_body req) "date" in
        userId <- auth_userId req ;;
        if negb (truthy description) || is_undefined amount
           || negb (truthy category) || negb (truthy date) then
          ret (missing_fields ["description"; "amount"; "category"; "date"])
        else if not_a_valid_number amount then
          ret (mkResponse 400
                 (JsObject [("error", JsString "Invalid amount");
                            ("message", JsString "Amount must be a valid number")]))
        else
          let transactionDate := JsDate (Date_new date) in
          if isNaN_getTime transactionDate then
            ret (mkResponse 400
                   (JsObject [("error", JsString "Invalid date format");
                              ("message", JsString "Please provide a valid date")]))
          else write_guard userId description amount category transactionDate)
       (fun err => client_query ROLLBACK ;;; next env err))
    client_release.

(** PUT /transactions/:id, lines 296-346. *)
Definition put_transactions (env : Env) (req : Request) : Async Response :=
  pool_connect ;;;
  finally
    (try_catch
       (let description := get (req_body req) "description" in
        let amount := get (req_body req) "amount" in
        let category := get (req_body req) "category" in
        let date := get (req_body req) "date" in
        userId <- auth_userId req ;;
        let transactionId := JsString (req_params_id req) in
        if negb (truthy description) || is_undefined amount
           || negb (truthy category) || negb (truthy date) then
          ret (missing_fields ["description"; "amount"; "category"; "date"])
        else
          let transactionDate := JsDate (Date_new date) in
          if isNaN_getTime transactionDate then
            ret (mkResponse 400 (JsObject [("error", JsString "Invalid date format")]))
          else
            client_query BEGIN ;;;
            existingTransaction <- client_query (SelectOwned transactionId userId) ;;
            if no_rows existingTransaction then
              client_query ROLLBACK ;;;
              ret (not_found "Transaction not found or not authorized to update")
            else
              result <-
                client_query (UpdateTransaction description amount category
                                transactionDate transactionId userId) ;;
              client_query COMMIT ;;;
              ret (mkResponse 200 (first_row result)))
       (fun err => client_query ROLLBACK ;;; next env err))
    client_release.

(** DELETE /transactions/:id, lines 349-378. *)
Definition delete_transactions (env : Env) (req : Request) : Async Response :=
  pool_connect ;;;
  finally
    (try_catch
       (let transactionId := JsNumber (parseInt (req_params_id req)) in
        userId <- auth_userId req ;;
        result <- client_query (DeleteTransaction transactionId userId) ;;
        if no_rows result then
          ret (not_found "Transaction not found or not authorized to delete")
        else
          ret (mkResponse 200
                 (JsObject [("message", JsString "Transaction deleted successfully");
                            ("id", transactionId)])))
       (next env))
    client_release.

(** The routing table: every route but the health probe is registered
    behind [requireAuth].  [app] is the application from its routes on:
    what runs once the middleware of lines 12-33 has filled in [req.auth]
    and [req.body]; [handle] below puts the body parser in front. *)
Inductive Route : Type :=
| GET_health
| GET_budget_categories
| POST_budget_categories
| PUT_budget_categories_id
| DELETE_budget_categories_id
| GET_transactions
| POST_transactions
| PUT_transactions_id
| DELETE_transactions_id.

Definition protected (r : Route) : bool :=
  match r with GET_health => false | _ => true end.

Definition app (env : Env) (r : Route) (req : Request) : Async Response :=
  match r with
  | GET_health => get_health
  | GET_budget_categories => requireAuth req (get_budget_categories env req)
  | POST_budget_categories => requireAuth req (post_budget_categories env req)
  | PUT_budget_categories_id => requireAuth req (put_budget_categories env req)
  | DELETE_budget_categories_id => requireAuth req (delete_budget_categories env req)
  | GET_transactions => requireAuth req (get_transactions env req)
  | POST_transactions => requireAuth req (post_transactions env req)
  | PUT_transactions_id => requireAuth req (put_transactions env req)
  | DELETE_transactions_id => requireAuth req (delete_transactions env req)
  end.

(* ------------------------------------------------------------------ *)
(** ** The middleware in front of the routes *)

(** What [express.json()] (line 33) makes of the body of a request: the
    object it leaves in [req.body] (the empty object when the request
    carries no JSON), or, for a body it refuses (text that is not JSON, a
    body over the size limit, a request that breaks off), the error it
    passes to [next]. *)
Inductive Body : Type :=
| Parsed (fields : list (string * JsValue))
| Refused (err : JsError).

(** A request as it reaches the application: what [clerkMiddleware]
    (line 12) resolved of the caller, the path parameter, the query string
    and the body. *)
Record Incoming : Type := mkIncoming {
  in_auth : option Auth;
  in_params_id : string;
  in_query : list (string * JsValue);
  in_body : Body
}.

Definition express_json (b : Body) : Result (list (string * JsValue)) :=
  match b with
  | Parsed o => inr o
  | Refused e => inl e
  end.

(** The middleware and the routes in the order of their registration:
    the body parser runs before every route, [requireAuth] included, and
    what it passes to [next] goes past the routes to the error-handling
    middleware of line 381. *)
Definition handle (env : Env) (r : Route) (inc : Incoming) : Async Response :=
  match express_json (in_body inc) with
  | inr o => app env r (mkRequest (in_auth inc) (in_params_id inc) (in_query inc) o)
  | inl e => next env e
  end.

End Application.

(* ================================================================== *)
(** * Vocabulary of the properties *)
(* ================================================================== *)

(** The key of the uniqueness constraint of line 59. *)
Record Key : Type := mkKey {
  key_user : string;
  key_description : string;
  key_amount : Z;
  key_category : string;
  key_date : Z
}.

Definition key_of (r : Transaction) : Key :=
  mkKey (user_id r) (description r) (amount r) (category r) (date r).

Definition has_key (k : Key) (r : Transaction) : bool :=
  (key_user k =? user_id r)%string && (key_description k =? description r)%string
  && (key_amount k =? amount r) && (key_category k =? category r)%string
  && (key_date k =? date r).

(** [created_at > NOW() - INTERVAL '1 minute'] *)
Definition within_window (now : Z) (r : Transaction) : bool :=
  now - one_minute <? created_at r.

(** A connection with no transaction open. *)
Definition idle (s : Store) : Prop := pending s = None.

(** Every row the store holds, committed or written by the open
    transaction. *)
Definition all_rows (s : Store) : list Transaction :=
  transactions (committed s)
  ++ match pending s with Some t => transactions t | None => [] end.

(** The row a successful insert of key [k] writes at server time [now]:
    the next value of the sequence and [CURRENT_TIMESTAMP]. *)
Definition created (s : Store) (k : Key) (now : Z) : Transaction :=
  mkTransaction (transactions_id_seq s) (key_user k) (key_description k)
    (key_amount k) (key_category k) (key_date k) now.

(** The store once BEGIN has run on an idle connection. *)
Definition begun (s : Store) : Store :=
  mkStore (committed s) (Some (committed s)) (transactions_id_seq s)
    (budget_categories_id_seq s).

(** [id = $1 AND user_id = $2] of line 357, for parameters [i] and [u]. *)
Definition mine (i : Z) (u : string) (r : Transaction) : bool :=
  (i =? id r) && (u =? user_id r)%string.

(** [id = $3 AND user_id = $4] of lines 157 and 178. *)
Definition mine_category (i : Z) (u : string) (r : BudgetCategory) : bool :=
  (i =? bc_id r) && (u =? bc_user_id r)%string.

(** The rows of owner [a]. *)
Definition owned_by (a : string) (r : Transaction) : bool := (a =? user_id r)%string.

Definition category_owned_by (a : string) (c : BudgetCategory) : bool :=
  (a =? bc_user_id c)%string.

(** What owner [a] holds in the tables; two stores with the same view
    differ only in rows of other owners, and two worlds are alike when
    moreover the clock and the coming failures are the same. *)
Definition view (a : string) (t : Tables) : Tables :=
  mkTables (filter (owned_by a) (transactions t))
    (filter (category_owned_by a) (budget_categories t)).

Definition same_view (a : string) (s1 s2 : Store) : Prop :=
  view a (committed s1) = view a (committed s2)
  /\ option_map (view a) (pending s1) = option_map (view a) (pending s2).

Definition alike (a : string) (w1 w2 : World) : Prop :=
  same_view a (store w1) (store w2) /\ clock w1 = clock w2 /\ faults w1 = faults w2.

(** A computation that, from alike worlds, gives the same outcome and
    leaves alike worlds. *)
Definition lockstep {A} (a : string) (m : Async A) : Prop :=
  forall w1 w2, alike a w1 w2 ->
    fst (m w1) = fst (m w2) /\ alike a (snd (m w1)) (snd (m w2)).

(** The store without the transaction [r] and the category [c]. *)
Definition without (r : Transaction) (c : BudgetCategory) (s : Store) : Store :=
  mkStore
    (mkTables (filter (fun x => negb (id x =? id r)) (transactions (committed s)))
       (filter (fun x => negb (bc_id x =? bc_id c)) (budget_categories (committed s))))
    (pending s) (transactions_id_seq s) (budget_categories_id_seq s).

(** [ORDER BY date DESC, created_at DESC] as a relation. *)
Definition date_then_creation_desc (a b : Transaction) : Prop :=
  date b < date a \/ (date b = date a /\ created_at b <= created_at a).

(** [req.auth?.userId] of an incoming request. *)
Definition identity (inc : Incoming) : JsValue :=
  match in_auth inc with
  | Some a => userId a
  | None => JsUndefined
  end.

(** The uniqueness constraint of line 59 as a property of a table. *)
Definition unique_constraint (rows : list Transaction) : Prop :=
  forall a b, In a rows -> In b rows -> has_key (key_of a) b = true -> a = b.

Section Vocabulary.

Context {P : Platform}.

(** The tuple a create request denotes, as the storage layer binds its
    five parameters; [None] when one of them is null or is not a value of
    its column's type. *)
Definition bound_key (userId description_ amount_ category_ date_ : JsValue)
    : option Key :=
  match bind_text userId, bind_text description_, bind_int4 amount_,
        bind_text category_, bind_timestamp date_ with
  | inr (Some u), inr (Some d), inr (Some a), inr (Some c), inr (Some t) =>
      Some (mkKey u d a c t)
  | _, _, _, _, _ => None
  end.

Definition request_key (req : Request) : option Key :=
  bound_key (optional_userId req) (get (req_body req) "description")
    (get (req_body req) "amount") (get (req_body req) "category")
    (JsDate (Date_new (get (req_body req) "date"))).

(** The required-field test of lines 231 and 304. *)
Definition required_missing (req : Request) : bool :=
  negb (truthy (get (req_body req) "description"))
  || is_undefined (get (req_body req) "amount")
  || negb (truthy (get (req_body req) "category"))
  || negb (truthy (get (req_body req) "date")).

(** The required-field test of lines 124 and 152. *)
Definition category_fields_missing (req : Request) : bool :=
  negb (truthy (get (req_body req) "name"))
  || is_undefined (get (req_body req) "amount").

(** The parameters of the duplicate check and of the insert. *)
Definition select_of (req : Request) : Stmt :=
  SelectRecent (optional_userId req) (get (req_body req) "description")
    (get (req_body req) "amount") (get (req_body req) "category")
    (JsDate (Date_new (get (req_body req) "date"))).

Definition insert_of (req : Request) : Stmt :=
  InsertTransaction (optional_userId req) (get (req_body req) "description")
    (get (req_body req) "amount") (get (req_body req) "category")
    (JsDate (Date_new (get (req_body req) "date"))).

(** The statement and the success answer of DELETE /transactions/:id. *)
Definition deleted_of (req : Request) : Stmt :=
  DeleteTransaction (JsNumber (parseInt (req_params_id req))) (optional_userId req).

Definition transaction_deleted (i : JsValue) : Response :=
  mkResponse 200
    (JsObject [("message", JsString "Transaction deleted successfully"); ("id", i)]).

(** What every run of POST /transactions guarantees, whatever the store
    and whatever failures strike. *)
Definition create_post (req : Request) (s : Store) (now : Z)
    (out : Outcome Response) (w' : World) : Prop :=
  (forall r, In r (all_rows (store w')) ->
     In r (all_rows s) \/ exists k, request_key req = Some k /\ r = created s k now)
  /\ (idle s ->
      committed (store w') = committed s
      \/ exists k, request_key req = Some k
           /\ out = Returned (mkResponse 201 (transaction_json (created s k now)))
           /\ committed (store w')
              = mkTables (transactions (committed s) ++ [created s k now])
                  (budget_categories (committed s)))
  /\ (forall dup, out = Returned (duplicate_transaction dup) ->
      exists k r, request_key req = Some k /\ In r (all_rows s)
        /\ has_key k r = true /\ within_window now r = true /\ dup = JsInt (id r))
  /\ (out = Returned (missing_fields ["description"; "amount"; "category"; "date"]) ->
      required_missing req = true).

(** A statement whose result, on stores with the same view for [a], is
    the same and leaves stores with the same view. *)
Definition scoped (a : string) (q : Stmt) : Prop :=
  forall now s1 s2, same_view a s1 s2 ->
    fst (exec q now s1) = fst (exec q now s2)
    /\ same_view a (snd (exec q now s1)) (snd (exec q now s2)).

(** The three checks of lines 231-251. *)
Definition passes_validation (req : Request) : bool :=
  truthy (get (req_body req) "description")
  && negb (is_undefined (get (req_body req) "amount"))
  && truthy (get (req_body req) "category")
  && truthy (get (req_body req) "date")
  && negb (not_a_valid_number (get (req_body req) "amount"))
  && negb (isNaN_getTime (JsDate (Date_new (get (req_body req) "date")))).

End Vocabulary.

(* ================================================================== *)
(** * Vocabulary of the further properties *)
(* ================================================================== *)

(** A computation that keeps a property of the store, however it ends. *)
Definition keeps {A} (Inv : Store -> Prop) (m : Async A) : Prop :=
  forall w, Inv (store w) -> Inv (store (snd (m w))).

(** What lines 52 and 59 declare of one version of the table, with the
    sequence of [id] ahead of every identifier in use. *)
Definition well_formed (seq : Z) (t : Tables) : Prop :=
  NoDup (map id (transactions t))
  /\ unique_constraint (transactions t)
  /\ forall r, In r (transactions t) -> id r < seq.

Definition consistent (s : Store) : Prop :=
  well_formed (transactions_id_seq s) (committed s)
  /\ forall t, pending s = Some t -> well_formed (transactions_id_seq s) t.

(** The rows of everybody but [a]. *)
Definition foreign (a : string) (t : Tables) : Tables :=
  mkTables (filter (fun r => negb (owned_by a r)) (transactions t))
    (filter (fun c => negb (category_owned_by a c)) (budget_categories t)).

(** Every version of the tables the store holds has [others] as the rows
    of everybody but [a]. *)
Definition foreign_rows (a : string) (others : Tables) (s : Store) : Prop :=
  foreign a (committed s) = others
  /\ forall t, pending s = Some t -> foreign a t = others.

(** The [userId] parameter of a statement. *)
Definition on_behalf_of (q : Stmt) : option JsValue :=
  match q with
  | BEGIN | COMMIT | ROLLBACK => None
  | SelectCategories u | InsertCategory u _ _ | UpdateCategory _ _ _ u
  | DeleteCategory _ u | SelectTransactions u _ _ | SelectRecent u _ _ _ _
  | InsertTransaction u _ _ _ _ | SelectOwned _ u | UpdateTransaction _ _ _ _ _ u
  | DeleteTransaction _ u => Some u
  end.

(** The routes that check a client out of the pool (lines 225, 297 and
    350), and those whose catch block awaits a ROLLBACK of its own (lines
    288 and 341). *)
Definition takes_a_client (r : Route) : bool :=
  match r with
  | POST_transactions | PUT_transactions_id | DELETE_transactions_id => true
  | _ => false
  end.

Definition rolls_back (r : Route) : bool :=
  match r with
  | POST_transactions | PUT_transactions_id => true
  | _ => false
  end.

(** A computation that leaves nothing but statements on the pool. *)
Definition statements_only {A} (m : Async A) : Prop :=
  forall w, exists qs, log (snd (m w)) = log w ++ map Query qs.

(** A computation that only uses up scheduled failures, and one that
    moreover throws nothing but one of them. *)
Definition consumes {A} (m : Async A) : Prop :=
  forall w, incl (faults (snd (m w))) (faults w).

Definition contained {A} (m : Async A) : Prop :=
  forall w e, fst (m w) = Thrown e -> In (Some e) (faults w).

Definition never_rejects {A} (m : Async A) : Prop :=
  forall w e, fst (m w) <> Thrown e.

(** What an UPDATE of lines 329-332 makes of the row [r] when the new
    values are those of the key [k]: [id], [user_id] and [created_at] are
    not assigned. *)
Definition updated (r : Transaction) (k : Key) : Transaction :=
  mkTransaction (id r) (user_id r) (key_description k) (key_amount k)
    (key_category k) (key_date k) (created_at r).

(** The conflict answer of lines 136-139. *)
Definition duplicate_category : Response :=
  mkResponse 409
    (JsObject [("error", JsString "Duplicate category");
               ("message",
                JsString "A category with this name already exists for the user.")]).

(** The routes that only read (lines 97, 104 and 195). *)
Definition only_reads (r : Route) : bool :=
  match r with
  | GET_health | GET_budget_categories | GET_transactions => true
  | _ => false
  end.

(** [ORDER BY created_at DESC] of line 109 as a relation. *)
Definition creation_desc (a b : BudgetCategory) : Prop :=
  bc_created_at b <= bc_created_at a.

(** The success answer of DELETE /budget-categories/:id, line 186. *)
Definition category_deleted (categoryId : JsValue) : Response :=
  mkResponse 200
    (JsObject [("message", JsString "Category deleted successfully");
               ("id", categoryId)]).

(** The status codes a route sets: those of its own [res.status] calls
    (200 where none is made), 401 of [requireAuth], and 409 and 500 of
    the error handler. *)
Definition statuses (r : Route) : list Z :=
  match r with
  | GET_health => [200]
  | GET_budget_categories | GET_transactions => [200; 401; 409; 500]
  | POST_budget_categories | POST_transactions => [201; 400; 401; 409; 500]
  | PUT_budget_categories_id | PUT_transactions_id => [200; 400; 401; 404; 409; 500]
  | DELETE_budget_categories_id | DELETE_transactions_id => [200; 401; 404; 409; 500]
  end.

(** A computation that answers with one of the given status codes, if it
    answers. *)
Definition answers_within (codes : list Z) (m : Async Response) : Prop :=
  forall w resp, fst (m w) = Returned resp -> In (status resp) codes.

Section Statements.

Context {P : Platform}.

(** A statement that keeps a property of the store, whatever its
    parameters and its result. *)
Definition statement_keeps (Inv : Store -> Prop) (q : Stmt) : Prop :=
  forall now s, Inv s -> Inv (snd (exec q now s)).

(** The two statements of PUT /transactions/:id. *)
Definition owned_of (req : Request) : Stmt :=
  SelectOwned (JsString (req_params_id req)) (optional_userId req).

Definition update_of (req : Request) : Stmt :=
  UpdateTransaction (get (req_body req) "description") (get (req_body req) "amount")
    (get (req_body req) "category") (JsDate (Date_new (get (req_body req) "date")))
    (JsString (req_params_id req)) (optional_userId req).

End Statements.

(* ================================================================== *)
(** * A sample platform

    A small concrete instance, to run the handlers on: the ISO dates of
    three days, decimal integers. *)
(* ================================================================== *)

Module Sample.

Definition day (s : string) : option Z :=
  if (s =? "2024-01-01")%string then Some 1704067200000
  else if (s =? "2024-01-02")%string then Some 1704153600000
  else if (s =? "2024-01-31")%string then Some 1706659200000
  else None.

Fixpoint digits (s : string) (acc : Z) : option Z :=
  match s with
  | EmptyString => Some acc
  | String c s' =>
      match digit_value 10 c with
      | Some d => digits s' (acc * 10 + d)
      | None => None
      end
  end.

(** An optionally signed, non-empty string of decimal digits within the
    INTEGER range. *)
Definition decimal (s : string) : option Z :=
  let '(sign, r) := match s with
                    | String "-" r => (-1, r)
                    | _ => (1, s)
                    end in
  match r with
  | EmptyString => None
  | _ =>
      match digits r 0 with
      | Some z =>
          if (int4_min <=? sign * z) && (sign * z <=? int4_max)
          then Some (sign * z) else None
      | None => None
      end
  end.

#[export] Instance platform : Platform := {|
  Date_new v := match v with
                | JsString s => day s
                | JsNumber (Finite m 0) => Some m
                | _ => None
                end;
  prepareValue v := match v with
                    | JsBool true => "true"
                    | JsBool false => "false"
                    | _ => "{}"
                    end;
  int4in := decimal;
  timestamp_in := day
|}.

Definition env : Env := mkEnv (Some "production").

Definition alice : option Auth := Some (mkAuth (JsString "alice")).
Definition bob : option Auth := Some (mkAuth (JsString "bob")).

Definition coffee : list (string * JsValue) :=
  [("description", JsString "Coffee"); ("amount", JsInt 450);
   ("category", JsString "Food"); ("date", JsString "2024-01-01")].

Definition coffee_row : Transaction :=
  mkTransaction 1 "alice" "Coffee" 450 "Food" 1704067200000 1000000.

Definition empty_store : Store := mkStore (mkTables [] []) None 1 1.

Definition coffee_store : Store := mkStore (mkTables [coffee_row] []) None 2 1.

Definition coffee_key : Key := mkKey "alice" "Coffee" 450 "Food" 1704067200000.

Definition create_coffee : Request := mkRequest alice "" [] coffee.

(** The body [{"description":"Coffee","amount":1e999,"category":"Food",
    "date":"2024-01-01"}]: JSON.parse reads [1e999] as Infinity. *)
Definition infinite_coffee : Request :=
  mkRequest alice "" []
    [("description", JsString "Coffee"); ("amount", JsNumber (Infinity false));
     ("category", JsString "Food"); ("date", JsString "2024-01-01")].

Definition tea : list (string * JsValue) :=
  [("description", JsString "Tea"); ("amount", JsInt 0);
   ("category", JsString "Food"); ("date", JsString "2024-01-02");
   ("name", JsString "Drinks")].

Definition create_tea : Request := mkRequest alice "" [] tea.

Definition tea_row : Transaction :=
  mkTransaction 2 "bob" "Tea" 300 "Food" 1704153600000 1000500.

Definition rent : BudgetCategory := mkCategory 2 "bob" "Rent" 90000 1000600.

Definition shared_store : Store :=
  mkStore (mkTables [coffee_row; tea_row] [rent]) None 3 3.

Definition seventh_row : Transaction :=
  mkTransaction 7 "alice" "Lunch" 1200 "Food" 1704153600000 1000700.

Definition seventh_store : Store := mkStore (mkTables [seventh_row] []) None 8 1.

(** A connection lost while a statement runs. *)
Definition connection_lost : JsError :=
  mkError (Some "57P01") "connection terminated unexpectedly"
    "error: connection terminated unexpectedly".

Definition january : list (string * JsValue) :=
  [("startDate", JsString "2024-01-01"); ("endDate", JsString "2024-01-31")].


Definition lunch : list (string * JsValue) :=
  [("description", JsString "Lunch"); ("amount", JsInt 1200);
   ("category", JsString "Food"); ("date", JsString "2024-01-02")].

Definition lunch_key : Key := mkKey "alice" "Lunch" 1200 "Food" 1704153600000.

(** The body [{"description":"Coffee","amount":null,"category":"Food",
    "date":"2024-01-01"}]. *)
Definition priceless : list (string * JsValue) :=
  [("description", JsString "Coffee"); ("amount", JsNull);
   ("category", JsString "Food"); ("date", JsString "2024-01-01")].


Definition both_store : Store :=
  mkStore (mkTables [coffee_row; seventh_row] []) None 8 1.

Definition groceries : BudgetCategory := mkCategory 1 "alice" "Groceries" 40000 1000100.

Definition drinks : BudgetCategory := mkCategory 3 "alice" "Drinks" 5000 1000800.

Definition category_store : Store :=
  mkStore (mkTables [] [groceries; rent; drinks]) None 1 4.

(** The body [{"description":"Coffee","amount":4.5,"category":"Food",
    "date":"2024-01-01"}]: 4.5 is 9 * 2^-1. *)
(** Two requests that carry no identity: one with the sample body, one
    whose body breaks off, which the body parser refuses. *)
Definition anonymous_coffee : Incoming := mkIncoming None "" [] (Parsed coffee).

Definition truncated : Incoming :=
  mkIncoming None "" []
    (Refused (mkError None "Unexpected end of JSON input"
                "SyntaxError: Unexpected end of JSON input")).

Definition fraction : list (string * JsValue) :=
  [("description", JsString "Coffee"); ("amount", JsNumber (Finite 9 (-1)));
   ("category", JsString "Food"); ("date", JsString "2024-01-01")].

End Sample.

(* ================================================================== *)
(** * Running the handlers *)
(* ================================================================== *)

Section Runs.

Context {P : Platform}.

Lemma existsb_false_forall {A} (f : A -> bool) l :
  (forall x, In x l -> f x = false) -> existsb f l = false.
Proof.
  intros H. induction l as [|x l IH]; cbn; [reflexivity|].
  rewrite (H x (or_introl eq_refl)). apply IH. intros y Hy. apply H. right. exact Hy.
Qed.

Lemma filter_none {A} (f : A -> bool) l :
  (forall x, In x l -> f x = false) -> filter f l = [].
Proof.
  intros H. induction l as [|x l IH]; cbn; [reflexivity|].
  rewrite (H x (or_introl eq_refl)). apply IH. intros y Hy. apply H. right. exact Hy.
Qed.

Lemma filter_all {A} (f : A -> bool) l :
  (forall x, In x l -> f x = true) -> filter f l = l.
Proof.
  intros H. induction l as [|x l IH]; cbn; [reflexivity|].
  rewrite (H x (or_introl eq_refl)). f_equal. apply IH. intros y Hy. apply H. right. exact Hy.
Qed.

Lemma map_unchanged {A} (hit : A -> bool) (set : A -> A) l :
  (forall x, In x l -> hit x = false) ->
  map (fun r => if hit r then set r else r) l = l.
Proof.
  intros H. induction l as [|x l IH]; cbn; [reflexivity|].
  rewrite (H x (or_introl eq_refl)). f_equal. apply IH. intros y Hy. apply H. right. exact Hy.
Qed.

Lemma filter_within_in {A} (f p : A -> bool) l :
  (forall x, In x l -> f x = true -> p x = true) -> filter f (filter p l) = filter f l.
Proof.
  induction l as [|x l IH]; intros H; cbn; [reflexivity|].
  assert (IH' : filter f (filter p l) = filter f l)
    by (apply IH; intros y Hy; apply H; right; exact Hy).
  destruct (p x) eqn:Hp; cbn; rewrite IH'; [reflexivity|].
  destruct (f x) eqn:Hf; [|reflexivity].
  rewrite (H x (or_introl eq_refl) Hf) in Hp. discriminate Hp.
Qed.

Lemma has_key_iff k r : has_key k r = true <-> key_of r = k.
Proof.
  unfold has_key, key_of. destruct k as [u d a c t]; cbn.
  rewrite !andb_true_iff, !String.eqb_eq, !Z.eqb_eq.
  split.
  - intros ((((-> & ->) & ->) & ->) & ->). reflexivity.
  - intros H; inversion H; auto.
Qed.

Lemma has_key_created k s now : has_key k (created s k now) = true.
Proof. apply has_key_iff. destruct k; reflexivity. Qed.

Lemma int4_of_num_integer n :
  int4_min <= n <= int4_max -> int4_of_num (Finite n 0) = inr (Some n).
Proof.
  intros [Hlo Hhi]. unfold int4_of_num, integer_value. cbn [Z.leb Z.compare].
  change (2 ^ 0) with 1. rewrite Z.mul_1_r.
  apply Z.leb_le in Hlo, Hhi. rewrite Hlo, Hhi. reflexivity.
Qed.

Lemma int4_of_num_out_of_range n :
  n < int4_min \/ int4_max < n -> int4_of_num (Finite n 0) = inl integer_out_of_range.
Proof.
  intros H. unfold int4_of_num, integer_value. cbn [Z.leb Z.compare].
  rewrite Z.pow_0_r, Z.mul_1_r.
  destruct ((int4_min <=? n) && (n <=? int4_max)) eqn:E; [|reflexivity].
  apply andb_true_iff in E. destruct E as [E1 E2].
  apply Z.leb_le in E1. apply Z.leb_le in E2. lia.
Qed.

Lemma int4_of_num_refusal n e : int4_of_num n = inl e -> has_code e "23505" = false.
Proof.
  unfold int4_of_num. destruct n as [| |m x]; try (intros [= <-]; reflexivity).
  destruct (integer_value m x) as [z|]; [|intros [= <-]; reflexivity].
  destruct ((int4_min <=? z) && (z <=? int4_max)); [discriminate|].
  intros [= <-]. reflexivity.
Qed.

(** An integer outside the INTEGER range is refused after rounding, too:
    the nearest double is then at least 2^53 in magnitude, or infinite. *)
Lemma to_double_out_of_range n :
  n < int4_min \/ int4_max < n -> exists e, int4_of_num (to_double n) = inl e.
Proof.
  intros Hout. unfold to_double.
  set (a := Z.abs n). set (k := Z.log2 a - 52).
  destruct (k <=? 0) eqn:Hk.
  { exists integer_out_of_range. apply int4_of_num_out_of_range. exact Hout. }
  apply Z.leb_gt in Hk.
  set (q := a / 2 ^ k).
  set (q' := if (2 ^ (k - 1) <? a mod 2 ^ k) || ((a mod 2 ^ k =? 2 ^ (k - 1)) && Z.odd q)
             then q + 1 else q).
  destruct (1024 <=? Z.log2 (q' * 2 ^ k)); [exists invalid_integer; reflexivity|].
  assert (Ha : 0 < a).
  { destruct (Z.eq_dec a 0) as [E|E]; [|subst a; lia].
    exfalso. subst k. rewrite E in Hk. cbn in Hk. lia. }
  assert (Hpow : 2 ^ k * 2 ^ 52 <= a).
  { rewrite <- Z.pow_add_r by lia. replace (k + 52) with (Z.log2 a) by (subst k; lia).
    apply Z.log2_spec. exact Ha. }
  assert (Hq : 2 ^ 52 <= q).
  { subst q. apply Z.div_le_lower_bound; [apply Z.pow_pos_nonneg; lia | exact Hpow]. }
  assert (Hq' : 2 ^ 52 <= q').
  { subst q'. destruct (_ || _); lia. }
  assert (H2k : 2 <= 2 ^ k).
  { change 2 with (2 ^ 1) at 1. apply Z.pow_le_mono_r; lia. }
  exists integer_out_of_range.
  unfold int4_of_num, integer_value.
  replace (0 <=? k) with true by (symmetry; apply Z.leb_le; lia).
  assert (Hbig : 2 ^ 53 <= q' * 2 ^ k).
  { change (2 ^ 53) with (2 ^ 52 * 2). apply Z.mul_le_mono_nonneg; lia. }
  replace ((int4_min <=? Z.sgn n * q' * 2 ^ k) && (Z.sgn n * q' * 2 ^ k <=? int4_max))
    with false; [reflexivity|].
  symmetry. apply andb_false_iff.
  unfold int4_min, int4_max in *.
  destruct Hout as [Hneg|Hpos].
  - left. apply Z.leb_gt. rewrite Z.sgn_neg by lia.
    change (2 ^ 53) with 9007199254740992 in Hbig. lia.
  - right. apply Z.leb_gt. rewrite Z.sgn_pos by lia.
    change (2 ^ 53) with 9007199254740992 in Hbig. lia.
Qed.

Lemma primary_key {A} (key : A -> Z) (l : list A) x y :
  NoDup (map key l) -> In x l -> In y l -> key x = key y -> x = y.
Proof.
  induction l as [|z l IH]; cbn; [tauto|].
  intros Hnd Hx Hy Hk. inversion Hnd as [|? ? Hnotin Hnd']; subst.
  destruct Hx as [->|Hx], Hy as [->|Hy]; auto.
  - exfalso. apply Hnotin. rewrite Hk. apply in_map. exact Hy.
  - exfalso. apply Hnotin. rewrite <- Hk. apply in_map. exact Hx.
Qed.

Lemma foreign_row_not_mine {A} (key : A -> Z) (owner : A -> string) (l : list A)
    (r : A) (u : string) :
  NoDup (map key l) -> In r l -> owner r <> u ->
  forall x, In x l -> (key r =? key x) && (u =? owner x)%string = false.
Proof.
  intros Hpk Hr Hown x Hx.
  destruct (key r =? key x) eqn:E1; [|reflexivity].
  destruct (u =? owner x)%string eqn:E2; [|reflexivity].
  apply Z.eqb_eq in E1. apply String.eqb_eq in E2.
  assert (r = x) by (eapply primary_key; eauto).
  subst x. congruence.
Qed.

Lemma absent_id_not_mine {A} (key : A -> Z) (owner : A -> string) (l : list A)
    (i : Z) (u : string) :
  (forall x, In x l -> key x <> i) ->
  forall x, In x l -> (i =? key x) && (u =? owner x)%string = false.
Proof.
  intros Habs x Hx.
  destruct (i =? key x) eqn:E1; [|reflexivity].
  apply Z.eqb_eq in E1. exfalso. apply (Habs x Hx). auto.
Qed.

Lemma client_query_nil q s now l :
  client_query q (mkWorld s now [] l)
  = (match fst (exec q now s) with inl e => Thrown e | inr rows => Returned rows end,
     mkWorld (snd (exec q now s)) now [] (l ++ [Query q])).
Proof.
  unfold client_query; cbn. destruct (exec q now s) as [[e|rows] s']; reflexivity.
Qed.

Lemma client_query_ok q s now fs l :
  client_query q (mkWorld s now (None :: fs) l)
  = (match fst (exec q now s) with inl e => Thrown e | inr rows => Returned rows end,
     mkWorld (snd (exec q now s)) now fs (l ++ [Query q])).
Proof.
  unfold client_query; cbn. destruct (exec q now s) as [[e|rows] s']; reflexivity.
Qed.

Lemma client_query_fault q s now e fs l :
  client_query q (mkWorld s now (Some e :: fs) l)
  = (Thrown e, mkWorld s now fs (l ++ [Query q])).
Proof. reflexivity. Qed.

Lemma authenticated_userId req :
  truthy (optional_userId req) = true ->
  auth_userId req = ret (optional_userId req).
Proof.
  unfold optional_userId, auth_userId.
  destruct (req_auth req); [reflexivity | discriminate].
Qed.

Lemma errorHandler_not_duplicate env e dup :
  errorHandler env e <> duplicate_transaction dup.
Proof.
  unfold errorHandler. destruct (has_code e "23505"); discriminate.
Qed.

Lemma errorHandler_not_missing env e fields :
  errorHandler env e <> missing_fields fields.
Proof.
  unfold errorHandler. destruct (has_code e "23505"); discriminate.
Qed.

(* ------------------------------------------------------------------ *)
(** ** Binding *)

Lemma bound_key_inv u d a c t k :
  bound_key u d a c t = Some k ->
  bind_text u = inr (Some (key_user k))
  /\ bind_text d = inr (Some (key_description k))
  /\ bind_int4 a = inr (Some (key_amount k))
  /\ bind_text c = inr (Some (key_category k))
  /\ bind_timestamp t = inr (Some (key_date k)).
Proof.
  unfold bound_key.
  destruct (bind_text u) as [|[|]]; try discriminate.
  destruct (bind_text d) as [|[|]]; try discriminate.
  destruct (bind_int4 a) as [|[|]]; try discriminate.
  destruct (bind_text c) as [|[|]]; try discriminate.
  destruct (bind_timestamp t) as [|[|]]; try discriminate.
  intros H; inversion H; subst; cbn; auto.
Qed.

Lemma select_recent_bound u d a c t k now tb :
  bound_key u d a c t = Some k ->
  select_recent u d a c t now tb
  = inr (map (fun r => IdRow (id r))
           (filter (fun r => has_key k r && within_window now r) (transactions tb))).
Proof.
  intros H. apply bound_key_inv in H. destruct H as (Hu & Hd & Ha & Hc & Ht).
  unfold select_recent. rewrite Hu, Hd, Ha, Hc, Ht. reflexivity.
Qed.

Lemma select_recent_hit u d a c t now tb x rest :
  select_recent u d a c t now tb = inr (x :: rest) ->
  exists k r, bound_key u d a c t = Some k /\ In r (transactions tb)
    /\ has_key k r = true /\ within_window now r = true /\ x = IdRow (id r).
Proof.
  unfold select_recent, bound_key, and_then.
  destruct (bind_text u) as [e|[u'|]]; try discriminate;
  destruct (bind_text d) as [e|[d'|]]; try discriminate;
  destruct (bind_int4 a) as [e|[a'|]]; try discriminate;
  destruct (bind_text c) as [e|[c'|]]; try discriminate;
  destruct (bind_timestamp t) as [e|[t'|]]; try discriminate;
  intros H; inversion H as [H'];
  assert (Hin : In x (x :: rest)) by (left; reflexivity);
  rewrite <- H' in Hin; apply in_map_iff in Hin; destruct Hin as (r & Hx & Hr);
  apply filter_In in Hr; destruct Hr as (Hr & Hf); cbn in Hf;
  repeat rewrite andb_true_iff in Hf;
  repeat match goal with H : _ /\ _ |- _ => destruct H end;
  try discriminate.
  exists (mkKey u' d' a' c' t'), r. unfold has_key, within_window; cbn.
  repeat split; auto. repeat (apply andb_true_iff; split); auto.
Qed.

Lemma nextval_in_range seq :
  int4_min <= seq <= int4_max -> nextval seq = inr seq.
Proof.
  intros [Hlo Hhi]. unfold nextval.
  apply Z.leb_le in Hlo. apply Z.leb_le in Hhi. rewrite Hlo, Hhi. reflexivity.
Qed.

Lemma nextval_inr seq i :
  nextval seq = inr i -> i = seq /\ int4_min <= seq <= int4_max.
Proof.
  unfold nextval. destruct (int4_min <=? seq) eqn:Hlo; [|discriminate].
  destruct (seq <=? int4_max) eqn:Hhi; [|discriminate].
  intros [= <-]. apply Z.leb_le in Hlo. apply Z.leb_le in Hhi. auto.
Qed.

Lemma nextval_inl seq e : nextval seq = inl e -> e = sequence_limit_exceeded.
Proof.
  unfold nextval. destruct ((int4_min <=? seq) && (seq <=? int4_max)); [discriminate|].
  intros [= <-]. reflexivity.
Qed.

Lemma insert_transaction_bound u d a c t k now s :
  bound_key u d a c t = Some k ->
  insert_transaction u d a c t now s
  = match nextval (transactions_id_seq s) with
    | inl e => (inl e, s)
    | inr _ =>
        let bumped := mkStore (committed s) (pending s) (transactions_id_seq s + 1)
                        (budget_categories_id_seq s) in
        if existsb (fun r => id r =? transactions_id_seq s) (transactions (visible s)) then
          (inl (unique_violation "transactions_pkey"), bumped)
        else if existsb (has_key k) (transactions (visible s)) then
          (inl (unique_violation
                  "transactions_user_id_description_amount_category_date_key"), bumped)
        else
          (inr [TransactionRow (created s k now)],
           write bumped
             (mkTables (transactions (visible s) ++ [created s k now])
                (budget_categories (visible s))))
    end.
Proof.
  intros H. apply bound_key_inv in H. destruct H as (Hu & Hd & Ha & Hc & Ht).
  unfold insert_transaction. rewrite Hu, Hd, Ha, Hc, Ht. cbn [and_then].
  destruct (nextval (transactions_id_seq s)) as [e|i] eqn:Hn; [reflexivity|].
  apply nextval_inr in Hn. destruct Hn as [-> _].
  destruct k; reflexivity.
Qed.

Lemma insert_transaction_cases u d a c t now s :
  (exists e s', insert_transaction u d a c t now s = (inl e, s')
     /\ committed s' = committed s /\ pending s' = pending s)
  \/ (exists k, bound_key u d a c t = Some k
        /\ existsb (has_key k) (transactions (visible s)) = false
        /\ insert_transaction u d a c t now s
           = (inr [TransactionRow (created s k now)],
              write (mkStore (committed s) (pending s) (transactions_id_seq s + 1)
                       (budget_categories_id_seq s))
                (mkTables (transactions (visible s) ++ [created s k now])
                   (budget_categories (visible s))))).
Proof.
  unfold insert_transaction, bound_key.
  destruct (bind_text u) as [e1|[u'|]];
    destruct (bind_text d) as [e2|[d'|]];
    destruct (bind_int4 a) as [e3|[a'|]];
    destruct (bind_text c) as [e4|[c'|]];
    destruct (bind_timestamp t) as [e5|[t'|]];
    cbn [and_then required];
    try (left; eexists; eexists; split; [reflexivity | split; reflexivity]);
    (destruct (nextval (transactions_id_seq s)) as [e6|i] eqn:Hn;
     cbn [and_then required];
     try (left; eexists; eexists; split; [reflexivity | split; reflexivity])).
  apply nextval_inr in Hn. destruct Hn as [-> _].
  cbn [id].
  destruct (existsb (fun r => id r =? transactions_id_seq s) _); [left; eauto|].
  destruct (existsb _ (transactions (visible s))) eqn:Hx; [left; eauto|].
  right. exists (mkKey u' d' a' c' t'). repeat split; auto.
Qed.

(** What an insert can do: fail before the sequence is touched, fail with
    the sequence one step further, or append one row. *)
Lemma insert_transaction_shape u d a c t now s :
  let s' := mkStore (committed s) (pending s) (transactions_id_seq s + 1)
              (budget_categories_id_seq s) in
  (exists e, insert_transaction u d a c t now s = (inl e, s))
  \/ (exists e, insert_transaction u d a c t now s = (inl e, s'))
  \/ (exists new,
        insert_transaction u d a c t now s
        = (inr [TransactionRow new],
           write s' (mkTables (transactions (visible s) ++ [new])
                       (budget_categories (visible s))))
        /\ id new = transactions_id_seq s
        /\ bind_text u = inr (Some (user_id new))
        /\ existsb (same_tuple new) (transactions (visible s)) = false).
Proof.
  intros s'. subst s'. unfold insert_transaction.
  destruct (bind_text u) as [e1|[u'|]];
    destruct (bind_text d) as [e2|[d'|]];
    destruct (bind_int4 a) as [e3|[a'|]];
    destruct (bind_text c) as [e4|[c'|]];
    destruct (bind_timestamp t) as [e5|[t'|]];
    cbn [and_then required]; eauto;
    (destruct (nextval (transactions_id_seq s)) as [e6|i] eqn:Hn;
     cbn [and_then required]; eauto).
  apply nextval_inr in Hn. destruct Hn as [-> _].
  cbn [id].
  destruct (existsb (fun r => id r =? transactions_id_seq s) _); eauto.
  destruct (existsb _ (transactions (visible s))) eqn:Hx; eauto.
  right. right. eexists. repeat split; auto.
Qed.

End Runs.

(* ------------------------------------------------------------------ *)
(** ** Stepping through a run *)

Ltac run_query :=
  match goal with
  | |- context [client_query ?q (mkWorld ?s ?n [] ?l)] =>
      rewrite (client_query_nil q s n l)
  | |- context [client_query ?q (mkWorld ?s ?n (None :: ?fs) ?l)] =>
      rewrite (client_query_ok q s n fs l)
  | |- context [client_query ?q (mkWorld ?s ?n (Some ?e :: ?fs) ?l)] =>
      rewrite (client_query_fault q s n e fs l)
  | |- context [client_query ?q (mkWorld ?s ?n ?fs ?l)] =>
      is_var fs; destruct fs as [|[?e|] ?fs]
  end.

Ltac step :=
  first
    [ run_query
    | match goal with
      | |- context [select_recent ?u ?d ?a ?c ?t ?n ?tb] =>
          let H := fresh "Hsel" in
          destruct (select_recent u d a c t n tb) as [?e|[|?x ?rest]] eqn:H
      | |- context [insert_transaction ?u ?d ?a ?c ?t ?n ?s] =>
          let Hins := fresh "Hins" in
          destruct (insert_transaction_cases u d a c t n s)
            as [(?e & ?s' & Hins & ?Hc & ?Hp)|(?k & ?Hk & ?Hx & Hins)];
          rewrite Hins; clear Hins
      end ].

Ltac simpl_run :=
  cbn [exec reading fst snd store clock faults log committed pending visible write
       transactions budget_categories transactions_id_seq budget_categories_id_seq
       ret next no_rows List.length Nat.eqb negb].

Ltac finish_run :=
  cbn [store clock faults log]; rewrite <- ?app_assoc; cbn [List.app]; reflexivity.

Ltac leaf :=
  unfold create_post, all_rows, idle, created in *;
  cbn [store committed pending transactions budget_categories
       transactions_id_seq budget_categories_id_seq first_row first_id row_json] in *;
  repeat match goal with
  | H : committed ?s = _ |- _ => rewrite H in *; clear H
  | H : pending ?s = _ |- _ => rewrite H in *; clear H
  end;
  repeat split; intros;
  repeat match goal with
  | H : Returned (errorHandler _ _) = Returned (duplicate_transaction _) |- _ =>
      exfalso; inversion H as [H']; exact (errorHandler_not_duplicate _ _ _ H')
  | H : Returned (errorHandler _ _) = Returned (missing_fields _) |- _ =>
      exfalso; inversion H as [H']; exact (errorHandler_not_missing _ _ _ H')
  | H : Returned _ = Returned _ |- _ => inversion H; clear H
  | H : In _ (_ ++ _) |- _ => apply in_app_or in H; destruct H
  | H : In _ [_] |- _ => destruct H as [H|[]]; subst
  | H : In _ [] |- _ => destruct H
  end;
  try discriminate;
  try solve [ auto using in_or_app
            | left; auto using in_or_app
            | right; eexists; split; [eassumption | reflexivity]
            | right; eexists; split; [eassumption | split; reflexivity] ].

(* ================================================================== *)
(** * The write path of POST /transactions *)
(* ================================================================== *)

Section WritePath.

Context {P : Platform}.

(** Every run of POST /transactions, failures included. *)
Lemma create_outcomes env req s now fs l :
  let '(out, w') := app env POST_transactions req (mkWorld s now fs l) in
  create_post req s now out w'.
Proof.
  cbn [app]. unfold requireAuth.
  destruct (truthy (optional_userId req)) eqn:Hu; cbn [negb].
  2:{ cbn [ret]. leaf. }
  unfold post_transactions. rewrite (authenticated_userId _ Hu).
  unfold bind, finally, try_catch, pool_connect, client_release, record, ret, next.
  cbn [store clock faults log].
  fold (required_missing req).
  destruct (required_missing req) eqn:Hm; [leaf|].
  destruct (not_a_valid_number _) eqn:Hn; [leaf|].
  destruct (isNaN_getTime _) eqn:Hd; [leaf|].
  unfold write_guard, bind, ret.
  destruct s as [tb [pt|] seq bseq].
  all: repeat (step; simpl_run).
  all: try (leaf; fail).
  all: apply select_recent_hit in Hsel;
    destruct Hsel as (k' & r' & Hk' & Hin & Hh & Hw & ->); leaf;
    exists k', r'; repeat split; auto using in_or_app.
Qed.

Lemma passes_validation_inv req :
  passes_validation req = true ->
  required_missing req = false
  /\ not_a_valid_number (get (req_body req) "amount") = false
  /\ isNaN_getTime (JsDate (Date_new (get (req_body req) "date"))) = false.
Proof.
  unfold passes_validation, required_missing.
  destruct (truthy (get (req_body req) "description")); [|discriminate].
  destruct (is_undefined (get (req_body req) "amount")); [discriminate|].
  destruct (truthy (get (req_body req) "category")); [|discriminate].
  destruct (truthy (get (req_body req) "date")); [|discriminate].
  destruct (not_a_valid_number (get (req_body req) "amount")); [discriminate|].
  destruct (isNaN_getTime _); [discriminate|]. auto.
Qed.

(** A valid request on an idle connection that suffers no failure. *)
Lemma create_run env req k s now l :
  truthy (optional_userId req) = true ->
  passes_validation req = true ->
  request_key req = Some k ->
  idle s ->
  app env POST_transactions req (mkWorld s now [] l)
  = match filter (fun r => has_key k r && within_window now r)
            (transactions (committed s)) with
    | r0 :: _ =>
        (Returned (duplicate_transaction (JsInt (id r0))),
         mkWorld s now []
           (l ++ [Connect; Query BEGIN; Query (select_of req); Query ROLLBACK; Release]))
    | [] =>
        let bumped := mkStore (committed s) None (transactions_id_seq s + 1)
                        (budget_categories_id_seq s) in
        let rejected :=
          l ++ [Connect; Query BEGIN; Query (select_of req); Query (insert_of req);
                Query ROLLBACK; Release] in
        match nextval (transactions_id_seq s) with
        | inl e => (Returned (errorHandler env e), mkWorld s now [] rejected)
        | inr _ =>
            if existsb (fun r => id r =? transactions_id_seq s)
                 (transactions (committed s))
            then (Returned (errorHandler env (unique_violation "transactions_pkey")),
                  mkWorld bumped now [] rejected)
            else if existsb (has_key k) (transactions (committed s))
            then (Returned (errorHandler env
                    (unique_violation
                       "transactions_user_id_description_amount_category_date_key")),
                  mkWorld bumped now [] rejected)
            else (Returned (mkResponse 201 (transaction_json (created s k now))),
                  mkWorld
                    (mkStore (mkTables (transactions (committed s) ++ [created s k now])
                                (budget_categories (committed s)))
                       None (transactions_id_seq s + 1) (budget_categories_id_seq s))
                    now []
                    (l ++ [Connect; Query BEGIN; Query (select_of req);
                           Query (insert_of req); Query COMMIT; Release]))
        end
    end.
Proof.
  intros Hu Hv Hk Hi.
  destruct (passes_validation_inv _ Hv) as (H1 & H2 & H3).
  destruct s as [tb pend seq bseq]. unfold idle in Hi; cbn in Hi; subst pend.
  cbn [app]. unfold requireAuth. rewrite Hu. cbn [negb].
  unfold post_transactions. rewrite (authenticated_userId _ Hu).
  unfold bind, finally, try_catch, pool_connect, client_release, record, ret, next.
  cbn [store clock faults log]. fold (required_missing req). rewrite H1, H2, H3.
  unfold write_guard, bind. unfold request_key in Hk.
  do 2 (run_query; simpl_run).
  rewrite (select_recent_bound _ _ _ _ _ _ _ _ Hk). cbn [transactions].
  destruct (filter _ (transactions tb)) as [|r0 rest] eqn:Hf;
    cbn [map no_rows List.length Nat.eqb negb first_id].
  - run_query; simpl_run.
    rewrite (insert_transaction_bound _ _ _ _ _ _ _ _ Hk). simpl_run.
    destruct (nextval seq) as [e|i].
    { simpl_run. run_query; simpl_run. unfold select_of, insert_of. finish_run. }
    destruct (existsb (fun r => id r =? seq) (transactions tb)).
    + simpl_run. run_query; simpl_run. unfold select_of, insert_of. finish_run.
    + destruct (existsb (has_key k) (transactions tb)).
      * simpl_run. run_query; simpl_run. unfold select_of, insert_of. finish_run.
      * simpl_run. run_query; simpl_run. cbn [first_row row_json].
        unfold select_of, insert_of, created. finish_run.
  - run_query; simpl_run. unfold select_of. finish_run.
Qed.

(** A request that fails one of the three checks is answered 400 and no
    statement is sent: the pooled connection is taken and given back. *)
Lemma invalid_request_is_rejected env req w :
  truthy (optional_userId req) = true ->
  passes_validation req = false ->
  exists body,
    app env POST_transactions req w
    = (Returned (mkResponse 400 body),
       mkWorld (store w) (clock w) (faults w) (log w ++ [Connect; Release]))
    /\ (required_missing req = true ->
        mkResponse 400 body
        = missing_fields ["description"; "amount"; "category"; "date"]).
Proof.
  intros Hu Hv.
  cbn [app]. unfold requireAuth. rewrite Hu. cbn [negb].
  unfold post_transactions. rewrite (authenticated_userId _ Hu).
  unfold bind, finally, try_catch, pool_connect, client_release, record, ret.
  cbn [store clock faults log]. fold (required_missing req).
  destruct (required_missing req) eqn:Hm.
  { eexists. split; [cbn [store clock faults log]; rewrite <- app_assoc; reflexivity|].
    reflexivity. }
  destruct (not_a_valid_number (get (req_body req) "amount")) eqn:Hn.
  { eexists. split; [cbn [store clock faults log]; rewrite <- app_assoc; reflexivity|].
    discriminate. }
  destruct (isNaN_getTime (JsDate (Date_new (get (req_body req) "date")))) eqn:Hd.
  { eexists. split; [cbn [store clock faults log]; rewrite <- app_assoc; reflexivity|].
    discriminate. }
  exfalso. unfold passes_validation in Hv. unfold required_missing in Hm.
  rewrite Hn, Hd in Hv.
  destruct (truthy (get (req_body req) "description")); [|discriminate Hm].
  destruct (is_undefined (get (req_body req) "amount")); [discriminate Hm|].
  destruct (truthy (get (req_body req) "category")); [|discriminate Hm].
  destruct (truthy (get (req_body req) "date")); [|discriminate Hm].
  discriminate Hv.
Qed.
(** A fresh tuple is stored. *)
Lemma create_run_fresh env req k s now l :
  truthy (optional_userId req) = true ->
  passes_validation req = true ->
  request_key req = Some k ->
  idle s ->
  (forall r, In r (transactions (committed s)) -> has_key k r = false) ->
  (forall r, In r (transactions (committed s)) -> id r <> transactions_id_seq s) ->
  int4_min <= transactions_id_seq s <= int4_max ->
  app env POST_transactions req (mkWorld s now [] l)
  = (Returned (mkResponse 201 (transaction_json (created s k now))),
     mkWorld
       (mkStore (mkTables (transactions (committed s) ++ [created s k now])
                   (budget_categories (committed s)))
          None (transactions_id_seq s + 1) (budget_categories_id_seq s))
       now []
       (l ++ [Connect; Query BEGIN; Query (select_of req); Query (insert_of req);
              Query COMMIT; Release])).
Proof.
  intros Hu Hv Hk Hi Hnone Hfresh Hseq.
  rewrite (create_run env req k s now l Hu Hv Hk Hi).
  rewrite filter_none.
  2:{ intros r Hr. rewrite (Hnone r Hr). reflexivity. }
  rewrite (nextval_in_range _ Hseq).
  rewrite existsb_false_forall.
  2:{ intros r Hr. apply Z.eqb_neq. auto. }
  rewrite (existsb_false_forall _ _ Hnone). reflexivity.
Qed.

Lemma errorHandler_conflict env e :
  has_code e "23505" = true ->
  errorHandler env e
  = mkResponse 409
      (JsObject [("error", JsString "Conflict");
                 ("message", JsString "This transaction already exists")]).
Proof. intros H. unfold errorHandler. rewrite H. reflexivity. Qed.

Lemma errorHandler_production env e :
  has_code e "23505" = false ->
  node_env_is env "production" = true ->
  errorHandler env e
  = mkResponse 500
      (JsObject [("error", JsString "Internal Server Error");
                 ("message", JsString "An unexpected error occurred")]).
Proof.
  intros H Hp. unfold errorHandler. rewrite H, Hp.
  assert (Hd : node_env_is env "development" = false).
  { unfold node_env_is in *. destruct (NODE_ENV env) as [m|]; [|reflexivity].
    apply String.eqb_eq in Hp. subst m. reflexivity. }
  rewrite Hd. reflexivity.
Qed.

End WritePath.

Ltac enter_guard req Hu H1 H2 H3 :=
  cbn [app]; unfold requireAuth; rewrite Hu; cbn [negb];
  unfold post_transactions; rewrite (authenticated_userId _ Hu);
  unfold bind, finally, try_catch, pool_connect, client_release, record, ret, next;
  cbn [store clock faults log]; fold (required_missing req);
  rewrite H1, H2, H3; unfold write_guard, bind.


(* ================================================================== *)
(** * Listing *)
(* ================================================================== *)

Section Listing.

Context {P : Platform}.

Lemma newer_first_spec a b : newer_first a b = true <-> date_then_creation_desc a b.
Proof.
  unfold newer_first, date_then_creation_desc.
  rewrite orb_true_iff, andb_true_iff, Z.ltb_lt, Z.eqb_eq, Z.leb_le. tauto.
Qed.

Lemma newer_first_total a b : newer_first a b = false -> date_then_creation_desc b a.
Proof.
  unfold newer_first, date_then_creation_desc. intros H.
  apply orb_false_iff in H. destruct H as [H1 H2].
  apply Z.ltb_ge in H1. apply andb_false_iff in H2.
  destruct H2 as [H2|H2]; [apply Z.eqb_neq in H2 | apply Z.leb_gt in H2]; lia.
Qed.

Lemma date_then_creation_desc_trans a b c :
  date_then_creation_desc a b -> date_then_creation_desc b c ->
  date_then_creation_desc a c.
Proof. unfold date_then_creation_desc. lia. Qed.

Lemma insert_sorted_In {A} (before : A -> A -> bool) x y l :
  In y (insert_sorted before x l) <-> y = x \/ In y l.
Proof.
  induction l as [|z l IH]; cbn.
  - intuition.
  - destruct (before x z); cbn; [intuition | rewrite IH; intuition].
Qed.

Lemma order_by_In {A} (before : A -> A -> bool) y l :
  In y (order_by before l) <-> In y l.
Proof.
  unfold order_by. induction l as [|x l IH]; cbn; [tauto|].
  rewrite insert_sorted_In, IH. intuition.
Qed.

Lemma insert_sorted_sorted x l :
  StronglySorted date_then_creation_desc l ->
  StronglySorted date_then_creation_desc (insert_sorted newer_first x l).
Proof.
  induction 1 as [|y l Hs IH Hall]; cbn.
  - repeat constructor.
  - destruct (newer_first x y) eqn:Hxy.
    + apply newer_first_spec in Hxy. constructor.
      * constructor; assumption.
      * constructor; [assumption|].
        eapply Forall_impl; [|exact Hall]. intros z Hz.
        eapply date_then_creation_desc_trans; eassumption.
    + apply newer_first_total in Hxy. constructor; [assumption|].
      apply Forall_forall. intros z Hz. apply insert_sorted_In in Hz.
      destruct Hz as [->|Hz]; [assumption|].
      rewrite Forall_forall in Hall. auto.
Qed.

Lemma order_by_sorted l :
  StronglySorted date_then_creation_desc (order_by newer_first l).
Proof.
  unfold order_by. induction l as [|x l IH]; cbn; [constructor|].
  apply insert_sorted_sorted, IH.
Qed.

Lemma list_run env req u s now l :
  truthy (optional_userId req) = true ->
  bind_text (optional_userId req) = inr (Some u) ->
  forall range by_category in_range in_category,
  (if truthy (get (req_query req) "startDate") && truthy (get (req_query req) "endDate")
   then Some (get (req_query req) "startDate", get (req_query req) "endDate")
   else None) = range ->
  (if truthy (get (req_query req) "category")
   then Some (get (req_query req) "category") else None) = by_category ->
  match range with
  | Some (startDate, endDate) =>
      lo <-- bind_timestamp startDate ;;
      hi <-- bind_timestamp endDate ;;
      inr (between lo hi)
  | None => inr (fun _ => true)
  end = inr in_range ->
  match by_category with
  | Some c => c' <-- bind_text c ;; inr (eq_text c')
  | None => inr (fun _ => true)
  end = inr in_category ->
  app env GET_transactions req (mkWorld s now [] l)
  = (Returned
       (mkResponse 200
          (JsArray
             (map transaction_json
                (order_by newer_first
                   (filter (fun r => (u =? user_id r)%string && in_range (date r)
                                     && in_category (category r))
                      (transactions (visible s))))))),
     mkWorld s now [] (l ++ [Query (SelectTransactions (optional_userId req) range by_category)])).
Proof.
  intros Hu Hb range by_category in_range in_category Hr Hc Hir Hic.
  cbn [app]. unfold requireAuth. rewrite Hu. cbn [negb].
  unfold get_transactions. rewrite (authenticated_userId _ Hu).
  unfold try_catch, bind, ret, pool_query. cbn zeta. rewrite Hr, Hc.
  rewrite client_query_nil. cbn [exec reading fst snd].
  unfold select_transactions. rewrite Hb, Hir, Hic. cbn [and_then eq_text].
  rewrite map_map. reflexivity.
Qed.


(** C6.  GET /transactions by an authenticated caller who binds to
    owner [u], with [startDate] and [endDate] supplied and read by the
    storage layer as the timestamps [lo] and [hi], on a connection that
    suffers no failure: the answer is 200 with the list of exactly those
    stored rows whose owner is [u], whose [date] lies in [lo, hi], both
    bounds included, and whose [category] is the [category] parameter when
    one is supplied; the list is ordered by [date] descending, then by
    [created_at] descending. *)
Theorem list_is_scoped_filtered_and_ordered env req u lo hi s now l :
  truthy (optional_userId req) = true ->
  bind_text (optional_userId req) = inr (Some u) ->
  truthy (get (req_query req) "startDate") = true ->
  truthy (get (req_query req) "endDate") = true ->
  bind_timestamp (get (req_query req) "startDate") = inr (Some lo) ->
  bind_timestamp (get (req_query req) "endDate") = inr (Some hi) ->
  exists rows,
    app env GET_transactions req (mkWorld s now [] l)
    = (Returned (mkResponse 200 (JsArray (map transaction_json rows))),
       mkWorld s now []
         (l ++ [Query (SelectTransactions (optional_userId req)
                         (Some (get (req_query req) "startDate",
                                get (req_query req) "endDate"))
                         (if truthy (get (req_query req) "category")
                          then Some (get (req_query req) "category") else None))]))
    /\ (forall r, In r rows <->
          In r (transactions (visible s))
          /\ user_id r = u
          /\ lo <= date r <= hi
          /\ (truthy (get (req_query req) "category") = true ->
              bind_text (get (req_query req) "category") = inr (Some (category r))))
    /\ StronglySorted date_then_creation_desc rows.
Proof.
  intros Hu Hb Hs He Hlo Hhi.
  set (c := get (req_query req) "category").
  assert (Hcat : exists in_category,
             match (if truthy c then Some c else None) with
             | Some c0 => c' <-- bind_text c0 ;; inr (eq_text c')
             | None => inr (fun _ => true)
             end = inr in_category
             /\ forall x, in_category x = true <->
                  (truthy c = true -> bind_text c = inr (Some x))).
  { destruct (truthy c) eqn:Ht.
    - destruct c; try discriminate Ht; cbn; eexists; (split; [reflexivity|]);
        intros x; cbn; rewrite String.eqb_eq;
        (split; [intros -> _; reflexivity | intros H; specialize (H eq_refl); congruence]).
    - exists (fun _ => true). split; [reflexivity|]. intros x. split; [discriminate | reflexivity]. }
  destruct Hcat as (in_category & Hic & Hspec).
  eexists. split; [|split].
  - rewrite (list_run env req u s now l Hu Hb _ _ (between (Some lo) (Some hi)) in_category
               eq_refl eq_refl).
    + rewrite Hs, He. reflexivity.
    + rewrite Hs, He. cbn [andb]. rewrite Hlo, Hhi. reflexivity.
    + exact Hic.
  - intros r. rewrite order_by_In, filter_In. cbn [between].
    rewrite !andb_true_iff, String.eqb_eq, !Z.leb_le, Hspec. fold c.
    intuition (subst; auto).
  - apply order_by_sorted.
Qed.

End Listing.

(* ================================================================== *)
(** * Owner-scoped updates and deletes *)
(* ================================================================== *)

Section OwnerScope.

Context {P : Platform}.

(** DELETE /transactions/:id on an idle connection that suffers no
    failure. *)
Lemma delete_run env req u s now l :
  truthy (optional_userId req) = true ->
  bind_text (optional_userId req) = inr (Some u) ->
  idle s ->
  app env DELETE_transactions_id req (mkWorld s now [] l)
  = match int4_of_num (parseInt (req_params_id req)) with
    | inl e =>
        (Returned (errorHandler env e),
         mkWorld s now [] (l ++ [Connect; Query (deleted_of req); Release]))
    | inr i =>
        (Returned
           (if existsb (fun r => eq_int i (id r) && (u =? user_id r)%string)
                 (transactions (committed s))
            then transaction_deleted (JsNumber (parseInt (req_params_id req)))
            else not_found "Transaction not found or not authorized to delete"),
         mkWorld
           (mkStore
              (mkTables
                 (filter (fun r => negb (eq_int i (id r) && (u =? user_id r)%string))
                    (transactions (committed s)))
                 (budget_categories (committed s)))
              None (transactions_id_seq s) (budget_categories_id_seq s))
           now [] (l ++ [Connect; Query (deleted_of req); Release]))
    end.
Proof.
  intros Hu Hb Hi.
  destruct s as [tb pend seq bseq]. unfold idle in Hi; cbn in Hi; subst pend.
  cbn [app]. unfold requireAuth. rewrite Hu. cbn [negb].
  unfold delete_transactions. rewrite (authenticated_userId _ Hu).
  unfold bind, finally, try_catch, pool_connect, client_release, record, ret, next.
  cbn [store clock faults log].
  run_query. simpl_run. unfold delete_transaction. cbn [bind_int4]. rewrite Hb.
  destruct (int4_of_num (parseInt (req_params_id req))) as [e|i]; cbn [and_then fst snd].
  - unfold deleted_of, next, ret. finish_run.
  - simpl_run. cbn [eq_text].
    destruct (filter (fun r => eq_int i (id r) && (u =? user_id r)%string) (transactions tb))
      as [|r0 rest] eqn:Hf.
    + assert (Hx : existsb (fun r => eq_int i (id r) && (u =? user_id r)%string)
                     (transactions tb) = false).
      { apply existsb_false_forall. intros x Hxin.
        destruct (eq_int i (id x) && (u =? user_id x)%string) eqn:Hh; [|reflexivity].
        assert (In x []) as []. rewrite <- Hf. apply filter_In. auto. }
      rewrite Hx. cbn [map no_rows List.length Nat.eqb]. unfold deleted_of. finish_run.
    + assert (Hx : existsb (fun r => eq_int i (id r) && (u =? user_id r)%string)
                     (transactions tb) = true).
      { apply existsb_exists. exists r0.
        assert (Hin : In r0 (filter (fun r => eq_int i (id r) && (u =? user_id r)%string)
                               (transactions tb)))
          by (rewrite Hf; left; reflexivity).
        apply filter_In in Hin. exact Hin. }
      rewrite Hx. cbn [map no_rows List.length Nat.eqb].
      unfold deleted_of, transaction_deleted. finish_run.
Qed.

(** DELETE /transactions/:id when the owner-scoped DELETE matches
    nothing. *)
Lemma delete_not_owned env req u n s now l :
  truthy (optional_userId req) = true ->
  bind_text (optional_userId req) = inr (Some u) ->
  parseInt (req_params_id req) = Finite n 0 ->
  int4_min <= n <= int4_max ->
  idle s ->
  (forall r, In r (transactions (committed s)) -> mine n u r = false) ->
  app env DELETE_transactions_id req (mkWorld s now [] l)
  = (Returned (not_found "Transaction not found or not authorized to delete"),
     mkWorld s now [] (l ++ [Connect; Query (deleted_of req); Release])).
Proof.
  intros Hu Hb Hn Hrange Hi Hnone.
  rewrite (delete_run env req u s now l Hu Hb Hi), Hn, (int4_of_num_integer n Hrange).
  cbn [eq_int]. fold (mine n u).
  rewrite (existsb_false_forall _ _ Hnone), filter_all.
  2:{ intros r Hr. specialize (Hnone r Hr). unfold mine in Hnone.
      rewrite Hnone. reflexivity. }
  destruct s as [[tx bc] pend seq bseq]. unfold idle in Hi; cbn in Hi; subst pend.
  reflexivity.
Qed.

(** PUT /transactions/:id when the owner-scoped SELECT finds nothing. *)
Lemma update_not_owned env req u i s now l :
  truthy (optional_userId req) = true ->
  bind_text (optional_userId req) = inr (Some u) ->
  int4in (req_params_id req) = Some i ->
  required_missing req = false ->
  Date_new (get (req_body req) "date") <> None ->
  idle s ->
  (forall r, In r (transactions (committed s)) -> mine i u r = false) ->
  app env PUT_transactions_id req (mkWorld s now [] l)
  = (Returned (not_found "Transaction not found or not authorized to update"),
     mkWorld s now []
       (l ++ [Connect; Query BEGIN;
              Query (SelectOwned (JsString (req_params_id req)) (optional_userId req));
              Query ROLLBACK; Release])).
Proof.
  intros Hu Hb Hid Hm Hd Hi Hnone.
  destruct s as [tb pend seq bseq]. unfold idle in Hi; cbn in Hi; subst pend.
  cbn [app]. unfold requireAuth. rewrite Hu. cbn [negb].
  unfold put_transactions. rewrite (authenticated_userId _ Hu).
  unfold bind, finally, try_catch, pool_connect, client_release, record, ret, next.
  cbn [store clock faults log]. fold (required_missing req). rewrite Hm.
  destruct (Date_new (get (req_body req) "date")) as [t|]; [|contradiction].
  cbn [isNaN_getTime]. unfold bind.
  do 2 (run_query; simpl_run).
  unfold select_owned. cbn [bind_int4]. rewrite Hid, Hb. cbn [and_then eq_int eq_text].
  rewrite filter_none by exact Hnone.
  cbn [map no_rows List.length Nat.eqb].
  run_query; simpl_run. finish_run.
Qed.

(** PUT /budget-categories/:id when the owner-scoped UPDATE matches
    nothing. *)
Lemma update_category_not_owned env req u i z s now l :
  truthy (optional_userId req) = true ->
  bind_text (optional_userId req) = inr (Some u) ->
  int4in (req_params_id req) = Some i ->
  category_fields_missing req = false ->
  bind_int4 (get (req_body req) "amount") = inr z ->
  idle s ->
  (forall r, In r (budget_categories (committed s)) -> mine_category i u r = false) ->
  app env PUT_budget_categories_id req (mkWorld s now [] l)
  = (Returned (not_found "Category not found or not authorized to update"),
     mkWorld s now []
       (l ++ [Query (UpdateCategory (get (req_body req) "name")
                       (get (req_body req) "amount")
                       (JsString (req_params_id req)) (optional_userId req))])).
Proof.
  intros Hu Hb Hid Hm Ha Hi Hnone.
  destruct s as [[tx bc] pend seq bseq]. unfold idle in Hi; cbn in Hi; subst pend.
  cbn [committed budget_categories] in Hnone.
  cbn [app]. unfold requireAuth. rewrite Hu. cbn [negb].
  unfold put_budget_categories. rewrite (authenticated_userId _ Hu).
  unfold bind, try_catch, ret, next, pool_query. cbn zeta.
  fold (category_fields_missing req). rewrite Hm.
  run_query; simpl_run.
  unfold update_category. cbn [bind_int4]. rewrite Hid, Hb, Ha.
  assert (Hname : exists n, bind_text (get (req_body req) "name") = inr n).
  { destruct (get (req_body req) "name"); cbn; eauto. }
  destruct Hname as (n & ->).
  cbn [and_then eq_int eq_text visible pending committed budget_categories].
  fold (mine_category i u).
  rewrite (existsb_false_forall _ _ Hnone).
  simpl_run. cbn [map no_rows List.length Nat.eqb]. finish_run.
Qed.

(** DELETE /budget-categories/:id when the owner-scoped DELETE matches
    nothing. *)
Lemma delete_category_not_owned env req u i s now l :
  truthy (optional_userId req) = true ->
  bind_text (optional_userId req) = inr (Some u) ->
  int4in (req_params_id req) = Some i ->
  idle s ->
  (forall r, In r (budget_categories (committed s)) -> mine_category i u r = false) ->
  app env DELETE_budget_categories_id req (mkWorld s now [] l)
  = (Returned (not_found "Category not found or not authorized to delete"),
     mkWorld s now []
       (l ++ [Query (DeleteCategory (JsString (req_params_id req))
                       (optional_userId req))])).
Proof.
  intros Hu Hb Hid Hi Hnone.
  destruct s as [[tx bc] pend seq bseq]. unfold idle in Hi; cbn in Hi; subst pend.
  cbn [committed budget_categories] in Hnone.
  cbn [app]. unfold requireAuth. rewrite Hu. cbn [negb].
  unfold delete_budget_categories. rewrite (authenticated_userId _ Hu).
  unfold bind, try_catch, ret, next, pool_query. cbn zeta.
  run_query; simpl_run.
  unfold delete_category. cbn [bind_int4]. rewrite Hid, Hb.
  cbn [and_then eq_int eq_text visible pending committed budget_categories].
  fold (mine_category i u).
  rewrite (filter_none _ _ Hnone).
  rewrite filter_all.
  2:{ intros r Hr. specialize (Hnone r Hr). unfold mine_category in Hnone.
      rewrite Hnone. reflexivity. }
  simpl_run. cbn [map no_rows List.length Nat.eqb]. finish_run.
Qed.


End OwnerScope.

(* ================================================================== *)
(** * Isolation between owners *)
(* ================================================================== *)

Section Lists.

Variables (A : Type) (p hit : A -> bool) (upd : A -> A).
Hypothesis hit_p : forall x, hit x = true -> p x = true.
Hypothesis upd_p : forall x, p (upd x) = p x.

Lemma filter_within (f : A -> bool) l :
  (forall x, f x = true -> p x = true) -> filter f (filter p l) = filter f l.
Proof.
  intros H. induction l as [|x l IH]; cbn; [reflexivity|].
  destruct (p x) eqn:Hp; cbn; rewrite IH; [reflexivity|].
  destruct (f x) eqn:Hf; [|reflexivity]. apply H in Hf. congruence.
Qed.

Lemma existsb_within (f : A -> bool) l :
  (forall x, f x = true -> p x = true) -> existsb f (filter p l) = existsb f l.
Proof.
  intros H. induction l as [|x l IH]; cbn; [reflexivity|].
  destruct (p x) eqn:Hp; cbn; rewrite IH; [reflexivity|].
  destruct (f x) eqn:Hf; [|reflexivity]. apply H in Hf. congruence.
Qed.

Lemma existsb_ext_in (f g : A -> bool) l :
  (forall x, f x = g x) -> existsb f l = existsb g l.
Proof.
  intros H. induction l as [|x l IH]; cbn; [reflexivity|]. rewrite H, IH. reflexivity.
Qed.

Lemma filter_updated l :
  filter p (map (fun r => if hit r then upd r else r) l)
  = map (fun r => if hit r then upd r else r) (filter p l).
Proof.
  induction l as [|x l IH]; cbn; [reflexivity|].
  destruct (hit x) eqn:Hh.
  - rewrite upd_p, (hit_p _ Hh). cbn. rewrite Hh, IH. reflexivity.
  - destruct (p x); cbn; rewrite ?Hh, IH; reflexivity.
Qed.

Lemma filter_kept l :
  filter p (filter (fun r => negb (hit r)) l) = filter (fun r => negb (hit r)) (filter p l).
Proof.
  induction l as [|x l IH]; cbn; [reflexivity|].
  destruct (hit x) eqn:Hh; cbn.
  - rewrite (hit_p _ Hh). cbn. rewrite Hh. cbn. exact IH.
  - destruct (p x); cbn; rewrite ?Hh; cbn; rewrite IH; reflexivity.
Qed.

Lemma conflict_within (g : A -> A -> bool) l :
  (forall r o, hit r = true -> g r o = true -> p o = true) ->
  existsb (fun r => hit r
             && existsb (g r) (map (fun r => if hit r then upd r else r) l)) l
  = existsb (fun r => hit r
               && existsb (g r) (map (fun r => if hit r then upd r else r) (filter p l)))
      (filter p l).
Proof.
  intros Hg.
  rewrite existsb_within.
  2:{ intros x Hx. apply andb_true_iff in Hx. apply hit_p. tauto. }
  apply existsb_ext_in. intros r.
  destruct (hit r) eqn:Hh; [|reflexivity]. cbn.
  rewrite <- filter_updated. symmetry. apply existsb_within.
  intros o. apply Hg. exact Hh.
Qed.

End Lists.

Section Isolation.

Context {P : Platform}.

Lemma lockstep_ret {A} a (x : A) : lockstep a (ret x).
Proof. intros w1 w2 H. split; [reflexivity | exact H]. Qed.

Lemma lockstep_bind {A B} a (m : Async A) (k : A -> Async B) :
  lockstep a m -> (forall x, lockstep a (k x)) -> lockstep a (bind m k).
Proof.
  intros Hm Hk w1 w2 H. unfold bind.
  destruct (Hm w1 w2 H) as [Hf Hs].
  destruct (m w1) as [[x1|e1] w1'], (m w2) as [[x2|e2] w2']; cbn in Hf, Hs;
    inversion Hf; subst.
  - apply Hk. exact Hs.
  - split; [reflexivity | exact Hs].
Qed.

Lemma lockstep_try_catch {A} a (m : Async A) (h : JsError -> Async A) :
  lockstep a m -> (forall e, lockstep a (h e)) -> lockstep a (try_catch m h).
Proof.
  intros Hm Hh w1 w2 H. unfold try_catch.
  destruct (Hm w1 w2 H) as [Hf Hs].
  destruct (m w1) as [[x1|e1] w1'], (m w2) as [[x2|e2] w2']; cbn in Hf, Hs;
    inversion Hf; subst.
  - split; [reflexivity | exact Hs].
  - apply Hh. exact Hs.
Qed.

Lemma lockstep_finally {A} a (m : Async A) (f : Async unit) :
  lockstep a m -> lockstep a f -> lockstep a (finally m f).
Proof.
  intros Hm Hf w1 w2 H. unfold finally.
  destruct (Hm w1 w2 H) as [Hr Hs].
  destruct (m w1) as [r1 w1'], (m w2) as [r2 w2']; cbn in Hr, Hs. subst r2.
  destruct (Hf w1' w2' Hs) as [Hr' Hs'].
  destruct (f w1') as [[[]|e1] w1''], (f w2') as [[[]|e2] w2'']; cbn in Hr', Hs';
    inversion Hr'; subst; split; auto.
Qed.

Lemma lockstep_record a ev : lockstep a (record ev).
Proof.
  intros w1 w2 (Hs & Hc & Hf). unfold record, alike; cbn. auto.
Qed.

Lemma lockstep_query a q : scoped a q -> lockstep a (client_query q).
Proof.
  intros Hq [s1 now1 fs1 l1] [s2 now2 fs2 l2] (Hs & Hc & Hf).
  cbn in Hs, Hc, Hf. subst now2 fs2.
  unfold client_query. cbn [faults store clock log].
  destruct fs1 as [|[e|] fs]; cbn [tl].
  - destruct (Hq now1 s1 s2 Hs) as [Hr Hs'].
    destruct (exec q now1 s1) as [[e1|r1] s1'], (exec q now1 s2) as [[e2|r2] s2'];
      cbn in Hr, Hs'; inversion Hr; subst; unfold alike; cbn; auto.
  - unfold alike; cbn; auto.
  - destruct (Hq now1 s1 s2 Hs) as [Hr Hs'].
    destruct (exec q now1 s1) as [[e1|r1] s1'], (exec q now1 s2) as [[e2|r2] s2'];
      cbn in Hr, Hs'; inversion Hr; subst; unfold alike; cbn; auto.
Qed.

Lemma same_view_visible a s1 s2 :
  same_view a s1 s2 -> view a (visible s1) = view a (visible s2).
Proof.
  intros [Hc Hp]. unfold visible.
  destruct (pending s1), (pending s2); cbn in Hp; try discriminate; [|exact Hc].
  congruence.
Qed.

Lemma scoped_BEGIN a : scoped a BEGIN.
Proof.
  intros now s1 s2 H. cbn. split; [reflexivity|].
  pose proof (same_view_visible a s1 s2 H) as Hv. destruct H as [Hc Hp].
  split; cbn; [exact Hc | rewrite Hv; reflexivity].
Qed.

Lemma scoped_COMMIT a : scoped a COMMIT.
Proof.
  intros now s1 s2 H. cbn. split; [reflexivity|].
  pose proof (same_view_visible a s1 s2 H) as Hv.
  split; cbn; [exact Hv | reflexivity].
Qed.

Lemma scoped_ROLLBACK a : scoped a ROLLBACK.
Proof.
  intros now s1 s2 [Hc Hp]. cbn. split; [reflexivity|].
  split; cbn; [exact Hc | reflexivity].
Qed.


Lemma same_view_write a s1 s2 t1 t2 :
  same_view a s1 s2 -> view a t1 = view a t2 ->
  same_view a (write s1 t1) (write s2 t2).
Proof.
  intros [Hc Hp] Ht. unfold write.
  destruct (pending s1), (pending s2); cbn in Hp; try discriminate;
    split; cbn; congruence.
Qed.

Lemma scoped_SelectOwned a i u :
  bind_text u = inr (Some a) -> scoped a (SelectOwned i u).
Proof.
  intros Hu now s1 s2 H. cbn [exec reading fst snd]. split; [|exact H].
  pose proof (same_view_visible a s1 s2 H) as Hv.
  unfold select_owned. rewrite Hu.
  destruct (bind_int4 i) as [e|i']; cbn [and_then]; [reflexivity|].
  f_equal. f_equal.
  rewrite <- (filter_within _ (owned_by a) _ (transactions (visible s1))),
          <- (filter_within _ (owned_by a) _ (transactions (visible s2))).
  - unfold view in Hv. injection Hv as Hv _. rewrite Hv. reflexivity.
  - intros x Hx. apply andb_true_iff in Hx. exact (proj2 Hx).
  - intros x Hx. apply andb_true_iff in Hx. exact (proj2 Hx).
Qed.

Lemma scoped_DeleteTransaction a i u :
  bind_text u = inr (Some a) -> scoped a (DeleteTransaction i u).
Proof.
  intros Hu now s1 s2 H. cbn [exec].
  pose proof (same_view_visible a s1 s2 H) as Hv.
  unfold view in Hv. injection Hv as Hv Hvc.
  unfold delete_transaction. rewrite Hu.
  destruct (bind_int4 i) as [e|i']; cbn [and_then fst snd]; [split; [reflexivity | exact H]|].
  assert (Hhit : forall x, eq_int i' (id x) && eq_text (Some a) (user_id x) = true ->
                           owned_by a x = true).
  { intros x Hx. apply andb_true_iff in Hx. exact (proj2 Hx). }
  split.
  - f_equal. f_equal.
    rewrite <- (filter_within _ (owned_by a) _ (transactions (visible s1)) Hhit),
            <- (filter_within _ (owned_by a) _ (transactions (visible s2)) Hhit).
    rewrite Hv. reflexivity.
  - apply same_view_write; [exact H|]. unfold view. cbn [transactions budget_categories].
    rewrite !(filter_kept _ (owned_by a) _ Hhit), Hv, Hvc. reflexivity.
Qed.

Lemma scoped_DeleteCategory a i u :
  bind_text u = inr (Some a) -> scoped a (DeleteCategory i u).
Proof.
  intros Hu now s1 s2 H. cbn [exec].
  pose proof (same_view_visible a s1 s2 H) as Hv.
  unfold view in Hv. injection Hv as Hv Hvc.
  unfold delete_category. rewrite Hu.
  destruct (bind_int4 i) as [e|i']; cbn [and_then fst snd]; [split; [reflexivity | exact H]|].
  assert (Hhit : forall x, eq_int i' (bc_id x) && eq_text (Some a) (bc_user_id x) = true ->
                           category_owned_by a x = true).
  { intros x Hx. apply andb_true_iff in Hx. exact (proj2 Hx). }
  split.
  - f_equal. f_equal.
    rewrite <- (filter_within _ (category_owned_by a) _ (budget_categories (visible s1)) Hhit),
            <- (filter_within _ (category_owned_by a) _ (budget_categories (visible s2)) Hhit).
    rewrite Hvc. reflexivity.
  - apply same_view_write; [exact H|]. unfold view. cbn [transactions budget_categories].
    rewrite !(filter_kept _ (category_owned_by a) _ Hhit), Hv, Hvc. reflexivity.
Qed.


Lemma same_tuple_owner x y : same_tuple x y = true -> user_id x = user_id y.
Proof.
  unfold same_tuple. rewrite !andb_true_iff, String.eqb_eq. tauto.
Qed.

Lemma scoped_UpdateTransaction a d m c t i u :
  bind_text u = inr (Some a) -> scoped a (UpdateTransaction d m c t i u).
Proof.
  intros Hu now s1 s2 H. cbn [exec].
  pose proof (same_view_visible a s1 s2 H) as Hv.
  unfold view in Hv. injection Hv as Hv Hvc.
  unfold update_transaction. rewrite Hu.
  destruct (bind_text d) as [e|d0]; cbn [and_then fst snd]; [split; [reflexivity | exact H]|].
  destruct (bind_int4 m) as [e|m0]; cbn [and_then fst snd]; [split; [reflexivity | exact H]|].
  destruct (bind_text c) as [e|c0]; cbn [and_then fst snd]; [split; [reflexivity | exact H]|].
  destruct (bind_timestamp t) as [e|t0];
    cbn [and_then fst snd]; [split; [reflexivity | exact H]|].
  destruct (bind_int4 i) as [e|i']; cbn [and_then fst snd]; [split; [reflexivity | exact H]|].
  pose (hit := fun r => eq_int i' (id r) && eq_text (Some a) (user_id r)).
  assert (Hhit : forall x, hit x = true -> owned_by a x = true).
  { intros x Hx. apply andb_true_iff in Hx. exact (proj2 Hx). }
  pose proof (fun l => existsb_within _ (owned_by a) hit l Hhit) as Hany.
  pose proof (fun l => filter_within _ (owned_by a) hit l Hhit) as Hrows.
  cbv beta delta [hit] in Hany, Hrows.
  rewrite <- (Hany (transactions (visible s1))), <- (Hany (transactions (visible s2))), Hv.
  destruct (existsb _ (filter (owned_by a) (transactions (visible s2))));
    cbn [negb fst snd]; [|split; [reflexivity | exact H]].
  destruct (d' <-- required "description" d0 ;; a' <-- required "amount" m0 ;;
            c' <-- required "category" c0 ;; t' <-- required "date" t0 ;;
            inr (d', a', c', t')) as [e|[[[d' m'] c'] t']];
    cbn [fst snd]; [split; [reflexivity | exact H]|].
  pose (upd := fun r => mkTransaction (id r) (user_id r) d' m' c' t' (created_at r)).
  pose (g := fun r o => negb (id o =? id r) && same_tuple (upd r) o).
  assert (Hupd : forall x, owned_by a (upd x) = owned_by a x) by reflexivity.
  assert (Hg : forall r o, hit r = true -> g r o = true -> owned_by a o = true).
  { intros r o Hr Ho. apply andb_true_iff in Ho. destruct Ho as [_ Ho].
    apply same_tuple_owner in Ho. cbn in Ho. unfold owned_by. rewrite <- Ho.
    apply (Hhit r Hr). }
  pose proof (fun l => conflict_within _ (owned_by a) hit upd Hhit Hupd g l Hg) as Hconf.
  pose proof (filter_updated _ (owned_by a) hit upd Hhit Hupd) as Hmap.
  cbv beta delta [hit upd g] in Hconf, Hmap. clear Hhit Hupd Hg. clear g upd hit.
  rewrite (Hconf (transactions (visible s1))), (Hconf (transactions (visible s2))), Hv.
  destruct (existsb _ (filter (owned_by a) (transactions (visible s2))));
    cbn [fst snd]; [split; [reflexivity | exact H]|].
  split.
  - f_equal.
    rewrite <- (Hrows (transactions (visible s1))), <- (Hrows (transactions (visible s2))).
    rewrite Hv. reflexivity.
  - apply same_view_write; [exact H|]. unfold view. cbn [transactions budget_categories].
    rewrite !Hmap, Hv, Hvc. reflexivity.
Qed.

Lemma scoped_UpdateCategory a n m i u :
  bind_text u = inr (Some a) -> scoped a (UpdateCategory n m i u).
Proof.
  intros Hu now s1 s2 H. cbn [exec].
  pose proof (same_view_visible a s1 s2 H) as Hv.
  unfold view in Hv. injection Hv as Hv Hvc.
  unfold update_category. rewrite Hu.
  destruct (bind_text n) as [e|n0]; cbn [and_then fst snd]; [split; [reflexivity | exact H]|].
  destruct (bind_int4 m) as [e|m0]; cbn [and_then fst snd]; [split; [reflexivity | exact H]|].
  destruct (bind_int4 i) as [e|i']; cbn [and_then fst snd]; [split; [reflexivity | exact H]|].
  pose (hit := fun r => eq_int i' (bc_id r) && eq_text (Some a) (bc_user_id r)).
  assert (Hhit : forall x, hit x = true -> category_owned_by a x = true).
  { intros x Hx. apply andb_true_iff in Hx. exact (proj2 Hx). }
  pose proof (fun l => existsb_within _ (category_owned_by a) hit l Hhit) as Hany.
  pose proof (fun l => filter_within _ (category_owned_by a) hit l Hhit) as Hrows.
  cbv beta delta [hit] in Hany, Hrows.
  rewrite <- (Hany (budget_categories (visible s1))),
          <- (Hany (budget_categories (visible s2))), Hvc.
  destruct (existsb _ (filter (category_owned_by a) (budget_categories (visible s2))));
    cbn [negb fst snd]; [|split; [reflexivity | exact H]].
  destruct (n' <-- required "name" n0 ;; a' <-- required "amount" m0 ;; inr (n', a'))
    as [e|[n' m']];
    cbn [fst snd]; [split; [reflexivity | exact H]|].
  pose (upd := fun r => mkCategory (bc_id r) (bc_user_id r) n' m' (bc_created_at r)).
  pose (g := fun r o => negb (bc_id o =? bc_id r) && (bc_user_id o =? bc_user_id r)%string
                        && (bc_name o =? n')%string).
  assert (Hupd : forall x, category_owned_by a (upd x) = category_owned_by a x)
    by reflexivity.
  assert (Hg : forall r o, hit r = true -> g r o = true -> category_owned_by a o = true).
  { intros r o Hr Ho. unfold g in Ho. rewrite !andb_true_iff, String.eqb_eq in Ho.
    destruct Ho as [[_ Ho] _]. unfold category_owned_by. rewrite Ho.
    apply (Hhit r Hr). }
  pose proof (fun l => conflict_within _ (category_owned_by a) hit upd Hhit Hupd g l Hg)
    as Hconf.
  pose proof (filter_updated _ (category_owned_by a) hit upd Hhit Hupd) as Hmap.
  cbv beta delta [hit upd g] in Hconf, Hmap. clear Hhit Hupd Hg. clear g upd hit.
  rewrite (Hconf (budget_categories (visible s1))),
          (Hconf (budget_categories (visible s2))), Hvc.
  destruct (existsb _ (filter (category_owned_by a) (budget_categories (visible s2))));
    cbn [fst snd]; [split; [reflexivity | exact H]|].
  split.
  - f_equal.
    rewrite <- (Hrows (budget_categories (visible s1))),
            <- (Hrows (budget_categories (visible s2))).
    rewrite Hvc. reflexivity.
  - apply same_view_write; [exact H|]. unfold view. cbn [transactions budget_categories].
    rewrite !Hmap, Hv, Hvc. reflexivity.
Qed.

Lemma lockstep_bind_ret {A B} a (v : A) (k : A -> Async B) :
  lockstep a (k v) -> lockstep a (bind (ret v) k).
Proof. intros H w1 w2 Hw. exact (H w1 w2 Hw). Qed.

End Isolation.

Ltac in_lockstep Hb :=
  repeat first
    [ apply lockstep_ret
    | apply lockstep_record
    | apply lockstep_bind_ret
    | apply lockstep_bind
    | apply lockstep_try_catch
    | apply lockstep_finally
    | apply lockstep_query;
      first [ apply scoped_BEGIN | apply scoped_COMMIT | apply scoped_ROLLBACK
            | apply scoped_SelectOwned; exact Hb
            | apply scoped_UpdateTransaction; exact Hb
            | apply scoped_DeleteTransaction; exact Hb
            | apply scoped_UpdateCategory; exact Hb
            | apply scoped_DeleteCategory; exact Hb ]
    | match goal with
      | |- forall _, lockstep _ _ => intro
      | |- lockstep _ (if ?b then _ else _) => destruct b
      end ].

Section Lockstep.

Context {P : Platform}.

(** The answers to the owner-scoped updates and deletes depend on the
    caller's own rows only. *)
Lemma owner_scoped_lockstep env req a :
  bind_text (optional_userId req) = inr (Some a) ->
  lockstep a (app env PUT_transactions_id req)
  /\ lockstep a (app env DELETE_transactions_id req)
  /\ lockstep a (app env PUT_budget_categories_id req)
  /\ lockstep a (app env DELETE_budget_categories_id req).
Proof.
  intros Hb.
  split; [|split; [|split]]; cbn [app]; unfold requireAuth;
    (destruct (truthy (optional_userId req)) eqn:Hu; cbn [negb];
     [|apply lockstep_ret]);
    unfold put_transactions, delete_transactions, put_budget_categories,
           delete_budget_categories, pool_connect, client_release, pool_query, next;
    rewrite (authenticated_userId _ Hu); cbn zeta;
    in_lockstep Hb.
Qed.

Lemma same_view_without a s r c :
  NoDup (map id (transactions (committed s))) ->
  In r (transactions (committed s)) ->
  user_id r <> a ->
  NoDup (map bc_id (budget_categories (committed s))) ->
  In c (budget_categories (committed s)) ->
  bc_user_id c <> a ->
  same_view a s (without r c s).
Proof.
  intros Hpk Hr Ho Hpkc Hc Hoc. split; [|reflexivity].
  unfold without, view. cbn [committed transactions budget_categories]. f_equal.
  - symmetry. apply filter_within_in. intros x Hx Hown.
    destruct (id x =? id r) eqn:E; [|reflexivity].
    apply Z.eqb_eq in E. assert (x = r) by (eapply primary_key; eauto). subst x.
    apply String.eqb_eq in Hown. congruence.
  - symmetry. apply filter_within_in. intros x Hx Hown.
    destruct (bc_id x =? bc_id c) eqn:E; [|reflexivity].
    apply Z.eqb_eq in E. assert (x = c) by (eapply primary_key; eauto). subst x.
    apply String.eqb_eq in Hown. congruence.
Qed.

Lemma same_answers env req a s other now fs l l' :
  bind_text (optional_userId req) = inr (Some a) ->
  same_view a s other ->
  fst (app env PUT_transactions_id req (mkWorld s now fs l))
  = fst (app env PUT_transactions_id req (mkWorld other now fs l'))
  /\ fst (app env DELETE_transactions_id req (mkWorld s now fs l))
     = fst (app env DELETE_transactions_id req (mkWorld other now fs l'))
  /\ fst (app env PUT_budget_categories_id req (mkWorld s now fs l))
     = fst (app env PUT_budget_categories_id req (mkWorld other now fs l'))
  /\ fst (app env DELETE_budget_categories_id req (mkWorld s now fs l))
     = fst (app env DELETE_budget_categories_id req (mkWorld other now fs l')).
Proof.
  intros Hb Hv.
  destruct (owner_scoped_lockstep env req a Hb) as (H1 & H2 & H3 & H4).
  assert (Hw : alike a (mkWorld s now fs l) (mkWorld other now fs l'))
    by (split; [exact Hv | split; reflexivity]).
  split; [|split; [|split]]; [apply H1 | apply H2 | apply H3 | apply H4]; exact Hw.
Qed.
End Lockstep.

(* ================================================================== *)
(** * The claims *)
(* ================================================================== *)

Section Claims.

Context {P : Platform}.

(** C1.  A valid create request whose tuple, as the storage layer binds
    it, is [k].  First part: on an idle connection that suffers no
    failure, if the table (which obeys its uniqueness constraint) holds a
    row [r] with that tuple and [created_at] later than one minute before
    the server time, the answer is the 409 [duplicate_transaction] with
    [duplicateId] the identifier of [r], the statements sent are BEGIN,
    the duplicate check and ROLLBACK, and the store is left exactly as it
    was.  Second part: when no row has the tuple and the sequence is ahead
    of the table and within the 32-bit range of the [id] column, a first
    submission at [now1] is answered 201 and a second one less than one
    minute later is answered 409 with the identifier the first was given;
    the second changes nothing, and the table then holds exactly one row
    with the tuple. *)
Theorem duplicate_within_window_is_conflict env req k :
  truthy (optional_userId req) = true ->
  passes_validation req = true ->
  request_key req = Some k ->
  (forall s now l r,
      idle s ->
      unique_constraint (transactions (committed s)) ->
      In r (transactions (committed s)) ->
      key_of r = k ->
      now - one_minute < created_at r ->
      app env POST_transactions req (mkWorld s now [] l)
      = (Returned (duplicate_transaction (JsInt (id r))),
         mkWorld s now []
           (l ++ [Connect; Query BEGIN; Query (select_of req); Query ROLLBACK; Release])))
  /\ (forall s now1 now2 l1 l2,
        idle s ->
        (forall r, In r (transactions (committed s)) -> has_key k r = false) ->
        (forall r, In r (transactions (committed s)) -> id r <> transactions_id_seq s) ->
        int4_min <= transactions_id_seq s <= int4_max ->
        now2 - one_minute < now1 ->
        let first := app env POST_transactions req (mkWorld s now1 [] l1) in
        let second :=
          app env POST_transactions req (mkWorld (store (snd first)) now2 [] l2) in
        fst first = Returned (mkResponse 201 (transaction_json (created s k now1)))
        /\ fst second = Returned (duplicate_transaction (JsInt (transactions_id_seq s)))
        /\ store (snd second) = store (snd first)
        /\ filter (has_key k) (transactions (committed (store (snd second))))
           = [created s k now1]).
Proof.
  intros Hu Hv Hk. split.
  - intros s now l r Hi Huniq Hr Hkey Hwin.
    rewrite (create_run env req k s now l Hu Hv Hk Hi).
    destruct (filter _ (transactions (committed s))) as [|r0 rest] eqn:Hf.
    + exfalso.
      assert (Hin : In r (filter (fun r => has_key k r && within_window now r)
                            (transactions (committed s)))).
      { apply filter_In. split; [exact Hr|].
        apply andb_true_iff. split; [apply has_key_iff; exact Hkey|].
        apply Z.ltb_lt. exact Hwin. }
      rewrite Hf in Hin. exact Hin.
    + assert (Hin : In r0 (filter (fun r => has_key k r && within_window now r)
                             (transactions (committed s))))
        by (rewrite Hf; left; reflexivity).
      apply filter_In in Hin. destruct Hin as [Hr0 Hm].
      apply andb_true_iff in Hm. destruct Hm as [Hm _].
      assert (r = r0) as <-.
      { apply Huniq; auto. rewrite Hkey. exact Hm. }
      reflexivity.
  - intros s now1 now2 l1 l2 Hi Hnone Hfresh Hseq Hwin first second.
    subst second first.
    rewrite (create_run_fresh env req k s now1 l1 Hu Hv Hk Hi Hnone Hfresh Hseq).
    cbn [fst snd store].
    rewrite (create_run env req k (mkStore _ None _ _) now2 l2 Hu Hv Hk eq_refl).
    cbn [committed transactions].
    assert (Hrecent : filter (fun r => has_key k r && within_window now2 r)
                        (transactions (committed s) ++ [created s k now1])
                      = [created s k now1]).
    { rewrite filter_app, filter_none.
      2:{ intros r Hr. rewrite (Hnone r Hr). reflexivity. }
      cbn [filter List.app]. rewrite has_key_created.
      unfold within_window. cbn [created created_at andb].
      replace (now2 - one_minute <? now1) with true
        by (symmetry; apply Z.ltb_lt; exact Hwin).
      reflexivity. }
    rewrite Hrecent. cbn [fst snd store committed transactions created id].
    repeat split.
    rewrite filter_app, (filter_none _ _ Hnone). cbn [filter List.app].
    fold (created s k now1). rewrite has_key_created. reflexivity.
Qed.

(** C4.  POST /transactions by an authenticated caller whose request
    passes validation, on an idle connection that is lost once the
    transaction has begun.  When a failure [e] interrupts the duplicate
    check and a failure [e'] interrupts the ROLLBACK the catch block
    awaits at line 288, the handler throws [e']: [next(err)] of line 289
    is not reached, so no answer is made, neither 500 nor 409; the
    connection is released with the transaction still open.  The same
    holds when the duplicate check finds nothing and the failures strike
    the insert and the ROLLBACK. *)
Theorem failed_rollback_sends_no_answer env req s now e e' fs l :
  truthy (optional_userId req) = true ->
  passes_validation req = true ->
  idle s ->
  app env POST_transactions req (mkWorld s now (None :: Some e :: Some e' :: fs) l)
  = (Thrown e',
     mkWorld (begun s) now fs
       (l ++ [Connect; Query BEGIN; Query (select_of req); Query ROLLBACK; Release]))
  /\ (fst (exec (select_of req) now (begun s)) = inr [] ->
      app env POST_transactions req
        (mkWorld s now (None :: None :: Some e :: Some e' :: fs) l)
      = (Thrown e',
         mkWorld (begun s) now fs
           (l ++ [Connect; Query BEGIN; Query (select_of req); Query (insert_of req);
                  Query ROLLBACK; Release]))).
Proof.
  intros Hu Hv Hi.
  destruct (passes_validation_inv _ Hv) as (H1 & H2 & H3).
  destruct s as [tb pend seq bseq]. unfold idle in Hi; cbn in Hi; subst pend.
  split.
  - enter_guard req Hu H1 H2 H3.
    do 2 (run_query; simpl_run).
    run_query; simpl_run. unfold select_of, begun; finish_run.
  - intros Hsel.
    unfold select_of, begun in Hsel.
    cbn [exec reading fst visible pending committed transactions_id_seq
         budget_categories_id_seq] in Hsel.
    enter_guard req Hu H1 H2 H3.
    do 2 (run_query; simpl_run). rewrite Hsel. simpl_run.
    run_query; simpl_run.
    run_query; simpl_run. unfold select_of, insert_of, begun; finish_run.
Qed.

(** C7.  Two create requests such that the tuple of the second, as the
    storage layer binds it (owner, description, amount, category, parsed
    date), is not the tuple of the first.  (1) Whenever the second is
    answered by the duplicate guard, the store held a row with exactly the
    second request's tuple, created within the window, and [duplicateId]
    is that row's identifier.  (2) Hence, from any store none of whose
    rows has the second request's tuple, after the first request has run
    (with whatever outcome, under whatever failures) the second one is
    never answered by the duplicate guard. *)
Theorem changed_tuple_is_not_a_duplicate env r1 r2 :
  (forall k, request_key r2 = Some k -> request_key r1 <> Some k) ->
  (forall s now fs l dup,
      fst (app env POST_transactions r2 (mkWorld s now fs l))
      = Returned (duplicate_transaction dup) ->
      exists k r, request_key r2 = Some k /\ In r (all_rows s) /\ key_of r = k
                  /\ now - one_minute < created_at r /\ dup = JsInt (id r))
  /\ (forall s now1 now2 fs1 fs2 l1 l2 dup,
        (forall r, In r (all_rows s) -> request_key r2 <> Some (key_of r)) ->
        let w1 := snd (app env POST_transactions r1 (mkWorld s now1 fs1 l1)) in
        fst (app env POST_transactions r2 (mkWorld (store w1) now2 fs2 l2))
        <> Returned (duplicate_transaction dup)).
Proof.
  intros Hdiff.
  assert (Hguard : forall s now fs l dup,
      fst (app env POST_transactions r2 (mkWorld s now fs l))
      = Returned (duplicate_transaction dup) ->
      exists k r, request_key r2 = Some k /\ In r (all_rows s) /\ key_of r = k
                  /\ now - one_minute < created_at r /\ dup = JsInt (id r)).
  { intros s now fs l dup H.
    pose proof (create_outcomes env r2 s now fs l) as Hp.
    destruct (app env POST_transactions r2 (mkWorld s now fs l)) as [out w'].
    cbn [fst] in H. destruct Hp as (_ & _ & Hp & _).
    destruct (Hp dup H) as (k & r & Hk & Hr & Hh & Hw & ->).
    exists k, r. repeat split; auto.
    - apply has_key_iff. exact Hh.
    - apply Z.ltb_lt. exact Hw. }
  split; [exact Hguard|].
  intros s now1 now2 fs1 fs2 l1 l2 dup Hnone w1 H.
  destruct (Hguard _ _ _ _ _ H) as (k & r & Hk & Hr & Hkey & _).
  subst w1.
  pose proof (create_outcomes env r1 s now1 fs1 l1) as Hp.
  destruct (app env POST_transactions r1 (mkWorld s now1 fs1 l1)) as [out w'].
  cbn [snd] in Hr. destruct Hp as (Hp & _).
  destruct (Hp r Hr) as [Hold|(k1 & Hk1 & ->)].
  - apply (Hnone r Hold). rewrite Hkey. exact Hk.
  - apply (Hdiff k Hk). rewrite Hk1. f_equal.
    rewrite <- Hkey. destruct k1; reflexivity.
Qed.

(** C5, as amended.  A valid create request whose tuple binds to [k],
    on an idle connection that suffers no failure, the sequence being
    within the 32-bit range of the [id] column.  (1) When the caller has
    no stored row with that tuple at all (inside the window or older) and
    the sequence is ahead of the table: the answer is 201 with the new
    row, the statements sent are BEGIN, the duplicate check, the insert
    and COMMIT, and the committed table is the old one plus that row.
    The row carries the next value of the sequence, the server time as
    [created_at], and the request's fields as bound by the storage layer.
    A later GET /transactions by the same caller, without filters,
    answers 200 with a list that contains the row and only rows of that
    caller.  (2) When the table (which obeys its uniqueness constraint)
    holds a row with that tuple created one minute or more before the
    server time, the duplicate check finds nothing, the insert violates a
    uniqueness constraint, ROLLBACK follows, the answer is 409 Conflict,
    and nothing but the sequence has changed. *)
Theorem create_then_read env req k :
  truthy (optional_userId req) = true ->
  passes_validation req = true ->
  request_key req = Some k ->
  (forall s now l,
      idle s ->
      int4_min <= transactions_id_seq s <= int4_max ->
      (forall r, In r (transactions (committed s)) -> has_key k r = false) ->
      (forall r, In r (transactions (committed s)) -> id r <> transactions_id_seq s) ->
      let new := created s k now in
      let stored :=
        mkStore (mkTables (transactions (committed s) ++ [new])
                   (budget_categories (committed s)))
          None (transactions_id_seq s + 1) (budget_categories_id_seq s) in
      app env POST_transactions req (mkWorld s now [] l)
      = (Returned (mkResponse 201 (transaction_json new)),
         mkWorld stored now []
           (l ++ [Connect; Query BEGIN; Query (select_of req); Query (insert_of req);
                  Query COMMIT; Release]))
      /\ (id new = transactions_id_seq s /\ created_at new = now
          /\ bind_text (optional_userId req) = inr (Some (user_id new))
          /\ bind_text (get (req_body req) "description") = inr (Some (description new))
          /\ bind_int4 (get (req_body req) "amount") = inr (Some (amount new))
          /\ bind_text (get (req_body req) "category") = inr (Some (category new))
          /\ Date_new (get (req_body req) "date") = Some (date new))
      /\ (forall later l', exists rows,
            fst (app env GET_transactions (mkRequest (req_auth req) "" [] [])
                   (mkWorld stored later [] l'))
            = Returned (mkResponse 200 (JsArray (map transaction_json rows)))
            /\ In new rows
            /\ forall r, In r rows -> user_id r = user_id new))
  /\ (forall s now l r,
        idle s ->
        int4_min <= transactions_id_seq s <= int4_max ->
        unique_constraint (transactions (committed s)) ->
        In r (transactions (committed s)) ->
        key_of r = k ->
        created_at r <= now - one_minute ->
        app env POST_transactions req (mkWorld s now [] l)
        = (Returned
             (mkResponse 409
                (JsObject [("error", JsString "Conflict");
                           ("message", JsString "This transaction already exists")])),
           mkWorld
             (mkStore (committed s) None (transactions_id_seq s + 1)
                (budget_categories_id_seq s))
             now []
             (l ++ [Connect; Query BEGIN; Query (select_of req); Query (insert_of req);
                    Query ROLLBACK; Release]))).
Proof.
  intros Hu Hv Hk. split.
  - intros s now l Hi Hseq Hnone Hfresh new stored.
    split; [|split].
    + exact (create_run_fresh env req k s now l Hu Hv Hk Hi Hnone Hfresh Hseq).
    + unfold request_key in Hk. apply bound_key_inv in Hk.
      destruct Hk as (H1 & H2 & H3 & H4 & H5).
      subst new; cbn [created id created_at user_id description amount category date].
      repeat split; auto.
      cbn in H5. destruct (Date_new _); inversion H5; reflexivity.
    + intros later l'.
      unfold request_key in Hk. apply bound_key_inv in Hk. destruct Hk as (H1 & _).
      assert (Hu' : truthy (optional_userId (mkRequest (req_auth req) "" [] [])) = true)
        by exact Hu.
      eexists. split; [|split].
      * rewrite (list_run env _ (key_user k) stored later l' Hu' H1 None None
                   (fun _ => true) (fun _ => true) eq_refl eq_refl eq_refl eq_refl).
        reflexivity.
      * apply order_by_In, filter_In. split.
        -- subst stored; cbn. apply in_or_app. right. left. reflexivity.
        -- subst new; cbn. rewrite String.eqb_refl. reflexivity.
      * intros r Hr. apply order_by_In, filter_In in Hr. destruct Hr as [_ Hr].
        rewrite !andb_true_r in Hr. apply String.eqb_eq in Hr. subst new; cbn. auto.
  - intros s now l r Hi Hseq Huniq Hr Hkey Hold.
    rewrite (create_run env req k s now l Hu Hv Hk Hi).
    rewrite filter_none.
    2:{ intros x Hx. destruct (has_key k x) eqn:Hh; [|reflexivity].
        assert (r = x) as <- by (apply Huniq; auto; rewrite Hkey; exact Hh).
        unfold within_window. cbn [andb]. apply Z.ltb_ge. exact Hold. }
    rewrite (nextval_in_range _ Hseq).
    assert (Hx : existsb (has_key k) (transactions (committed s)) = true).
    { apply existsb_exists. exists r. split; [exact Hr|]. apply has_key_iff. exact Hkey. }
    rewrite Hx.
    destruct (existsb (fun r0 => id r0 =? transactions_id_seq s) _); reflexivity.
Qed.



(** C10, as amended.  DELETE /transactions/:id by an authenticated
    caller [u] on an idle connection that suffers no failure sends one
    DELETE whose first parameter is [parseInt] of the path parameter.
    (1) When that is an integer [n] of the INTEGER range: if the caller
    has a row with identifier [n], the rows with that identifier and
    owner are removed and the answer is 200 with [id] the number [n];
    if not, the answer is 404 and the store is unchanged.  (2) When the
    path parameter has no numeric prefix, [parseInt] gives NaN, which is
    no value of the INTEGER column: the statement fails with SQLSTATE
    22P02, nothing is deleted, and the answer is the error handler's
    500.  (3) When it is an integer outside the INTEGER range, the
    statement fails with SQLSTATE 22003, nothing is deleted, and the
    answer is the error handler's 500, not 404.  (4) The same holds
    however long the numeric prefix is: when [parseInt] gives the Number
    value of any integer outside the INTEGER range (the nearest double,
    or an infinity), the column refuses it, nothing is deleted, and the
    answer is the error handler's 500. *)
Theorem delete_takes_the_parsed_id env req u s now l :
  truthy (optional_userId req) = true ->
  bind_text (optional_userId req) = inr (Some u) ->
  idle s ->
  let sent := l ++ [Connect; Query (deleted_of req); Release] in
  (forall n,
      parseInt (req_params_id req) = Finite n 0 ->
      int4_min <= n <= int4_max ->
      ((exists r, In r (transactions (committed s)) /\ id r = n /\ user_id r = u) ->
       app env DELETE_transactions_id req (mkWorld s now [] l)
       = (Returned (transaction_deleted (JsInt n)),
          mkWorld
            (mkStore
               (mkTables (filter (fun r => negb (mine n u r)) (transactions (committed s)))
                  (budget_categories (committed s)))
               None (transactions_id_seq s) (budget_categories_id_seq s))
            now [] sent))
      /\ ((forall r, In r (transactions (committed s)) -> ~ (id r = n /\ user_id r = u)) ->
          app env DELETE_transactions_id req (mkWorld s now [] l)
          = (Returned (not_found "Transaction not found or not authorized to delete"),
             mkWorld s now [] sent)))
  /\ (parseInt (req_params_id req) = NaN ->
      app env DELETE_transactions_id req (mkWorld s now [] l)
      = (Returned (errorHandler env invalid_integer), mkWorld s now [] sent)
      /\ status (errorHandler env invalid_integer) = 500)
  /\ (forall n,
        parseInt (req_params_id req) = Finite n 0 ->
        n < int4_min \/ int4_max < n ->
        app env DELETE_transactions_id req (mkWorld s now [] l)
        = (Returned (errorHandler env integer_out_of_range), mkWorld s now [] sent)
        /\ status (errorHandler env integer_out_of_range) = 500)
  /\ (forall n,
        parseInt (req_params_id req) = to_double n ->
        n < int4_min \/ int4_max < n ->
        exists e,
          app env DELETE_transactions_id req (mkWorld s now [] l)
          = (Returned (errorHandler env e), mkWorld s now [] sent)
          /\ status (errorHandler env e) = 500).
Proof.
  intros Hu Hb Hi sent. split; [|split; [|split]].
  - intros n Hn Hrange.
    rewrite (delete_run env req u s now l Hu Hb Hi), Hn, (int4_of_num_integer n Hrange).
    cbn [eq_int]. fold (mine n u). split.
    + intros (r & Hr & Hid & Huser).
      assert (Hx : existsb (mine n u) (transactions (committed s)) = true).
      { apply existsb_exists. exists r. split; [exact Hr|]. unfold mine.
        rewrite Hid, Huser, Z.eqb_refl, String.eqb_refl. reflexivity. }
      rewrite Hx. reflexivity.
    + intros Hnone.
      assert (Hx : forall r, In r (transactions (committed s)) -> mine n u r = false).
      { intros r Hr. unfold mine.
        destruct (n =? id r) eqn:E1; [|reflexivity].
        destruct (u =? user_id r)%string eqn:E2; [|reflexivity].
        apply Z.eqb_eq in E1. apply String.eqb_eq in E2.
        exfalso. apply (Hnone r Hr). auto. }
      rewrite (existsb_false_forall _ _ Hx), filter_all.
      2:{ intros r Hr. specialize (Hx r Hr). unfold mine in Hx. rewrite Hx. reflexivity. }
      destruct s as [[tx bc] pend seq bseq]. unfold idle in Hi; cbn in Hi; subst pend.
      reflexivity.
  - intros Hn.
    rewrite (delete_run env req u s now l Hu Hb Hi), Hn. cbn [int4_of_num].
    split; [reflexivity|].
    unfold errorHandler. reflexivity.
  - intros n Hn Hout.
    rewrite (delete_run env req u s now l Hu Hb Hi), Hn.
    rewrite (int4_of_num_out_of_range n Hout).
    split; [reflexivity|].
    unfold errorHandler. reflexivity.
  - intros n Hn Hout.
    destruct (to_double_out_of_range n Hout) as (e & He).
    exists e.
    rewrite (delete_run env req u s now l Hu Hb Hi), Hn, He.
    split; [reflexivity|].
    unfold errorHandler. rewrite (int4_of_num_refusal _ _ He). reflexivity.
Qed.

(** C2.  The caller is [a]; the store [s], whose [id] columns are
    primary keys, holds a transaction [r] and a budget category [c] owned
    by somebody else; [absent] is any store in which no transaction has
    the identifier of [r] and no category that of [c].  On idle
    connections that suffer no failure, for a path parameter that denotes
    the identifier of [r] (of [c]) and, for the updates, a body that
    passes the handler's validation: PUT and DELETE /transactions/:id and
    PUT and DELETE /budget-categories/:id each answer the fixed 404 body,
    which carries nothing of the record; the store is left exactly as it
    was; and the answer is the very answer the same request gets on
    [absent].  Moreover, whatever the request of [a] and whatever
    failures strike, the four operations answer on [s] exactly as on any
    store that holds the same rows of [a], such as [s] without [r] and
    [c]: no answer depends on a row of another owner. *)
Theorem foreign_record_is_not_found env req a s absent now l
    (r : Transaction) (c : BudgetCategory) :
  truthy (optional_userId req) = true ->
  bind_text (optional_userId req) = inr (Some a) ->
  idle s ->
  NoDup (map id (transactions (committed s))) ->
  In r (transactions (committed s)) ->
  user_id r <> a ->
  NoDup (map bc_id (budget_categories (committed s))) ->
  In c (budget_categories (committed s)) ->
  bc_user_id c <> a ->
  idle absent ->
  (forall x, In x (transactions (committed absent)) -> id x <> id r) ->
  (forall x, In x (budget_categories (committed absent)) -> bc_id x <> bc_id c) ->
  let w := mkWorld s now [] l in
  let nowhere := mkWorld absent now [] l in
  (int4in (req_params_id req) = Some (id r) ->
   required_missing req = false ->
   Date_new (get (req_body req) "date") <> None ->
   fst (app env PUT_transactions_id req w)
   = Returned (not_found "Transaction not found or not authorized to update")
   /\ store (snd (app env PUT_transactions_id req w)) = s
   /\ fst (app env PUT_transactions_id req nowhere)
      = fst (app env PUT_transactions_id req w))
  /\ (parseInt (req_params_id req) = Finite (id r) 0 ->
      int4_min <= id r <= int4_max ->
      fst (app env DELETE_transactions_id req w)
      = Returned (not_found "Transaction not found or not authorized to delete")
      /\ store (snd (app env DELETE_transactions_id req w)) = s
      /\ fst (app env DELETE_transactions_id req nowhere)
         = fst (app env DELETE_transactions_id req w))
  /\ (int4in (req_params_id req) = Some (bc_id c) ->
      category_fields_missing req = false ->
      (exists z, bind_int4 (get (req_body req) "amount") = inr z) ->
      fst (app env PUT_budget_categories_id req w)
      = Returned (not_found "Category not found or not authorized to update")
      /\ store (snd (app env PUT_budget_categories_id req w)) = s
      /\ fst (app env PUT_budget_categories_id req nowhere)
         = fst (app env PUT_budget_categories_id req w))
  /\ (int4in (req_params_id req) = Some (bc_id c) ->
      fst (app env DELETE_budget_categories_id req w)
      = Returned (not_found "Category not found or not authorized to delete")
      /\ store (snd (app env DELETE_budget_categories_id req w)) = s
      /\ fst (app env DELETE_budget_categories_id req nowhere)
         = fst (app env DELETE_budget_categories_id req w))
  /\ same_view a s (without r c s)
  /\ (forall other fs l1 l2,
        same_view a s other ->
        fst (app env PUT_transactions_id req (mkWorld s now fs l1))
        = fst (app env PUT_transactions_id req (mkWorld other now fs l2))
        /\ fst (app env DELETE_transactions_id req (mkWorld s now fs l1))
           = fst (app env DELETE_transactions_id req (mkWorld other now fs l2))
        /\ fst (app env PUT_budget_categories_id req (mkWorld s now fs l1))
           = fst (app env PUT_budget_categories_id req (mkWorld other now fs l2))
        /\ fst (app env DELETE_budget_categories_id req (mkWorld s now fs l1))
           = fst (app env DELETE_budget_categories_id req (mkWorld other now fs l2))).
Proof.
  intros Hu Hb Hi Hpk Hr Hown Hpkc Hc Hownc Hia Habs Habsc w nowhere.
  pose proof (foreign_row_not_mine id user_id _ r a Hpk Hr Hown) as Hmine.
  pose proof (foreign_row_not_mine bc_id bc_user_id _ c a Hpkc Hc Hownc) as Hminec.
  pose proof (absent_id_not_mine id user_id _ (id r) a Habs) as Hmine'.
  pose proof (absent_id_not_mine bc_id bc_user_id _ (bc_id c) a Habsc) as Hminec'.
  subst w nowhere.
  split; [|split; [|split; [|split; [|split]]]].
  - intros Hid Hm Hd.
    rewrite (update_not_owned env req a (id r) s now l Hu Hb Hid Hm Hd Hi Hmine).
    rewrite (update_not_owned env req a (id r) absent now l Hu Hb Hid Hm Hd Hia Hmine').
    repeat split.
  - intros Hid Hrange.
    rewrite (delete_not_owned env req a (id r) s now l Hu Hb Hid Hrange Hi Hmine).
    rewrite (delete_not_owned env req a (id r) absent now l Hu Hb Hid Hrange Hia Hmine').
    repeat split.
  - intros Hid Hm (z & Hz).
    rewrite (update_category_not_owned env req a (bc_id c) z s now l Hu Hb Hid Hm Hz Hi
               Hminec).
    rewrite (update_category_not_owned env req a (bc_id c) z absent now l Hu Hb Hid Hm Hz
               Hia Hminec').
    repeat split.
  - intros Hid.
    rewrite (delete_category_not_owned env req a (bc_id c) s now l Hu Hb Hid Hi Hminec).
    rewrite (delete_category_not_owned env req a (bc_id c) absent now l Hu Hb Hid Hia
               Hminec').
    repeat split.
  - apply same_view_without; assumption.
  - intros other fs l1 l2 Hv. apply (same_answers env req a); assumption.
Qed.
End Claims.

(* ================================================================== *)
(** * The authorization gate *)
(* ================================================================== *)

Section Gate.

Context {P : Platform}.

(** C8, as amended.  A request to a protected route for which
    [req.auth?.userId] is absent, null or empty.  (1) When the body parser
    accepts its body, the answer is 401 with the fixed body
    [unauthorized], which carries nothing of the request.  (2) When the
    body parser refuses its body with an error [e], [requireAuth] does not
    run: [e] goes to the error handler, whose answer is 500, as [e] is no
    uniqueness violation of the database.  In both cases the world is left
    exactly as it was: no connection is taken and no statement is sent. *)
Theorem unauthorized_before_data_access (env : Env) (r : Route) (inc : Incoming)
    (w : World) :
  protected r = true ->
  truthy (identity inc) = false ->
  (forall o, in_body inc = Parsed o -> handle env r inc w = (Returned unauthorized, w))
  /\ (forall e,
        in_body inc = Refused e ->
        has_code e "23505" = false ->
        handle env r inc w = (Returned (errorHandler env e), w)
        /\ status (errorHandler env e) = 500).
Proof.
  intros Hr Hu. split.
  - intros o Ho. unfold handle. rewrite Ho. cbn [express_json].
    destruct r; try discriminate Hr; cbn [app]; unfold requireAuth, optional_userId;
      cbn [req_auth]; fold (identity inc); rewrite Hu; reflexivity.
  - intros e Ho He. unfold handle. rewrite Ho. cbn [express_json].
    split; [reflexivity|]. unfold errorHandler. rewrite He. reflexivity.
Qed.

End Gate.

(* ================================================================== *)
(** * The write path under failures *)
(* ================================================================== *)

Section Failing.

Context {P : Platform}.

(** X27.  POST /transactions by an authenticated caller on an idle
    connection.  (1) Whatever failures strike and whatever the request,
    the committed tables afterwards are either those before, or those
    before plus the one new row, and then the answer is 201 with that
    row: nothing partial is committed.  For a request that passes
    validation: (2) a failure [e] that interrupts the duplicate check, and
    (3) a failure [e] that interrupts the insert, when the ROLLBACK of the
    catch block itself goes through, are answered by [errorHandler env e],
    ROLLBACK is the last statement sent, and the store is exactly as
    before; (4), (5) the same holds of an error [e] the storage layer
    itself raises on the duplicate check or on the insert (a parameter
    that is no value of its column, a violated constraint, a sequence at
    its limit).  (6) The error handler answers 409 Conflict when [e]
    carries SQLSTATE 23505, and (7) otherwise, in a production deployment,
    500 with a fixed message and neither the error's message nor its
    stack. *)
Theorem storage_errors_roll_back env req s :
  truthy (optional_userId req) = true ->
  idle s ->
  (forall now fs l,
      let '(out, w') := app env POST_transactions req (mkWorld s now fs l) in
      committed (store w') = committed s
      \/ exists k, request_key req = Some k
           /\ out = Returned (mkResponse 201 (transaction_json (created s k now)))
           /\ committed (store w')
              = mkTables (transactions (committed s) ++ [created s k now])
                  (budget_categories (committed s)))
  /\ (passes_validation req = true ->
      forall now e fs l,
        hd None fs = None ->
        app env POST_transactions req (mkWorld s now (None :: Some e :: fs) l)
        = (Returned (errorHandler env e),
           mkWorld s now (tl fs)
             (l ++ [Connect; Query BEGIN; Query (select_of req); Query ROLLBACK;
                    Release])))
  /\ (passes_validation req = true ->
      forall now e fs l,
        hd None fs = None ->
        fst (exec (select_of req) now (begun s)) = inr [] ->
        app env POST_transactions req (mkWorld s now (None :: None :: Some e :: fs) l)
        = (Returned (errorHandler env e),
           mkWorld s now (tl fs)
             (l ++ [Connect; Query BEGIN; Query (select_of req); Query (insert_of req);
                    Query ROLLBACK; Release])))
  /\ (passes_validation req = true ->
      forall now e l,
        fst (exec (select_of req) now (begun s)) = inl e ->
        app env POST_transactions req (mkWorld s now [] l)
        = (Returned (errorHandler env e),
           mkWorld s now []
             (l ++ [Connect; Query BEGIN; Query (select_of req); Query ROLLBACK;
                    Release])))
  /\ (passes_validation req = true ->
      forall now e l,
        fst (exec (select_of req) now (begun s)) = inr [] ->
        fst (exec (insert_of req) now (begun s)) = inl e ->
        let '(out, w') := app env POST_transactions req (mkWorld s now [] l) in
        out = Returned (errorHandler env e)
        /\ committed (store w') = committed s
        /\ pending (store w') = None
        /\ log w' = l ++ [Connect; Query BEGIN; Query (select_of req);
                          Query (insert_of req); Query ROLLBACK; Release])
  /\ (forall e, has_code e "23505" = true ->
        errorHandler env e
        = mkResponse 409
            (JsObject [("error", JsString "Conflict");
                       ("message", JsString "This transaction already exists")]))
  /\ (forall e, has_code e "23505" = false ->
        node_env_is env "production" = true ->
        errorHandler env e
        = mkResponse 500
            (JsObject [("error", JsString "Internal Server Error");
                       ("message", JsString "An unexpected error occurred")])).
Proof.
  intros Hu Hi.
  split; [|split; [|split; [|split; [|split; [|split]]]]].
  - intros now fs l.
    pose proof (create_outcomes env req s now fs l) as H.
    destruct (app env POST_transactions req (mkWorld s now fs l)) as [out w'].
    destruct H as (_ & H & _). exact (H Hi).
  - intros Hv now e fs l Hfs.
    destruct (passes_validation_inv _ Hv) as (H1 & H2 & H3).
    destruct s as [tb pend seq bseq]. unfold idle in Hi; cbn in Hi; subst pend.
    enter_guard req Hu H1 H2 H3.
    do 2 (run_query; simpl_run).
    destruct fs as [|[e'|] fs]; [|discriminate Hfs|];
      run_query; simpl_run; unfold select_of; finish_run.
  - intros Hv now e fs l Hfs Hsel.
    destruct (passes_validation_inv _ Hv) as (H1 & H2 & H3).
    destruct s as [tb pend seq bseq]. unfold idle in Hi; cbn in Hi; subst pend.
    unfold select_of, begun in Hsel. cbn [exec reading fst visible pending committed transactions_id_seq budget_categories_id_seq] in Hsel.
    enter_guard req Hu H1 H2 H3.
    do 2 (run_query; simpl_run). rewrite Hsel. simpl_run.
    run_query; simpl_run.
    destruct fs as [|[e'|] fs]; [|discriminate Hfs|];
      run_query; simpl_run; unfold select_of, insert_of; finish_run.
  - intros Hv now e l Hsel.
    destruct (passes_validation_inv _ Hv) as (H1 & H2 & H3).
    destruct s as [tb pend seq bseq]. unfold idle in Hi; cbn in Hi; subst pend.
    unfold select_of, begun in Hsel. cbn [exec reading fst visible pending committed transactions_id_seq budget_categories_id_seq] in Hsel.
    enter_guard req Hu H1 H2 H3.
    do 2 (run_query; simpl_run). rewrite Hsel. simpl_run.
    run_query; simpl_run. unfold select_of; finish_run.
  - intros Hv now e l Hsel Hins.
    destruct (passes_validation_inv _ Hv) as (H1 & H2 & H3).
    destruct s as [tb pend seq bseq]. unfold idle in Hi; cbn in Hi; subst pend.
    unfold select_of, begun in Hsel. cbn [exec reading fst visible pending committed transactions_id_seq budget_categories_id_seq] in Hsel.
    unfold insert_of, begun in Hins.
    cbn [exec committed pending transactions_id_seq budget_categories_id_seq] in Hins.
    enter_guard req Hu H1 H2 H3.
    do 2 (run_query; simpl_run). rewrite Hsel. simpl_run.
    run_query; simpl_run.
    destruct (insert_transaction_cases (optional_userId req)
                (get (req_body req) "description") (get (req_body req) "amount")
                (get (req_body req) "category")
                (JsDate (Date_new (get (req_body req) "date"))) now
                (mkStore tb (Some tb) seq bseq))
      as [(e0 & s' & Heq & Hc & Hp)|(k & Hk & Hx & Heq)];
      rewrite Heq in Hins |- *; cbn [fst snd] in Hins |- *; [|discriminate Hins].
    inversion Hins; subst e0.
    run_query; simpl_run. cbn [store committed pending log].
    repeat split; auto. unfold select_of, insert_of.
    rewrite <- ?app_assoc; cbn [List.app]; reflexivity.
  - apply errorHandler_conflict.
  - apply errorHandler_production.
Qed.

End Failing.

(* ================================================================== *)
(** * What every route keeps *)
(* ================================================================== *)

Section Keeping.

Context {P : Platform}.
Variable Inv : Store -> Prop.

Lemma keeps_ret {A} (x : A) : keeps Inv (ret x).
Proof. intros w H. exact H. Qed.

Lemma keeps_throw {A} e : keeps Inv (@throw A e).
Proof. intros w H. exact H. Qed.

Lemma keeps_record ev : keeps Inv (record ev).
Proof. intros w H. exact H. Qed.

Lemma keeps_bind {A B} (m : Async A) (k : A -> Async B) :
  keeps Inv m -> (forall x, keeps Inv (k x)) -> keeps Inv (bind m k).
Proof.
  intros Hm Hk w H. unfold bind. specialize (Hm w H).
  destruct (m w) as [[x|e] w']; cbn [snd] in *; [apply Hk; exact Hm | exact Hm].
Qed.

Lemma keeps_bind_ret {A B} (v : A) (k : A -> Async B) :
  keeps Inv (k v) -> keeps Inv (bind (ret v) k).
Proof. intros H w Hw. exact (H w Hw). Qed.

Lemma keeps_try_catch {A} (m : Async A) (h : JsError -> Async A) :
  keeps Inv m -> (forall e, keeps Inv (h e)) -> keeps Inv (try_catch m h).
Proof.
  intros Hm Hh w H. unfold try_catch. specialize (Hm w H).
  destruct (m w) as [[x|e] w']; cbn [snd] in *; [exact Hm | apply Hh; exact Hm].
Qed.

Lemma keeps_finally {A} (m : Async A) (f : Async unit) :
  keeps Inv m -> keeps Inv f -> keeps Inv (finally m f).
Proof.
  intros Hm Hf w H. unfold finally. specialize (Hm w H).
  destruct (m w) as [r w']; cbn [snd] in *. specialize (Hf w' Hm).
  destruct (f w') as [[[]|e] w'']; exact Hf.
Qed.

Lemma keeps_query q : statement_keeps Inv q -> keeps Inv (client_query q).
Proof.
  intros Hq [s now fs l] H. cbn [store] in H. unfold client_query.
  cbn [faults store clock log].
  destruct fs as [|[e|] fs]; cbn [snd store]; try exact H;
    specialize (Hq now s H); destruct (exec q now s) as [r s']; exact Hq.
Qed.

End Keeping.

Ltac keeping tac :=
  repeat first
    [ apply keeps_ret
    | apply keeps_throw
    | apply keeps_record
    | apply keeps_bind_ret
    | apply keeps_bind
    | apply keeps_try_catch
    | apply keeps_finally
    | apply keeps_query; tac
    | match goal with
      | |- forall _, keeps _ _ => intro
      | |- keeps _ (if ?b then _ else _) => destruct b
      end ].

Ltac enter_route Hu :=
  cbn [app]; unfold requireAuth;
  unfold get_budget_categories, post_budget_categories, put_budget_categories,
         delete_budget_categories, get_transactions, post_transactions, put_transactions,
         delete_transactions, write_guard, pool_connect, client_release, pool_query, next;
  rewrite ?(authenticated_userId _ Hu); cbn zeta.

Section Constraints.

Context {P : Platform}.

Lemma same_tuple_has_key a b : has_key (key_of a) b = same_tuple a b.
Proof. reflexivity. Qed.

Lemma well_formed_later seq seq' t :
  seq <= seq' -> well_formed seq t -> well_formed seq' t.
Proof.
  intros Hle (H1 & H2 & H3). repeat split; auto.
  intros r Hr. specialize (H3 r Hr). lia.
Qed.

Lemma consistent_visible s :
  consistent s -> well_formed (transactions_id_seq s) (visible s).
Proof.
  intros [Hc Hp]. unfold visible. destruct (pending s) as [t|]; auto.
Qed.

Lemma consistent_write s t :
  consistent s -> well_formed (transactions_id_seq s) t -> consistent (write s t).
Proof.
  intros [Hc Hp] Ht. unfold write.
  destruct (pending s) as [t0|]; split; cbn; auto; try discriminate;
    intros t' [= <-]; exact Ht.
Qed.

Lemma consistent_bumped s :
  consistent s ->
  consistent (mkStore (committed s) (pending s) (transactions_id_seq s + 1)
                (budget_categories_id_seq s)).
Proof.
  intros [Hc Hp]. split; cbn.
  - apply (well_formed_later (transactions_id_seq s)); [lia | exact Hc].
  - intros t Ht. apply (well_formed_later (transactions_id_seq s)); [lia | auto].
Qed.

Lemma well_formed_added seq rows bc new :
  well_formed seq (mkTables rows bc) ->
  id new = seq ->
  existsb (same_tuple new) rows = false ->
  well_formed (seq + 1) (mkTables (rows ++ [new]) bc).
Proof.
  intros (Hpk & Huq & Hlt) Hid Hfresh. cbn [transactions] in *.
  assert (Hno : forall r, In r rows -> same_tuple new r = false).
  { intros r Hr. destruct (same_tuple new r) eqn:E; [|reflexivity].
    assert (existsb (same_tuple new) rows = true)
      by (apply existsb_exists; exists r; auto).
    congruence. }
  repeat split; cbn [transactions].
  - rewrite map_app. cbn [map]. apply NoDup_app.
    + exact Hpk.
    + repeat constructor. intros [].
    + intros x Hx [Hn|[]]. apply in_map_iff in Hx. destruct Hx as (r & Hr & Hin).
      specialize (Hlt r Hin). lia.
  - intros a b Ha Hb Hk. apply in_app_or in Ha, Hb.
    destruct Ha as [Ha|[<-|[]]], Hb as [Hb|[<-|[]]].
    + apply Huq; assumption.
    + exfalso. apply has_key_iff in Hk. symmetry in Hk. apply has_key_iff in Hk.
      rewrite same_tuple_has_key, (Hno a Ha) in Hk. discriminate Hk.
    + exfalso. rewrite same_tuple_has_key, (Hno b Hb) in Hk. discriminate Hk.
    + reflexivity.
  - intros r Hr. apply in_app_or in Hr. destruct Hr as [Hr|[<-|[]]].
    + specialize (Hlt r Hr). lia.
    + lia.
Qed.

Lemma well_formed_removed seq rows bc (f : Transaction -> bool) :
  well_formed seq (mkTables rows bc) -> well_formed seq (mkTables (filter f rows) bc).
Proof.
  intros (Hpk & Huq & Hlt). cbn [transactions] in *. repeat split; cbn [transactions].
  - clear Huq Hlt. induction rows as [|x rows IH]; cbn; [constructor|].
    inversion Hpk as [|? ? Hnot Hpk']; subst.
    destruct (f x); cbn; [constructor|]; auto.
    intros Hin. apply Hnot. apply in_map_iff in Hin. destruct Hin as (r & Hr & Hin).
    apply filter_In in Hin. apply in_map_iff. exists r. tauto.
  - intros a b Ha Hb. apply filter_In in Ha, Hb. apply Huq; tauto.
  - intros r Hr. apply filter_In in Hr. apply Hlt. tauto.
Qed.

Lemma well_formed_replaced seq rows bc (hit : Transaction -> bool)
    (set : Transaction -> Transaction) :
  (forall r, id (set r) = id r) ->
  well_formed seq (mkTables rows bc) ->
  existsb (fun r => hit r
             && existsb (fun o => negb (id o =? id r) && same_tuple (set r) o)
                  (map (fun r => if hit r then set r else r) rows)) rows = false ->
  well_formed seq (mkTables (map (fun r => if hit r then set r else r) rows) bc).
Proof.
  intros Hid (Hpk & Huq & Hlt) Hcheck. cbn [transactions] in *.
  set (f := fun r => if hit r then set r else r) in *.
  assert (Hf : forall r, id (f r) = id r).
  { intros r. unfold f. destruct (hit r); auto. }
  assert (Hids : map id (map f rows) = map id rows).
  { rewrite map_map. apply map_ext. exact Hf. }
  assert (Hclash : forall r o, In r rows -> In o (map f rows) -> hit r = true ->
                     id o <> id r -> same_tuple (set r) o = false).
  { intros r o Hr Ho Hh Hne.
    destruct (same_tuple (set r) o) eqn:E; [|reflexivity].
    assert (existsb (fun r => hit r
              && existsb (fun o => negb (id o =? id r) && same_tuple (set r) o)
                   (map f rows)) rows = true).
    { apply existsb_exists. exists r. split; [exact Hr|]. rewrite Hh. cbn [andb].
      apply existsb_exists. exists o. split; [exact Ho|]. rewrite E.
      apply Z.eqb_neq in Hne. rewrite Hne. reflexivity. }
    congruence. }
  repeat split; cbn [transactions].
  - rewrite Hids. exact Hpk.
  - intros a' b' Ha' Hb' Hk.
    pose proof Ha' as Ha. pose proof Hb' as Hb.
    apply in_map_iff in Ha, Hb.
    destruct Ha as (a & <- & Ha), Hb as (b & <- & Hb).
    destruct (Z.eq_dec (id a) (id b)) as [Heq|Hne].
    { assert (a = b) by (eapply primary_key; eauto). subst b. reflexivity. }
    exfalso. unfold f in Hk, Ha', Hb' |- *.
    destruct (hit a) eqn:Hha.
    + fold (f b) in Hk, Hb'. rewrite same_tuple_has_key in Hk.
      rewrite (Hclash a (f b) Ha Hb' Hha) in Hk; [discriminate Hk|].
      rewrite Hf. auto.
    + destruct (hit b) eqn:Hhb.
      * apply has_key_iff in Hk. symmetry in Hk. apply has_key_iff in Hk.
        rewrite same_tuple_has_key in Hk.
        assert (Hin : In a (map f rows)).
        { apply in_map_iff. exists a. split; [unfold f; rewrite Hha; reflexivity | exact Ha]. }
        rewrite (Hclash b a Hb Hin Hhb) in Hk; [discriminate Hk | auto].
      * apply Hne. f_equal. apply Huq; assumption.
  - intros r' Hr'. apply in_map_iff in Hr'. destruct Hr' as (r & <- & Hr).
    rewrite Hf. auto.
Qed.

Lemma consistent_kept q : statement_keeps consistent q.
Proof.
  intros now s H. pose proof (consistent_visible s H) as Hv.
  destruct q as [ | | | pu | pu pn pa | pn pa pi pu | pi pu | pu prange pc
               | pu pd pa pc pt | pu pd pa pc pt | pi pu | pd pa pc pt pi pu | pi pu ];
    cbn [exec reading snd].
  - (* BEGIN *) destruct H as [Hc Hp]. split; cbn; [exact Hc|].
    intros t [= <-]. exact Hv.
  - (* COMMIT *) split; cbn; [exact Hv | discriminate].
  - (* ROLLBACK *) destruct H as [Hc Hp]. split; cbn; [exact Hc | discriminate].
  - exact H.
  - (* InsertCategory *)
    unfold insert_category.
    destruct (u <-- bind_text pu ;; n <-- bind_text pn ;; a <-- bind_int4 pa ;;
              inr (u, n, a)) as [e|[[u n] a]]; cbn [snd]; [exact H|].
    destruct (u' <-- required "user_id" u ;; n' <-- required "name" n ;;
              a' <-- required "amount" a ;;
              inr (mkCategory (budget_categories_id_seq s) u' n' a' now))
      as [e|new]; cbn [snd]; [exact H|].
    destruct (existsb _ _); cbn [snd]; [exact H|].
    destruct (existsb _ _); cbn [snd]; [exact H|].
    apply (consistent_write (mkStore _ _ _ _)); [exact H|].
    destruct (visible s); exact Hv.
  - (* UpdateCategory *)
    unfold update_category.
    destruct (n <-- bind_text pn ;; a <-- bind_int4 pa ;; i <-- bind_int4 pi ;;
              u <-- bind_text pu ;; inr (n, a, i, u)) as [e|[[[n a] i] u]];
      cbn [snd]; [exact H|].
    destruct (negb _); cbn [snd]; [exact H|].
    destruct (n' <-- required "name" n ;; a' <-- required "amount" a ;; inr (n', a'))
      as [e|[n' a']]; cbn [snd]; [exact H|].
    destruct (existsb _ _); cbn [snd]; [exact H|].
    apply consistent_write; [exact H|]. destruct (visible s); exact Hv.
  - (* DeleteCategory *)
    unfold delete_category.
    destruct (i <-- bind_int4 pi ;; u <-- bind_text pu ;; inr (i, u))
      as [e|[i u]]; cbn [snd]; [exact H|].
    apply consistent_write; [exact H|]. destruct (visible s); exact Hv.
  - exact H.
  - exact H.
  - (* InsertTransaction *)
    pose proof (consistent_bumped s H) as Hb.
    destruct (insert_transaction_shape pu pd pa pc pt now s)
      as [(e & ->)|[(e & ->)|(new & -> & Hid & _ & Hfresh)]]; cbn [snd];
      [exact H | exact Hb |].
    apply (consistent_write (mkStore _ _ _ _)); [exact Hb|].
    cbn [transactions_id_seq].
    destruct (visible s) as [rows bc]. cbn [transactions budget_categories] in *.
    apply well_formed_added; assumption.
  - exact H.
  - (* UpdateTransaction *)
    unfold update_transaction.
    destruct (d <-- bind_text pd ;; a <-- bind_int4 pa ;;
              c <-- bind_text pc ;; t <-- bind_timestamp pt ;;
              i <-- bind_int4 pi ;; u <-- bind_text pu ;;
              inr (d, a, c, t, i, u))
      as [e|[[[[[d a] c] t] i] u]]; cbn [snd]; [exact H|].
    destruct (negb _); cbn [snd]; [exact H|].
    destruct (d' <-- required "description" d ;; a' <-- required "amount" a ;;
              c' <-- required "category" c ;; t' <-- required "date" t ;;
              inr (d', a', c', t'))
      as [e|[[[d' a'] c'] t']]; cbn [snd]; [exact H|].
    destruct (existsb _ (transactions (visible s))) eqn:Hcheck; cbn [snd]; [exact H|].
    apply consistent_write; [exact H|].
    destruct (visible s) as [rows bc]. cbn [transactions budget_categories] in *.
    apply (well_formed_replaced _ rows bc
             (fun r => eq_int i (id r) && eq_text u (user_id r))
             (fun r => mkTransaction (id r) (user_id r) d' a' c' t' (created_at r)));
      [reflexivity | exact Hv | exact Hcheck].
  - (* DeleteTransaction *)
    unfold delete_transaction.
    destruct (i <-- bind_int4 pi ;; u <-- bind_text pu ;; inr (i, u))
      as [e|[i u]]; cbn [snd]; [exact H|].
    apply consistent_write; [exact H|].
    destruct (visible s) as [rows bc]. cbn [transactions budget_categories] in *.
    apply well_formed_removed. exact Hv.
Qed.

(** X2.  Every route keeps what lines 52 and 59 declare.  If, in every
    version of the table the store holds, the identifiers are distinct, no
    two rows share the tuple (user_id, description, amount, category,
    date) and the sequence of [id] is ahead of every identifier, then the
    same holds after any request, whatever failures strike. *)
Theorem constraints_are_kept env r req w :
  consistent (store w) -> consistent (store (snd (app env r req w))).
Proof.
  revert w. change (keeps consistent (app env r req)).
  destruct r; cbn [app]; [intros w H; exact H|..];
    unfold requireAuth;
    (destruct (truthy (optional_userId req)) eqn:Hu; cbn [negb]; [|apply keeps_ret]);
    enter_route Hu; keeping ltac:(apply consistent_kept).
Qed.

End Constraints.

(* ================================================================== *)
(** * The rows of other owners *)
(* ================================================================== *)

Section Elsewhere.

Variables (A : Type) (p hit : A -> bool) (upd : A -> A).
Hypothesis hit_p : forall x, hit x = true -> p x = false.
Hypothesis upd_p : forall x, p (upd x) = p x.

Lemma filter_updated_elsewhere l :
  filter p (map (fun r => if hit r then upd r else r) l) = filter p l.
Proof.
  induction l as [|x l IH]; cbn; [reflexivity|].
  destruct (hit x) eqn:Hh.
  - rewrite upd_p, (hit_p _ Hh). exact IH.
  - destruct (p x); rewrite IH; reflexivity.
Qed.

Lemma filter_removed_elsewhere l :
  filter p (filter (fun r => negb (hit r)) l) = filter p l.
Proof.
  induction l as [|x l IH]; cbn; [reflexivity|].
  destruct (hit x) eqn:Hh; cbn.
  - rewrite (hit_p _ Hh). exact IH.
  - destruct (p x); rewrite IH; reflexivity.
Qed.

End Elsewhere.

Section Untouched.

Context {P : Platform}.

Lemma foreign_rows_visible a R s : foreign_rows a R s -> foreign a (visible s) = R.
Proof.
  intros [Hc Hp]. unfold visible. destruct (pending s) as [t|]; auto.
Qed.

Lemma foreign_rows_write a R s t :
  foreign_rows a R s -> foreign a t = R -> foreign_rows a R (write s t).
Proof.
  intros [Hc Hp] Ht. unfold write.
  destruct (pending s) as [t0|]; split; cbn; auto; try discriminate;
    intros t' [= <-]; exact Ht.
Qed.

Lemma foreign_kept a R q :
  (forall u, on_behalf_of q = Some u -> bind_text u = inr (Some a)) ->
  statement_keeps (foreign_rows a R) q.
Proof.
  intros Hu now s H. pose proof (foreign_rows_visible a R s H) as Hv.
  unfold foreign in Hv.
  destruct q as [ | | | pu | pu pn pa | pn pa pi pu | pi pu | pu prange pc
               | pu pd pa pc pt | pu pd pa pc pt | pi pu | pd pa pc pt pi pu | pi pu ];
    cbn [exec reading snd]; cbn [on_behalf_of] in Hu;
    try specialize (Hu _ eq_refl).
  - destruct H as [Hc Hp]. split; cbn; [exact Hc|]. intros t [= <-]. exact Hv.
  - split; cbn; [exact Hv | discriminate].
  - destruct H as [Hc Hp]. split; cbn; [exact Hc | discriminate].
  - exact H.
  - (* InsertCategory *)
    unfold insert_category. rewrite Hu. cbn [and_then].
    destruct (bind_text pn) as [e|n]; cbn [and_then snd]; [exact H|].
    destruct (bind_int4 pa) as [e|m]; cbn [and_then snd required]; [exact H|].
    destruct (n' <-- required "name" n ;; a' <-- required "amount" m ;;
              inr (mkCategory (budget_categories_id_seq s) a n' a' now))
      as [e|new] eqn:Hnew; cbn [snd]; [exact H|].
    destruct (existsb _ _); cbn [snd]; [exact H|].
    destruct (existsb _ _); cbn [snd]; [exact H|].
    apply (foreign_rows_write a R (mkStore _ _ _ _)); [exact H|].
    unfold foreign. cbn [transactions budget_categories].
    rewrite filter_app. cbn [filter].
    assert (Hown : category_owned_by a new = true).
    { destruct n, m; cbn in Hnew; try discriminate Hnew. inversion Hnew.
      unfold category_owned_by. cbn. apply String.eqb_refl. }
    rewrite Hown. cbn [negb]. rewrite app_nil_r. exact Hv.
  - (* UpdateCategory *)
    unfold update_category. rewrite Hu.
    destruct (bind_text pn) as [e|n]; cbn [and_then snd]; [exact H|].
    destruct (bind_int4 pa) as [e|m]; cbn [and_then snd]; [exact H|].
    destruct (bind_int4 pi) as [e|i]; cbn [and_then snd]; [exact H|].
    destruct (negb _); cbn [snd]; [exact H|].
    destruct (n' <-- required "name" n ;; a' <-- required "amount" m ;; inr (n', a'))
      as [e|[n' m']]; cbn [snd]; [exact H|].
    destruct (existsb _ _); cbn [snd]; [exact H|].
    apply foreign_rows_write; [exact H|].
    unfold foreign. cbn [transactions budget_categories].
    rewrite (filter_updated_elsewhere _ (fun c => negb (category_owned_by a c))
               (fun r => eq_int i (bc_id r) && eq_text (Some a) (bc_user_id r))
               (fun r => mkCategory (bc_id r) (bc_user_id r) n' m' (bc_created_at r))).
    + exact Hv.
    + intros x Hx. apply andb_true_iff in Hx. destruct Hx as [_ Hx].
      unfold category_owned_by. cbn [eq_text] in Hx. rewrite Hx. reflexivity.
    + reflexivity.
  - (* DeleteCategory *)
    unfold delete_category. rewrite Hu.
    destruct (bind_int4 pi) as [e|i]; cbn [and_then snd]; [exact H|].
    apply foreign_rows_write; [exact H|].
    unfold foreign. cbn [transactions budget_categories].
    rewrite (filter_removed_elsewhere _ (fun c => negb (category_owned_by a c))
               (fun r => eq_int i (bc_id r) && eq_text (Some a) (bc_user_id r))).
    + exact Hv.
    + intros x Hx. apply andb_true_iff in Hx. destruct Hx as [_ Hx].
      unfold category_owned_by. cbn [eq_text] in Hx. rewrite Hx. reflexivity.
  - exact H.
  - exact H.
  - (* InsertTransaction *)
    destruct (insert_transaction_shape pu pd pa pc pt now s)
      as [(e & ->)|[(e & ->)|(new & -> & _ & Hnew & _)]]; cbn [snd];
      [exact H | exact H |].
    apply (foreign_rows_write a R (mkStore _ _ _ _)); [exact H|].
    unfold foreign. cbn [transactions budget_categories].
    rewrite filter_app. cbn [filter].
    assert (Hown : owned_by a new = true).
    { rewrite Hu in Hnew. inversion Hnew.
      unfold owned_by. apply String.eqb_refl. }
    rewrite Hown. cbn [negb]. rewrite app_nil_r. exact Hv.
  - exact H.
  - (* UpdateTransaction *)
    unfold update_transaction. rewrite Hu.
    destruct (bind_text pd) as [e|d]; cbn [and_then snd]; [exact H|].
    destruct (bind_int4 pa) as [e|m]; cbn [and_then snd]; [exact H|].
    destruct (bind_text pc) as [e|c]; cbn [and_then snd]; [exact H|].
    destruct (bind_timestamp pt) as [e|t]; cbn [and_then snd]; [exact H|].
    destruct (bind_int4 pi) as [e|i]; cbn [and_then snd]; [exact H|].
    destruct (negb _); cbn [snd]; [exact H|].
    destruct (d' <-- required "description" d ;; a' <-- required "amount" m ;;
              c' <-- required "category" c ;; t' <-- required "date" t ;;
              inr (d', a', c', t'))
      as [e|[[[d' m'] c'] t']]; cbn [snd]; [exact H|].
    destruct (existsb _ _); cbn [snd]; [exact H|].
    apply foreign_rows_write; [exact H|].
    unfold foreign. cbn [transactions budget_categories].
    rewrite (filter_updated_elsewhere _ (fun r => negb (owned_by a r))
               (fun r => eq_int i (id r) && eq_text (Some a) (user_id r))
               (fun r => mkTransaction (id r) (user_id r) d' m' c' t' (created_at r))).
    + exact Hv.
    + intros x Hx. apply andb_true_iff in Hx. destruct Hx as [_ Hx].
      unfold owned_by. cbn [eq_text] in Hx. rewrite Hx. reflexivity.
    + reflexivity.
  - (* DeleteTransaction *)
    unfold delete_transaction. rewrite Hu.
    destruct (bind_int4 pi) as [e|i]; cbn [and_then snd]; [exact H|].
    apply foreign_rows_write; [exact H|].
    unfold foreign. cbn [transactions budget_categories].
    rewrite (filter_removed_elsewhere _ (fun r => negb (owned_by a r))
               (fun r => eq_int i (id r) && eq_text (Some a) (user_id r))).
    + exact Hv.
    + intros x Hx. apply andb_true_iff in Hx. destruct Hx as [_ Hx].
      unfold owned_by. cbn [eq_text] in Hx. rewrite Hx. reflexivity.
Qed.

(** X1.  Whatever the route, the request and the failures that strike, a
    request of owner [a] on an idle connection leaves the committed rows
    of every other owner, transactions and budget categories alike,
    exactly as they were: none is added, changed, removed or moved. *)
Theorem rows_of_others_are_untouched env r req a w :
  bind_text (optional_userId req) = inr (Some a) ->
  idle (store w) ->
  foreign a (committed (store (snd (app env r req w)))) = foreign a (committed (store w)).
Proof.
  intros Hb Hi.
  assert (Hk : keeps (foreign_rows a (foreign a (committed (store w)))) (app env r req)).
  { destruct r; cbn [app]; [intros w0 H; exact H|..];
      unfold requireAuth;
      (destruct (truthy (optional_userId req)) eqn:Hu; cbn [negb]; [|apply keeps_ret]);
      enter_route Hu;
      keeping ltac:(apply foreign_kept; cbn [on_behalf_of]; intros ? Hq;
                    first [discriminate Hq | injection Hq as <-; exact Hb]). }
  apply Hk. split; [reflexivity|]. intros t Ht. rewrite Hi in Ht. discriminate Ht.
Qed.

End Untouched.

(* ================================================================== *)
(** * The pool and the handlers' promises *)
(* ================================================================== *)

Section Pool.

Context {P : Platform}.

Lemma statements_only_ret {A} (x : A) : statements_only (ret x).
Proof. intros w. exists []. cbn. rewrite app_nil_r. reflexivity. Qed.

Lemma statements_only_throw {A} e : statements_only (@throw A e).
Proof. intros w. exists []. cbn. rewrite app_nil_r. reflexivity. Qed.

Lemma statements_only_query q : statements_only (client_query q).
Proof.
  intros [s now fs l]. exists [q]. unfold client_query. cbn [faults store clock log].
  destruct fs as [|[e|] fs]; try reflexivity;
    destruct (exec q now s) as [r s']; reflexivity.
Qed.

Lemma statements_only_bind {A B} (m : Async A) (k : A -> Async B) :
  statements_only m -> (forall x, statements_only (k x)) -> statements_only (bind m k).
Proof.
  intros Hm Hk w. unfold bind. destruct (Hm w) as (qs & Hqs).
  destruct (m w) as [[x|e] w']; cbn [snd] in *.
  - destruct (Hk x w') as (qs' & Hqs'). exists (qs ++ qs').
    rewrite Hqs', Hqs, map_app, app_assoc. reflexivity.
  - exists qs. exact Hqs.
Qed.

Lemma statements_only_bind_ret {A B} (v : A) (k : A -> Async B) :
  statements_only (k v) -> statements_only (bind (ret v) k).
Proof. intros H w. exact (H w). Qed.

Lemma statements_only_try_catch {A} (m : Async A) (h : JsError -> Async A) :
  statements_only m -> (forall e, statements_only (h e)) ->
  statements_only (try_catch m h).
Proof.
  intros Hm Hh w. unfold try_catch. destruct (Hm w) as (qs & Hqs).
  destruct (m w) as [[x|e] w']; cbn [snd] in *.
  - exists qs. exact Hqs.
  - destruct (Hh e w') as (qs' & Hqs'). exists (qs ++ qs').
    rewrite Hqs', Hqs, map_app, app_assoc. reflexivity.
Qed.

(** [const client = await pool.connect(); try { ... } finally
    { client.release() }] around statements. *)
Lemma checked_out_and_released {A} (m : Async A) :
  statements_only m ->
  forall w, exists qs,
    log (snd ((pool_connect ;;; finally m client_release) w))
    = log w ++ Connect :: map Query qs ++ [Release].
Proof.
  intros Hm w. unfold bind, pool_connect, client_release, finally, record.
  cbn [fst snd].
  destruct (Hm (mkWorld (store w) (clock w) (faults w) (log w ++ [Connect])))
    as (qs & Hqs).
  destruct (m _) as [r w']. cbn [snd log] in *. exists qs.
  rewrite Hqs, <- !app_assoc. reflexivity.
Qed.

End Pool.

Ltac only_statements :=
  repeat first
    [ apply statements_only_ret
    | apply statements_only_throw
    | apply statements_only_query
    | apply statements_only_bind_ret
    | apply statements_only_bind
    | apply statements_only_try_catch
    | match goal with
      | |- forall _, statements_only _ => intro
      | |- statements_only (if ?b then _ else _) => destruct b
      end ].

Section Rejections.

Context {P : Platform}.

Lemma consumes_ret {A} (x : A) : consumes (ret x).
Proof. intros w. apply incl_refl. Qed.

Lemma consumes_throw {A} e : consumes (@throw A e).
Proof. intros w. apply incl_refl. Qed.

Lemma consumes_record ev : consumes (record ev).
Proof. intros w. apply incl_refl. Qed.

Lemma consumes_query q : consumes (client_query q).
Proof.
  intros [s now fs l]. unfold client_query. cbn [faults store clock log].
  destruct fs as [|[e|] fs].
  - destruct (exec q now s) as [r s']. apply incl_refl.
  - cbn. apply incl_tl, incl_refl.
  - destruct (exec q now s) as [r s']. cbn. apply incl_tl, incl_refl.
Qed.

Lemma consumes_bind {A B} (m : Async A) (k : A -> Async B) :
  consumes m -> (forall x, consumes (k x)) -> consumes (bind m k).
Proof.
  intros Hm Hk w. unfold bind. specialize (Hm w).
  destruct (m w) as [[x|e] w']; cbn [snd] in *; [|exact Hm].
  eapply incl_tran; [apply Hk | exact Hm].
Qed.

Lemma consumes_bind_ret {A B} (v : A) (k : A -> Async B) :
  consumes (k v) -> consumes (bind (ret v) k).
Proof. intros H w. exact (H w). Qed.

Lemma consumes_try_catch {A} (m : Async A) (h : JsError -> Async A) :
  consumes m -> (forall e, consumes (h e)) -> consumes (try_catch m h).
Proof.
  intros Hm Hh w. unfold try_catch. specialize (Hm w).
  destruct (m w) as [[x|e] w']; cbn [snd] in *; [exact Hm|].
  eapply incl_tran; [apply Hh | exact Hm].
Qed.

(** [catch (err) { await client.query('ROLLBACK'); next(err); }]: the
    rollback can only be interrupted. *)
Lemma contained_rollback env err :
  contained (client_query ROLLBACK ;;; next env err).
Proof.
  intros [s now fs l] e. unfold bind, client_query, next, ret.
  cbn [faults store clock log exec].
  destruct fs as [|[e'|] fs]; cbn [fst]; try discriminate.
  intros [= ->]. left. reflexivity.
Qed.

Lemma contained_try_catch {A} (m : Async A) (h : JsError -> Async A) :
  consumes m -> (forall e, contained (h e)) -> contained (try_catch m h).
Proof.
  intros Hm Hh w e. unfold try_catch. specialize (Hm w).
  destruct (m w) as [[x|e'] w']; cbn [fst snd] in *; [discriminate|].
  intros H. apply Hm. exact (Hh e' w' e H).
Qed.

Lemma contained_connection {A} (m : Async A) :
  contained m -> contained (pool_connect ;;; finally m client_release).
Proof.
  intros Hm w e. unfold bind, pool_connect, client_release, finally, record.
  cbn [fst snd].
  specialize (Hm (mkWorld (store w) (clock w) (faults w) (log w ++ [Connect])) e).
  destruct (m _) as [r w']. cbn [fst] in *. exact Hm.
Qed.

Lemma never_rejects_ret {A} (x : A) : never_rejects (ret x).
Proof. intros w e. discriminate. Qed.

Lemma never_rejects_try_catch {A} (m : Async A) (h : JsError -> Async A) :
  (forall e, never_rejects (h e)) -> never_rejects (try_catch m h).
Proof.
  intros Hh w e. unfold try_catch.
  destruct (m w) as [[x|e'] w']; [discriminate | apply Hh].
Qed.

Lemma never_rejects_connection {A} (m : Async A) :
  never_rejects m -> never_rejects (pool_connect ;;; finally m client_release).
Proof.
  intros Hm w e. unfold bind, pool_connect, client_release, finally, record.
  cbn [fst snd].
  specialize (Hm (mkWorld (store w) (clock w) (faults w) (log w ++ [Connect])) e).
  destruct (m _) as [r w']. cbn [fst] in *. exact Hm.
Qed.

End Rejections.

Ltac consuming :=
  repeat first
    [ apply consumes_ret
    | apply consumes_throw
    | apply consumes_record
    | apply consumes_query
    | apply consumes_bind_ret
    | apply consumes_bind
    | apply consumes_try_catch
    | match goal with
      | |- forall _, consumes _ => intro
      | |- consumes (if ?b then _ else _) => destruct b
      end ].

Section PoolProperties.

Context {P : Platform}.

(** X3.  The pool.  For an authenticated request, POST, PUT and DELETE
    /transactions, once [pool.connect()] has handed out a client, leave on
    the pool exactly the checkout, statements, and one release, which
    comes last: on every path, be it a validation failure, a success, a
    storage error or a failing ROLLBACK in the catch block.  The other
    routes never check a client out: they leave statements only. *)
Theorem client_is_always_released env r req w :
  truthy (optional_userId req) = true ->
  exists qs,
    log (snd (app env r req w))
    = log w ++ (if takes_a_client r
                then Connect :: map Query qs ++ [Release]
                else map Query qs).
Proof.
  intros Hu.
  destruct r; cbn [takes_a_client];
    try (cbn [app]; unfold requireAuth; rewrite Hu; cbn [negb]).
  1: { exists []. cbn. rewrite app_nil_r. reflexivity. }
  1-5: revert w;
    match goal with |- forall w, exists qs, log (snd (?m w)) = _ =>
      change (statements_only m) end;
    unfold get_budget_categories, post_budget_categories, put_budget_categories,
           delete_budget_categories, get_transactions, pool_query, next;
    rewrite (authenticated_userId _ Hu); cbn zeta; only_statements.
  all: unfold post_transactions, put_transactions, delete_transactions, write_guard, next;
    rewrite (authenticated_userId _ Hu); cbn zeta;
    apply checked_out_and_released; only_statements.
Qed.

(** X4.  The checkout of [pool.connect()] apart, which is taken to
    succeed, a handler's promise rejects only in POST and PUT
    /transactions, and only with a failure of the connection that was
    scheduled for one of its statements: the ROLLBACK of the catch block
    (lines 288 and 341) is the one statement no try block covers.  Every
    other route answers, whatever happens. *)
Theorem only_a_failed_rollback_rejects env r req w e :
  fst (app env r req w) = Thrown e ->
  rolls_back r = true /\ In (Some e) (faults w).
Proof.
  revert w e.
  assert (Hquiet : rolls_back r = false -> never_rejects (app env r req)).
  { intros Hr. destruct r; try discriminate Hr; cbn [app];
      [intros w e; discriminate|..];
      unfold requireAuth; (destruct (negb _); [apply never_rejects_ret|]);
      unfold get_budget_categories, post_budget_categories, put_budget_categories,
             delete_budget_categories, get_transactions, delete_transactions, next;
      try apply never_rejects_connection;
      apply never_rejects_try_catch; intros e;
      try (destruct (has_code e "23505")); apply never_rejects_ret. }
  assert (Hloud : rolls_back r = true -> contained (app env r req)).
  { intros Hr. destruct r; try discriminate Hr; cbn [app];
      unfold requireAuth;
      (destruct (truthy (optional_userId req)) eqn:Hu; cbn [negb];
       [|intros w e; discriminate]);
      unfold post_transactions, put_transactions, write_guard;
      rewrite (authenticated_userId _ Hu); cbn zeta;
      apply contained_connection; apply contained_try_catch;
      [consuming | intros e; apply contained_rollback
      |consuming | intros e; apply contained_rollback]. }
  intros w e H. destruct (rolls_back r) eqn:Hr.
  - split; [reflexivity | exact (Hloud eq_refl w e H)].
  - exfalso. exact (Hquiet eq_refl w e H).
Qed.

End PoolProperties.

(* ================================================================== *)
(** * Updating a transaction *)
(* ================================================================== *)

Section Updates.

Context {P : Platform}.

Lemma existsb_filter {A} (f : A -> bool) l :
  existsb f l = true -> exists x rest, filter f l = x :: rest.
Proof.
  induction l as [|y l IH]; cbn; [discriminate|].
  destruct (f y); [eauto|]. exact IH.
Qed.

(** PUT /transactions/:id on an idle connection that suffers no failure,
    once the owner-scoped SELECT has found the record. *)
Lemma update_run env req u i s now l :
  truthy (optional_userId req) = true ->
  bind_text (optional_userId req) = inr (Some u) ->
  int4in (req_params_id req) = Some i ->
  required_missing req = false ->
  Date_new (get (req_body req) "date") <> None ->
  idle s ->
  existsb (mine i u) (transactions (committed s)) = true ->
  app env PUT_transactions_id req (mkWorld s now [] l)
  = match exec (update_of req) now (begun s) with
    | (inl e, s') =>
        (Returned (errorHandler env e),
         mkWorld (mkStore (committed s') None (transactions_id_seq s')
                    (budget_categories_id_seq s'))
           now []
           (l ++ [Connect; Query BEGIN; Query (owned_of req); Query (update_of req);
                  Query ROLLBACK; Release]))
    | (inr rows, s') =>
        (Returned (mkResponse 200 (first_row rows)),
         mkWorld (mkStore (visible s') None (transactions_id_seq s')
                    (budget_categories_id_seq s'))
           now []
           (l ++ [Connect; Query BEGIN; Query (owned_of req); Query (update_of req);
                  Query COMMIT; Release]))
    end.
Proof.
  intros Hu Hb Hid Hm Hd Hi Hhit.
  destruct s as [tb pend seq bseq]. unfold idle in Hi; cbn in Hi; subst pend.
  cbn [committed] in Hhit.
  cbn [app]. unfold requireAuth. rewrite Hu. cbn [negb].
  unfold put_transactions. rewrite (authenticated_userId _ Hu).
  unfold bind, finally, try_catch, pool_connect, client_release, record, ret, next.
  cbn [store clock faults log]. fold (required_missing req). rewrite Hm.
  unfold update_of, owned_of, begun.
  cbn [committed transactions_id_seq budget_categories_id_seq].
  destruct (Date_new (get (req_body req) "date")) as [t|]; [|contradiction].
  cbn [isNaN_getTime]. unfold bind.
  do 2 (run_query; simpl_run).
  unfold select_owned. cbn [bind_int4]. rewrite Hid, Hb. cbn [and_then eq_int eq_text].
  fold (mine i u).
  destruct (existsb_filter _ _ Hhit) as (x & rest & ->).
  cbn [map no_rows List.length Nat.eqb].
  run_query. cbn [exec].
  match goal with
  | |- context [update_transaction ?d ?a ?c ?t ?i ?u ?s] =>
      destruct (update_transaction d a c t i u s) as [[e|rows] s']
  end.
  all: cbn [fst snd]; run_query; simpl_run; finish_run.
Qed.

Lemma only_the_record {A} (key : A -> Z) (f : A -> bool) (l : list A) (r : A) :
  NoDup (map key l) -> In r l ->
  (forall x, In x l -> f x = (key r =? key x)) ->
  filter f l = [r].
Proof.
  induction l as [|y l IH]; cbn; [tauto|].
  intros Hnd Hr Hf. inversion Hnd as [|? ? Hnot Hnd']; subst.
  rewrite (Hf y (or_introl eq_refl)).
  destruct Hr as [->|Hr].
  - rewrite Z.eqb_refl. f_equal. apply filter_none.
    intros x Hx. rewrite (Hf x (or_intror Hx)). apply Z.eqb_neq.
    intros Hk. apply Hnot. rewrite Hk. apply in_map. exact Hx.
  - replace (key r =? key y) with false.
    + apply IH; auto.
    + symmetry. apply Z.eqb_neq. intros Hk. apply Hnot. rewrite <- Hk.
      apply in_map. exact Hr.
Qed.

Lemma mine_is_the_record rows r u :
  NoDup (map id rows) -> In r rows -> user_id r = u ->
  forall x, In x rows -> mine (id r) u x = (id r =? id x).
Proof.
  intros Hpk Hr Hown x Hx. unfold mine.
  destruct (id r =? id x) eqn:E; [|reflexivity].
  apply Z.eqb_eq in E. assert (r = x) by (eapply primary_key; eauto). subst x.
  rewrite Hown. cbn. apply String.eqb_refl.
Qed.

Lemma replaced_record rows r (hit : Transaction -> bool)
    (set : Transaction -> Transaction) :
  NoDup (map id rows) -> In r rows ->
  (forall x, In x rows -> hit x = (id r =? id x)) ->
  (forall x, id (set x) = id x) ->
  existsb hit rows = true
  /\ filter hit rows = [r]
  /\ map (fun x => if hit x then set x else x) rows
     = map (fun x => if id r =? id x then set r else x) rows
  /\ existsb (fun r0 => hit r0
                && existsb (fun o => negb (id o =? id r0) && same_tuple (set r0) o)
                     (map (fun x => if hit x then set x else x) rows)) rows
     = existsb (fun o => negb (id o =? id r) && same_tuple (set r) o) rows.
Proof.
  intros Hpk Hr Hhit Hid.
  assert (Hrow : forall x, In x rows -> hit x = true -> x = r).
  { intros x Hx Hh. rewrite (Hhit x Hx) in Hh. apply Z.eqb_eq in Hh.
    eapply primary_key; eauto. }
  assert (Hmap : map (fun x => if hit x then set x else x) rows
                 = map (fun x => if id r =? id x then set r else x) rows).
  { apply map_ext_in. intros x Hx. rewrite <- (Hhit x Hx).
    destruct (hit x) eqn:Hh; [|reflexivity]. rewrite (Hrow x Hx Hh). reflexivity. }
  assert (Hinner :
    existsb (fun o => negb (id o =? id r) && same_tuple (set r) o)
      (map (fun x => if id r =? id x then set r else x) rows)
    = existsb (fun o => negb (id o =? id r) && same_tuple (set r) o) rows).
  { clear - Hid. induction rows as [|x l IH]; cbn [map existsb]; [reflexivity|].
    rewrite IH. f_equal.
    destruct (id r =? id x) eqn:E; [|reflexivity].
    rewrite Hid, Z.eqb_refl. apply Z.eqb_eq in E. rewrite <- E, Z.eqb_refl.
    reflexivity. }
  split; [|split; [|split]].
  - apply existsb_exists. exists r. split; [exact Hr|].
    rewrite (Hhit r Hr). apply Z.eqb_refl.
  - apply (only_the_record id); assumption.
  - exact Hmap.
  - rewrite Hmap.
    destruct (existsb (fun o => negb (id o =? id r) && same_tuple (set r) o) rows)
      eqn:Hany.
    + apply existsb_exists. exists r. split; [exact Hr|].
      rewrite (Hhit r Hr), Z.eqb_refl. cbn [andb]. exact Hinner.
    + apply existsb_false_forall. intros r0 Hr0.
      destruct (hit r0) eqn:Hh; [|reflexivity].
      rewrite (Hrow r0 Hr0 Hh). cbn [andb]. exact Hinner.
Qed.

(** The UPDATE statement of PUT /transactions/:id on the caller's record
    [r], the new values binding to the key [k]. *)
Lemma update_transaction_bound req k r s :
  request_key req = Some k ->
  int4in (req_params_id req) = Some (id r) ->
  NoDup (map id (transactions (visible s))) ->
  In r (transactions (visible s)) ->
  user_id r = key_user k ->
  forall now,
  exec (update_of req) now s
  = let rows := map (fun x => if id r =? id x then updated r k else x)
                  (transactions (visible s)) in
    if existsb (fun o => negb (id o =? id r) && has_key k o) (transactions (visible s))
    then (inl (unique_violation
                 "transactions_user_id_description_amount_category_date_key"), s)
    else (inr [TransactionRow (updated r k)],
          write s (mkTables rows (budget_categories (visible s)))).
Proof.
  intros Hk Hid Hpk Hr Hown now. unfold request_key in Hk.
  apply bound_key_inv in Hk. destruct Hk as (Hu & Hd & Ha & Hc & Ht).
  cbn [exec update_of]. unfold update_of, update_transaction.
  cbn [bind_int4]. rewrite Hu, Hd, Ha, Hc, Ht, Hid.
  cbn [and_then required eq_int eq_text].
  pose proof (mine_is_the_record _ r (key_user k) Hpk Hr Hown) as Hmine.
  unfold mine in Hmine.
  destruct (replaced_record (transactions (visible s)) r
              (fun x => (id r =? id x) && (key_user k =? user_id x)%string)
              (fun x => mkTransaction (id x) (user_id x) (key_description k)
                          (key_amount k) (key_category k) (key_date k) (created_at x))
              Hpk Hr Hmine (fun x => eq_refl))
    as (H1 & H2 & H3 & H4).
  cbv beta in H1, H2, H3, H4.
  rewrite H1, H4, H2, H3. cbn [negb map]. fold (updated r k).
  assert (Hkey : forall o, same_tuple (updated r k) o = has_key k o).
  { intros o. unfold same_tuple, has_key, updated. cbn. rewrite Hown. reflexivity. }
  rewrite (existsb_ext_in _ (fun o => negb (id o =? id r) && same_tuple (updated r k) o)
             (fun o => negb (id o =? id r) && has_key k o)).
  2:{ intros o. rewrite Hkey. reflexivity. }
  reflexivity.
Qed.

End Updates.

Section UpdateProperties.

Context {P : Platform}.

Lemma request_key_date req k :
  request_key req = Some k -> Date_new (get (req_body req) "date") = Some (key_date k).
Proof.
  intros Hk. unfold request_key in Hk. apply bound_key_inv in Hk.
  destruct Hk as (_ & _ & _ & _ & Ht). cbn in Ht.
  destruct (Date_new _); inversion Ht; reflexivity.
Qed.

Lemma request_key_user req k :
  request_key req = Some k -> bind_text (optional_userId req) = inr (Some (key_user k)).
Proof.
  intros Hk. unfold request_key in Hk. apply bound_key_inv in Hk. tauto.
Qed.

Lemma updated_by_own_key r : updated r (key_of r) = r.
Proof. destruct r; reflexivity. Qed.

Lemma idle_store s :
  idle s ->
  mkStore (mkTables (transactions (committed s)) (budget_categories (committed s)))
    None (transactions_id_seq s) (budget_categories_id_seq s) = s.
Proof.
  destruct s as [[tx bc] pend seq bseq]. unfold idle. cbn. intros ->. reflexivity.
Qed.

Lemma idle_rolled_back s :
  idle s ->
  mkStore (committed s) None (transactions_id_seq s) (budget_categories_id_seq s) = s.
Proof.
  destruct s as [tb pend seq bseq]. unfold idle. cbn. intros ->. reflexivity.
Qed.

(** PUT /transactions/:id on the caller's record [r], the new values
    binding to the key [k], on an idle connection that suffers no
    failure. *)
Lemma update_run_bound env req k r s now l :
  truthy (optional_userId req) = true ->
  required_missing req = false ->
  request_key req = Some k ->
  int4in (req_params_id req) = Some (id r) ->
  idle s ->
  NoDup (map id (transactions (committed s))) ->
  In r (transactions (committed s)) ->
  user_id r = key_user k ->
  app env PUT_transactions_id req (mkWorld s now [] l)
  = if existsb (fun o => negb (id o =? id r) && has_key k o) (transactions (committed s))
    then
      (Returned (errorHandler env
                   (unique_violation
                      "transactions_user_id_description_amount_category_date_key")),
       mkWorld s now []
         (l ++ [Connect; Query BEGIN; Query (owned_of req); Query (update_of req);
                Query ROLLBACK; Release]))
    else
      (Returned (mkResponse 200 (transaction_json (updated r k))),
       mkWorld
         (mkStore
            (mkTables (map (fun x => if id r =? id x then updated r k else x)
                         (transactions (committed s)))
               (budget_categories (committed s)))
            None (transactions_id_seq s) (budget_categories_id_seq s))
         now []
         (l ++ [Connect; Query BEGIN; Query (owned_of req); Query (update_of req);
                Query COMMIT; Release])).
Proof.
  intros Hu Hm Hk Hid Hi Hpk Hr Hown.
  assert (Hd : Date_new (get (req_body req) "date") <> None)
    by (rewrite (request_key_date _ _ Hk); discriminate).
  assert (Hhit : existsb (mine (id r) (key_user k)) (transactions (committed s)) = true).
  { apply existsb_exists. exists r. split; [exact Hr|].
    unfold mine. rewrite Hown, Z.eqb_refl, String.eqb_refl. reflexivity. }
  rewrite (update_run env req (key_user k) (id r) s now l Hu
             (request_key_user _ _ Hk) Hid Hm Hd Hi Hhit).
  rewrite (update_transaction_bound req k r (begun s) Hk Hid Hpk Hr Hown now).
  unfold begun, write.
  cbn [visible pending committed transactions budget_categories transactions_id_seq
       budget_categories_id_seq].
  destruct (existsb (fun o => negb (id o =? id r) && has_key k o)
              (transactions (committed s)));
    cbn [visible pending committed transactions budget_categories transactions_id_seq
         budget_categories_id_seq first_row row_json].
  - rewrite (idle_rolled_back s Hi). reflexivity.
  - reflexivity.
Qed.

(** X7.  PUT /transactions/:id on the caller's own record [r], with
    values the storage layer binds to a key [k] that no other row has, on
    an idle connection that suffers no failure: the answer is 200 with
    [updated r k], the record with its four fields replaced and its [id],
    [user_id] and [created_at] kept; the statements are BEGIN, the
    owner-scoped SELECT, the UPDATE and COMMIT; in the committed table the
    record is replaced in place and every other row is kept; a later GET
    /transactions by the caller lists the new version, and nothing else
    under that identifier. *)
Theorem update_replaces_the_record env req k r s now l :
  truthy (optional_userId req) = true ->
  required_missing req = false ->
  request_key req = Some k ->
  int4in (req_params_id req) = Some (id r) ->
  idle s ->
  NoDup (map id (transactions (committed s))) ->
  In r (transactions (committed s)) ->
  user_id r = key_user k ->
  (forall o, In o (transactions (committed s)) -> id o <> id r -> key_of o <> k) ->
  let stored :=
    mkStore
      (mkTables (map (fun x => if id r =? id x then updated r k else x)
                   (transactions (committed s)))
         (budget_categories (committed s)))
      None (transactions_id_seq s) (budget_categories_id_seq s) in
  app env PUT_transactions_id req (mkWorld s now [] l)
  = (Returned (mkResponse 200 (transaction_json (updated r k))),
     mkWorld stored now []
       (l ++ [Connect; Query BEGIN; Query (owned_of req); Query (update_of req);
              Query COMMIT; Release]))
  /\ (forall x, In x (transactions (committed s)) -> id x <> id r ->
        In x (transactions (committed stored)))
  /\ (forall later l', exists rows,
        fst (app env GET_transactions (mkRequest (req_auth req) "" [] [])
               (mkWorld stored later [] l'))
        = Returned (mkResponse 200 (JsArray (map transaction_json rows)))
        /\ In (updated r k) rows
        /\ (forall x, In x rows -> id x = id r -> x = updated r k)).
Proof.
  intros Hu Hm Hk Hid Hi Hpk Hr Hown Hfree stored.
  assert (Hin : In (updated r k) (transactions (committed stored))).
  { subst stored. cbn [committed transactions]. apply in_map_iff. exists r.
    rewrite Z.eqb_refl. auto. }
  split; [|split].
  - rewrite (update_run_bound env req k r s now l Hu Hm Hk Hid Hi Hpk Hr Hown).
    rewrite existsb_false_forall; [reflexivity|].
    intros o Ho. destruct (id o =? id r) eqn:E; [reflexivity|]. cbn [negb andb].
    destruct (has_key k o) eqn:Hh; [|reflexivity].
    exfalso. apply Z.eqb_neq in E. apply (Hfree o Ho E). apply has_key_iff. exact Hh.
  - intros x Hx Hne. subst stored. cbn [committed transactions].
    apply in_map_iff. exists x. split; [|exact Hx].
    replace (id r =? id x) with false; [reflexivity|].
    symmetry. apply Z.eqb_neq. auto.
  - intros later l'.
    assert (Hu' : truthy (optional_userId (mkRequest (req_auth req) "" [] [])) = true)
      by exact Hu.
    eexists. split; [|split].
    + rewrite (list_run env _ (key_user k) stored later l' Hu' (request_key_user _ _ Hk)
                 None None (fun _ => true) (fun _ => true) eq_refl eq_refl eq_refl eq_refl).
      reflexivity.
    + apply order_by_In, filter_In. split; [exact Hin|].
      cbn [updated user_id]. rewrite Hown, String.eqb_refl. reflexivity.
    + intros x Hx Hidx. apply order_by_In, filter_In in Hx. destruct Hx as [Hx _].
      subst stored. cbn [visible pending committed transactions] in Hx.
      apply in_map_iff in Hx. destruct Hx as (y & Hy & Hyin).
      destruct (id r =? id y) eqn:E; [auto|].
      subst y. apply Z.eqb_neq in E. congruence.
Qed.

(** X8.  PUT /transactions/:id with the values the record already has is
    answered 200 with the record and leaves the store exactly as it was:
    the uniqueness constraint does not set a row against itself. *)
Theorem update_with_the_same_values_changes_nothing env req r s now l :
  truthy (optional_userId req) = true ->
  required_missing req = false ->
  request_key req = Some (key_of r) ->
  int4in (req_params_id req) = Some (id r) ->
  idle s ->
  NoDup (map id (transactions (committed s))) ->
  unique_constraint (transactions (committed s)) ->
  In r (transactions (committed s)) ->
  app env PUT_transactions_id req (mkWorld s now [] l)
  = (Returned (mkResponse 200 (transaction_json r)),
     mkWorld s now []
       (l ++ [Connect; Query BEGIN; Query (owned_of req); Query (update_of req);
              Query COMMIT; Release])).
Proof.
  intros Hu Hm Hk Hid Hi Hpk Huq Hr.
  rewrite (update_run_bound env req (key_of r) r s now l Hu Hm Hk Hid Hi Hpk Hr eq_refl).
  rewrite existsb_false_forall.
  2:{ intros o Ho. destruct (id o =? id r) eqn:E; [reflexivity|]. cbn [negb andb].
      destruct (has_key (key_of r) o) eqn:Hh; [|reflexivity].
      rewrite (Huq r o Hr Ho Hh), Z.eqb_refl in E. discriminate E. }
  rewrite updated_by_own_key.
  replace (map (fun x => if id r =? id x then r else x) (transactions (committed s)))
    with (transactions (committed s)).
  - rewrite (idle_store s Hi). reflexivity.
  - rewrite <- (map_id (transactions (committed s))) at 1.
    apply map_ext_in. intros x Hx.
    destruct (id r =? id x) eqn:E; [|reflexivity].
    apply Z.eqb_eq in E. eapply primary_key; eauto.
Qed.

(** X9.  PUT /transactions/:id that would give the caller's record [r]
    the tuple of another row [o]: the UPDATE violates the uniqueness
    constraint of line 59, the transaction is rolled back, the store is
    unchanged and the answer is the error handler's 409 Conflict. *)
Theorem update_onto_another_record_is_a_conflict env req k r o s now l :
  truthy (optional_userId req) = true ->
  required_missing req = false ->
  request_key req = Some k ->
  int4in (req_params_id req) = Some (id r) ->
  idle s ->
  NoDup (map id (transactions (committed s))) ->
  In r (transactions (committed s)) ->
  user_id r = key_user k ->
  In o (transactions (committed s)) ->
  id o <> id r ->
  key_of o = k ->
  app env PUT_transactions_id req (mkWorld s now [] l)
  = (Returned
       (mkResponse 409
          (JsObject [("error", JsString "Conflict");
                     ("message", JsString "This transaction already exists")])),
     mkWorld s now []
       (l ++ [Connect; Query BEGIN; Query (owned_of req); Query (update_of req);
              Query ROLLBACK; Release])).
Proof.
  intros Hu Hm Hk Hid Hi Hpk Hr Hown Ho Hne Hkey.
  rewrite (update_run_bound env req k r s now l Hu Hm Hk Hid Hi Hpk Hr Hown).
  replace (existsb (fun o => negb (id o =? id r) && has_key k o)
             (transactions (committed s))) with true.
  - reflexivity.
  - symmetry. apply existsb_exists. exists o. split; [exact Ho|].
    apply Z.eqb_neq in Hne. rewrite Hne. cbn [negb andb].
    apply has_key_iff. exact Hkey.
Qed.

Lemma bind_text_truthy v :
  truthy v = true -> exists x, bind_text v = inr (Some x).
Proof. destruct v; cbn; try discriminate; eauto. Qed.

(** X11.  PUT /transactions/:id has no check of the amount's type (POST
    has one, line 238).  An amount that is no value of the INTEGER column
    (NaN, Infinity, a fraction, text that is no integer), or null, passes
    the handler's validation; on the caller's own record the UPDATE then
    fails, with the storage layer's error [e] or the not-null violation of
    [amount], the transaction is rolled back, the store is unchanged and
    the answer is [errorHandler env e]. *)
Theorem update_leaves_the_amount_to_storage env req u i s now l e :
  truthy (optional_userId req) = true ->
  bind_text (optional_userId req) = inr (Some u) ->
  int4in (req_params_id req) = Some i ->
  required_missing req = false ->
  Date_new (get (req_body req) "date") <> None ->
  idle s ->
  existsb (mine i u) (transactions (committed s)) = true ->
  bind_int4 (get (req_body req) "amount") = inl e
  \/ (get (req_body req) "amount" = JsNull /\ e = not_null_violation "amount") ->
  app env PUT_transactions_id req (mkWorld s now [] l)
  = (Returned (errorHandler env e),
     mkWorld s now []
       (l ++ [Connect; Query BEGIN; Query (owned_of req); Query (update_of req);
              Query ROLLBACK; Release])).
Proof.
  intros Hu Hb Hid Hm Hd Hi Hhit Ha.
  rewrite (update_run env req u i s now l Hu Hb Hid Hm Hd Hi Hhit).
  assert (Hfields : truthy (get (req_body req) "description") = true
                    /\ truthy (get (req_body req) "category") = true).
  { unfold required_missing in Hm.
    destruct (truthy (get (req_body req) "description")); [|discriminate Hm].
    destruct (is_undefined (get (req_body req) "amount")); [discriminate Hm|].
    destruct (truthy (get (req_body req) "category")); [|discriminate Hm]. auto. }
  destruct Hfields as [Hfd Hfc].
  destruct (bind_text_truthy _ Hfd) as (d & Hbd).
  destruct (bind_text_truthy _ Hfc) as (c & Hbc).
  assert (Hexec : exec (update_of req) now (begun s) = (inl e, begun s)).
  { cbn [exec update_of]. unfold update_of, update_transaction. rewrite Hbd.
    cbn [and_then].
    destruct Ha as [Ha|[Ha ->]]; rewrite Ha; cbn [and_then bind_int4]; [reflexivity|].
    rewrite Hbc. destruct (Date_new (get (req_body req) "date")) as [t|]; [|contradiction].
    cbn [and_then bind_timestamp]. rewrite Hid, Hb.
    cbn [and_then eq_int eq_text]. unfold begun at 1.
    cbn [visible pending]. fold (mine i u).
    rewrite Hhit. reflexivity. }
  rewrite Hexec. unfold begun.
  cbn [committed transactions_id_seq budget_categories_id_seq].
  rewrite (idle_rolled_back s Hi). reflexivity.
Qed.


End UpdateProperties.

(* ================================================================== *)
(** * More on listing and deleting *)
(* ================================================================== *)

Section MoreListing.

Context {P : Platform}.

Lemma insert_sorted_permutation {A} (before : A -> A -> bool) x l :
  Permutation (insert_sorted before x l) (x :: l).
Proof.
  induction l as [|y l IH]; cbn; [apply Permutation_refl|].
  destruct (before x y); [apply Permutation_refl|].
  eapply Permutation_trans; [apply perm_skip, IH | apply perm_swap].
Qed.

Lemma order_by_permutation {A} (before : A -> A -> bool) l :
  Permutation (order_by before l) l.
Proof.
  unfold order_by. induction l as [|x l IH]; cbn; [apply Permutation_refl|].
  eapply Permutation_trans; [apply insert_sorted_permutation | apply perm_skip, IH].
Qed.

(** X19.  GET /transactions with only one of [startDate] and [endDate]
    (line 203 wants both): no date condition is sent; the answer lists
    every row of the caller, of the given [category] when one is supplied
    (an empty one is no filter), each exactly once, ordered by [date] then
    [created_at], both descending. *)
Theorem list_ignores_half_a_date_range env req u s now l :
  truthy (optional_userId req) = true ->
  bind_text (optional_userId req) = inr (Some u) ->
  truthy (get (req_query req) "startDate") = false
  \/ truthy (get (req_query req) "endDate") = false ->
  exists rows keep,
    app env GET_transactions req (mkWorld s now [] l)
    = (Returned (mkResponse 200 (JsArray (map transaction_json rows))),
       mkWorld s now []
         (l ++ [Query (SelectTransactions (optional_userId req) None
                         (if truthy (get (req_query req) "category")
                          then Some (get (req_query req) "category") else None))]))
    /\ Permutation rows (filter keep (transactions (visible s)))
    /\ (forall r, keep r = true <->
          user_id r = u
          /\ (truthy (get (req_query req) "category") = true ->
              bind_text (get (req_query req) "category") = inr (Some (category r))))
    /\ StronglySorted date_then_creation_desc rows.
Proof.
  intros Hu Hb Hhalf.
  set (c := get (req_query req) "category").
  assert (Hrange : (if truthy (get (req_query req) "startDate")
                       && truthy (get (req_query req) "endDate")
                    then Some (get (req_query req) "startDate",
                               get (req_query req) "endDate")
                    else None) = None).
  { destruct Hhalf as [H|H]; rewrite H; [|rewrite andb_false_r]; reflexivity. }
  assert (Hcat : exists in_category,
             match (if truthy c then Some c else None) with
             | Some c0 => c' <-- bind_text c0 ;; inr (eq_text c')
             | None => inr (fun _ => true)
             end = inr in_category
             /\ forall x, in_category x = true <->
                  (truthy c = true -> bind_text c = inr (Some x))).
  { destruct (truthy c) eqn:Ht.
    - destruct c; try discriminate Ht; cbn; eexists; (split; [reflexivity|]);
        intros x; cbn; rewrite String.eqb_eq;
        (split; [intros -> _; reflexivity | intros H; specialize (H eq_refl); congruence]).
    - exists (fun _ => true). split; [reflexivity|].
      intros x. split; [discriminate | reflexivity]. }
  destruct Hcat as (in_category & Hic & Hspec).
  exists (order_by newer_first
            (filter (fun r => (u =? user_id r)%string && true && in_category (category r))
               (transactions (visible s)))),
         (fun r => (u =? user_id r)%string && true && in_category (category r)).
  split; [|split; [|split]].
  - rewrite (list_run env req u s now l Hu Hb None _ (fun _ => true) in_category
               Hrange eq_refl eq_refl Hic).
    reflexivity.
  - apply order_by_permutation.
  - intros r. rewrite !andb_true_iff, String.eqb_eq, Hspec. fold c.
    intuition (subst; auto).
  - apply order_by_sorted.
Qed.

(** X20.  GET /transactions with a date range of which the storage layer
    cannot read a bound as a timestamp: the handler does not validate the
    range; the statement fails, the store is unchanged and the answer is
    [errorHandler env e], not 400. *)
Theorem list_with_an_unreadable_date_is_an_error env req s now l e :
  truthy (optional_userId req) = true ->
  truthy (get (req_query req) "startDate") = true ->
  truthy (get (req_query req) "endDate") = true ->
  bind_timestamp (get (req_query req) "startDate") = inl e
  \/ (exists lo, bind_timestamp (get (req_query req) "startDate") = inr lo)
     /\ bind_timestamp (get (req_query req) "endDate") = inl e ->
  app env GET_transactions req (mkWorld s now [] l)
  = (Returned (errorHandler env e),
     mkWorld s now []
       (l ++ [Query (SelectTransactions (optional_userId req)
                       (Some (get (req_query req) "startDate",
                              get (req_query req) "endDate"))
                       (if truthy (get (req_query req) "category")
                        then Some (get (req_query req) "category") else None))])).
Proof.
  intros Hu Hs He Hbad.
  cbn [app]. unfold requireAuth. rewrite Hu. cbn [negb].
  unfold get_transactions. rewrite (authenticated_userId _ Hu).
  unfold try_catch, bind, ret, next, pool_query. cbn zeta. rewrite Hs, He. cbn [andb].
  rewrite client_query_nil. cbn [exec reading fst snd].
  unfold select_transactions.
  destruct (bind_text_truthy _ Hu) as (u & ->). cbn [and_then].
  destruct Hbad as [H|[(lo & Hlo) H]]; [rewrite H | rewrite Hlo, H]; reflexivity.
Qed.

End MoreListing.

Section MoreDeletes.

Context {P : Platform}.

(** X16.  After any DELETE /transactions/:id, answered 200 or 404, the
    caller has no row with the parsed identifier, and the same request
    once more is answered 404 and changes nothing. *)
Theorem delete_twice_is_not_found env req u n s now later l l' :
  truthy (optional_userId req) = true ->
  bind_text (optional_userId req) = inr (Some u) ->
  parseInt (req_params_id req) = Finite n 0 ->
  int4_min <= n <= int4_max ->
  idle s ->
  let first := app env DELETE_transactions_id req (mkWorld s now [] l) in
  let second :=
    app env DELETE_transactions_id req (mkWorld (store (snd first)) later [] l') in
  (forall r, In r (transactions (committed (store (snd first)))) ->
     ~ (id r = n /\ user_id r = u))
  /\ fst second = Returned (not_found "Transaction not found or not authorized to delete")
  /\ store (snd second) = store (snd first).
Proof.
  intros Hu Hb Hn Hrange Hi first second. subst second first.
  rewrite (delete_run env req u s now l Hu Hb Hi), Hn, (int4_of_num_integer n Hrange).
  cbn [fst snd store eq_int].
  match goal with
  | |- context [app env DELETE_transactions_id req (mkWorld ?st later [] l')] =>
      assert (Hrest : forall r, In r (transactions (committed st)) -> mine n u r = false)
  end.
  { cbn [committed transactions]. intros r Hr. apply filter_In in Hr.
    destruct Hr as [_ Hr]. unfold mine.
    destruct ((n =? id r) && (u =? user_id r)%string); [discriminate Hr | reflexivity]. }
  split.
  - intros r Hr [Hid Hown].
    specialize (Hrest r Hr). unfold mine in Hrest.
    rewrite Hid, Hown, Z.eqb_refl, String.eqb_refl in Hrest. discriminate Hrest.
  - match goal with
    | |- context [app env DELETE_transactions_id req (mkWorld ?st later [] l')] =>
        rewrite (delete_not_owned env req u n st later l' Hu Hb Hn Hrange eq_refl Hrest)
    end.
    split; reflexivity.
Qed.

(** X17.  DELETE /transactions/:id with a path parameter that parses to
    an integer outside the 32-bit range of the [id] column: the statement
    fails with SQLSTATE 22003, nothing is deleted and the answer is the
    error handler's 500, not 404. *)
Theorem delete_refuses_an_id_out_of_range env req s now l n :
  truthy (optional_userId req) = true ->
  idle s ->
  parseInt (req_params_id req) = Finite n 0 ->
  n < int4_min \/ int4_max < n ->
  app env DELETE_transactions_id req (mkWorld s now [] l)
  = (Returned (errorHandler env integer_out_of_range),
     mkWorld s now [] (l ++ [Connect; Query (deleted_of req); Release]))
  /\ status (errorHandler env integer_out_of_range) = 500.
Proof.
  intros Hu Hi Hn Hout.
  destruct (bind_text_truthy _ Hu) as (u & Hb).
  rewrite (delete_run env req u s now l Hu Hb Hi), Hn.
  unfold int4_of_num, integer_value. cbn [Z.leb Z.compare].
  change (2 ^ 0) with 1. rewrite Z.mul_1_r.
  replace ((int4_min <=? n) && (n <=? int4_max)) with false.
  - split; reflexivity.
  - symmetry. apply andb_false_iff.
    destruct Hout; [left; apply Z.leb_gt | right; apply Z.leb_gt]; assumption.
Qed.

(** X15.  Create, then delete.  After a create answered 201, a DELETE
    /transactions/:id by the same caller whose path parameter reads as the
    identifier just assigned is answered 200 with that identifier, and the
    committed tables are again those before the create; only the sequence
    has moved on. *)
Theorem create_then_delete_restores_the_table env req del k s now later l l' :
  truthy (optional_userId req) = true ->
  passes_validation req = true ->
  request_key req = Some k ->
  idle s ->
  (forall r, In r (transactions (committed s)) -> has_key k r = false) ->
  (forall r, In r (transactions (committed s)) -> id r <> transactions_id_seq s) ->
  req_auth del = req_auth req ->
  parseInt (req_params_id del) = Finite (transactions_id_seq s) 0 ->
  int4_min <= transactions_id_seq s <= int4_max ->
  let made := app env POST_transactions req (mkWorld s now [] l) in
  fst made
  = Returned (mkResponse 201 (transaction_json (created s k now)))
  /\ app env DELETE_transactions_id del (mkWorld (store (snd made)) later [] l')
     = (Returned (transaction_deleted (JsInt (transactions_id_seq s))),
        mkWorld (mkStore (committed s) None (transactions_id_seq s + 1)
                   (budget_categories_id_seq s))
          later [] (l' ++ [Connect; Query (deleted_of del); Release])).
Proof.
  intros Hu Hv Hk Hi Hnone Hfresh Hauth Hn Hrange made. subst made.
  rewrite (create_run_fresh env req k s now l Hu Hv Hk Hi Hnone Hfresh Hrange).
  cbn [fst snd store]. split; [reflexivity|].
  assert (Hu' : truthy (optional_userId del) = true).
  { unfold optional_userId in *. rewrite Hauth. exact Hu. }
  assert (Hb : bind_text (optional_userId del) = inr (Some (key_user k))).
  { unfold optional_userId. rewrite Hauth. exact (request_key_user _ _ Hk). }
  rewrite (delete_run env del (key_user k) (mkStore _ None _ _) later l' Hu' Hb eq_refl).
  rewrite Hn, (int4_of_num_integer _ Hrange).
  cbn [committed transactions budget_categories transactions_id_seq
       budget_categories_id_seq eq_int].
  fold (mine (transactions_id_seq s) (key_user k)).
  assert (Hold : forall r, In r (transactions (committed s)) ->
                   mine (transactions_id_seq s) (key_user k) r = false).
  { intros r Hr. unfold mine. replace (transactions_id_seq s =? id r) with false;
      [reflexivity|]. symmetry. apply Z.eqb_neq. intros H. apply (Hfresh r Hr). auto. }
  assert (Hnew : mine (transactions_id_seq s) (key_user k) (created s k now)
                 = true).
  { unfold mine, created. cbn [id user_id].
    rewrite Z.eqb_refl, String.eqb_refl. reflexivity. }
  assert (Hex : existsb (mine (transactions_id_seq s) (key_user k))
                  (transactions (committed s) ++ [created s k now]) = true).
  { apply existsb_exists. exists (created s k now).
    split; [apply in_or_app; right; left; reflexivity | exact Hnew]. }
  assert (Hleft : filter (fun r => negb ((transactions_id_seq s =? id r)
                                         && (key_user k =? user_id r)%string))
                    (transactions (committed s) ++ [created s k now])
                  = transactions (committed s)).
  { rewrite filter_app. cbn [filter]. unfold mine in Hnew. rewrite Hnew. cbn [negb].
    rewrite app_nil_r. apply filter_all.
    intros r Hr. specialize (Hold r Hr). unfold mine in Hold. rewrite Hold. reflexivity. }
  rewrite Hex, Hleft.
  destruct s as [[tx bc] pend seq bseq]. reflexivity.
Qed.

End MoreDeletes.

(* ================================================================== *)
(** * Failures, validation and reading *)
(* ================================================================== *)

Ltac enter_handler Hu :=
  cbn [app]; unfold requireAuth; rewrite Hu; cbn [negb];
  unfold get_budget_categories, post_budget_categories, put_budget_categories,
         delete_budget_categories, get_transactions, post_transactions, put_transactions,
         delete_transactions, pool_query;
  rewrite (authenticated_userId _ Hu);
  unfold bind, finally, try_catch, pool_connect, client_release, record, ret, next;
  cbn zeta; cbn [store clock faults log].

Section Failures.

Context {P : Platform}.

(** X6.  A failure [e] of the connection on the first statement of a
    route is answered by [errorHandler env e] and the store is left as it
    was; POST /budget-categories alone answers its own 409 "Duplicate
    category" when [e] carries SQLSTATE 23505.  For POST and PUT
    /transactions the statement is BEGIN, and the answer comes once the
    ROLLBACK of the catch block has gone through. *)
Theorem failures_reach_the_error_handler env req s now e fs l :
  truthy (optional_userId req) = true ->
  let w := mkWorld s now (Some e :: fs) l in
  let failed r := fst (app env r req w) = Returned (errorHandler env e)
                  /\ store (snd (app env r req w)) = s in
  failed GET_budget_categories
  /\ (category_fields_missing req = false ->
      fst (app env POST_budget_categories req w)
      = Returned (if has_code e "23505" then duplicate_category else errorHandler env e)
      /\ store (snd (app env POST_budget_categories req w)) = s)
  /\ (category_fields_missing req = false -> failed PUT_budget_categories_id)
  /\ failed DELETE_budget_categories_id
  /\ failed GET_transactions
  /\ failed DELETE_transactions_id
  /\ (passes_validation req = true -> hd None fs = None -> idle s ->
      failed POST_transactions)
  /\ (required_missing req = false -> Date_new (get (req_body req) "date") <> None ->
      hd None fs = None -> idle s -> failed PUT_transactions_id).
Proof.
  intros Hu w failed. subst failed w. cbv beta.
  split; [|split; [|split; [|split; [|split; [|split; [|split]]]]]].
  1, 4, 5, 6: enter_handler Hu; rewrite client_query_fault; split; reflexivity.
  - intros Hm. enter_handler Hu. fold (category_fields_missing req). rewrite Hm.
    rewrite client_query_fault. destruct (has_code e "23505"); split; reflexivity.
  - intros Hm. enter_handler Hu. fold (category_fields_missing req). rewrite Hm.
    rewrite client_query_fault. split; reflexivity.
  - intros Hv Hfs Hi. destruct (passes_validation_inv _ Hv) as (H1 & H2 & H3).
    destruct s as [tb pend seq bseq]. unfold idle in Hi; cbn in Hi; subst pend.
    enter_handler Hu. fold (required_missing req). rewrite H1, H2, H3.
    unfold write_guard, bind. rewrite client_query_fault.
    destruct fs as [|[e'|] fs]; [|discriminate Hfs|];
      run_query; simpl_run; cbn [fst snd store]; split; reflexivity.
  - intros Hm Hd Hfs Hi.
    destruct s as [tb pend seq bseq]. unfold idle in Hi; cbn in Hi; subst pend.
    enter_handler Hu. fold (required_missing req). rewrite Hm.
    destruct (Date_new (get (req_body req) "date")) as [t|]; [|contradiction].
    cbn [isNaN_getTime]. unfold bind. rewrite client_query_fault.
    destruct fs as [|[e'|] fs]; [|discriminate Hfs|];
      run_query; simpl_run; cbn [fst snd store]; split; reflexivity.
Qed.


Lemma reading_keeps (Inv : Store -> Prop) q :
  (forall now s, snd (exec q now s) = s) -> statement_keeps Inv q.
Proof. intros Hq now s H. rewrite Hq. exact H. Qed.

(** X21.  GET /health, GET /budget-categories and GET /transactions leave
    the store exactly as it was, whatever the request, authenticated or
    not, and whatever failures strike. *)
Theorem reading_routes_change_nothing env r req w :
  only_reads r = true ->
  store (snd (app env r req w)) = store w.
Proof.
  intros Hr.
  assert (Hk : keeps (fun s => s = store w) (app env r req)).
  { destruct r; try discriminate Hr; cbn [app]; [intros w0 H; exact H|..];
      unfold requireAuth;
      (destruct (truthy (optional_userId req)) eqn:Hu; cbn [negb]; [|apply keeps_ret]);
      enter_route Hu;
      keeping ltac:(apply reading_keeps; reflexivity). }
  apply Hk. reflexivity.
Qed.

End Failures.

Ltac walk :=
  repeat
    (first
       [ run_query
       | match goal with
         | |- context [select_recent ?u ?d ?a ?c ?t ?n ?tb] =>
             destruct (select_recent u d a c t n tb) as [?e|[|?x ?rest]]
         | |- context [insert_transaction ?u ?d ?a ?c ?t ?n ?s] =>
             destruct (insert_transaction u d a c t n s) as [[?e|?rows] ?s']
         | |- context [select_owned ?i ?u ?tb] =>
             destruct (select_owned i u tb) as [?e|[|?x ?rest]]
         | |- context [update_transaction ?d ?a ?c ?t ?i ?u ?s] =>
             destruct (update_transaction d a c t i u s) as [[?e|?rows] ?s']
         end ];
     simpl_run).

Section Closing.

Context {P : Platform}.

Lemma write_idle s t : idle s -> idle (write s t).
Proof. unfold idle, write. intros ->. reflexivity. Qed.

Lemma idle_kept q :
  match q with BEGIN => False | _ => True end -> statement_keeps idle q.
Proof.
  intros Hq now s H. destruct q; try contradiction; cbn [exec reading snd];
    try exact H; try reflexivity.
  - unfold insert_category.
    repeat match goal with
           | |- context [match ?x with _ => _ end] => destruct x
           | |- context [if ?x then _ else _] => destruct x
           end; cbn [snd]; try exact H; apply (write_idle (mkStore _ _ _ _)); exact H.
  - unfold update_category.
    repeat match goal with
           | |- context [match ?x with _ => _ end] => destruct x
           | |- context [if ?x then _ else _] => destruct x
           end; cbn [snd]; try exact H; apply write_idle; exact H.
  - unfold delete_category.
    repeat match goal with
           | |- context [match ?x with _ => _ end] => destruct x
           end; cbn [snd]; try exact H; apply write_idle; exact H.
  - unfold insert_transaction.
    repeat match goal with
           | |- context [match ?x with _ => _ end] => destruct x
           | |- context [if ?x then _ else _] => destruct x
           end; cbn [snd]; try exact H; apply (write_idle (mkStore _ _ _ _)); exact H.
  - unfold update_transaction.
    repeat match goal with
           | |- context [match ?x with _ => _ end] => destruct x
           | |- context [if ?x then _ else _] => destruct x
           end; cbn [snd]; try exact H; apply write_idle; exact H.
  - unfold delete_transaction.
    repeat match goal with
           | |- context [match ?x with _ => _ end] => destruct x
           end; cbn [snd]; try exact H; apply write_idle; exact H.
Qed.

(** X5.  A route that answers on an idle connection leaves the connection
    idle: every BEGIN has been followed by a COMMIT or a ROLLBACK that
    went through, whatever failures struck in between. *)
Theorem no_transaction_is_left_open env r req w resp :
  idle (store w) ->
  fst (app env r req w) = Returned resp ->
  idle (store (snd (app env r req w))).
Proof.
  intros Hi.
  destruct (rolls_back r) eqn:Hr.
  - destruct w as [[tb pend seq bseq] now fs l]. unfold idle in Hi; cbn in Hi; subst pend.
    destruct r; try discriminate Hr; cbn [app]; unfold requireAuth;
      (destruct (truthy (optional_userId req)) eqn:Hu; cbn [negb]; [|reflexivity]);
      unfold post_transactions, put_transactions;
      rewrite (authenticated_userId _ Hu);
      unfold bind, finally, try_catch, pool_connect, client_release, record, ret, next;
      cbn [store clock faults log];
      repeat match goal with
             | |- context [if ?b then _ else _] => destruct b
             end;
      try reflexivity;
      unfold write_guard, bind, ret; walk;
      cbn [fst snd store]; try reflexivity; try discriminate.
  - intros _.
    assert (Hk : keeps idle (app env r req)).
    { destruct r; try discriminate Hr; cbn [app]; [intros w0 H; exact H|..];
        unfold requireAuth;
        (destruct (truthy (optional_userId req)) eqn:Hu; cbn [negb]; [|apply keeps_ret]);
        enter_route Hu;
        keeping ltac:(apply idle_kept; exact I). }
    apply Hk. exact Hi.
Qed.

End Closing.

(* ================================================================== *)
(** * Budget categories *)
(* ================================================================== *)

Section Categories.

Context {P : Platform}.

Lemma insert_sorted_by {A} (before : A -> A -> bool) (R : A -> A -> Prop) x l :
  (forall a b, before a b = true -> R a b) ->
  (forall a b, before a b = false -> R b a) ->
  (forall a b c, R a b -> R b c -> R a c) ->
  StronglySorted R l -> StronglySorted R (insert_sorted before x l).
Proof.
  intros Hyes Hno Htrans. induction 1 as [|y l Hs IH Hall]; cbn.
  - repeat constructor.
  - destruct (before x y) eqn:Hxy.
    + constructor; [constructor; assumption|].
      constructor; [auto|]. eapply Forall_impl; [|exact Hall]. eauto.
    + constructor; [assumption|].
      apply Forall_forall. intros z Hz. apply insert_sorted_In in Hz.
      destruct Hz as [->|Hz]; [auto|]. rewrite Forall_forall in Hall. auto.
Qed.

Lemma newest_first_sorted l : StronglySorted creation_desc (order_by newest_first l).
Proof.
  unfold order_by. induction l as [|x l IH]; cbn; [constructor|].
  apply (insert_sorted_by newest_first creation_desc); unfold newest_first, creation_desc.
  - intros a b H. apply Z.leb_le. exact H.
  - intros a b H. apply Z.leb_gt in H. lia.
  - intros a b c. lia.
  - exact IH.
Qed.

(** X22.  GET /budget-categories answers 200 with the caller's
    categories, each exactly once and none of another owner, ordered by
    [created_at] descending; one statement is sent and the store is
    unchanged. *)
Theorem categories_are_listed_newest_first env req u s now l :
  truthy (optional_userId req) = true ->
  bind_text (optional_userId req) = inr (Some u) ->
  exists rows,
    app env GET_budget_categories req (mkWorld s now [] l)
    = (Returned (mkResponse 200 (JsArray (map category_json rows))),
       mkWorld s now [] (l ++ [Query (SelectCategories (optional_userId req))]))
    /\ Permutation rows (filter (category_owned_by u) (budget_categories (visible s)))
    /\ StronglySorted creation_desc rows.
Proof.
  intros Hu Hb.
  exists (order_by newest_first
            (filter (category_owned_by u) (budget_categories (visible s)))).
  split; [|split].
  - enter_handler Hu. rewrite client_query_nil. cbn [exec reading fst snd].
    unfold select_categories. rewrite Hb. cbn [and_then eq_text].
    rewrite map_map. reflexivity.
  - apply order_by_permutation.
  - apply newest_first_sorted.
Qed.

(** X23.  POST /budget-categories by owner [u] with a name [n] and an
    amount [a] the storage layer accepts, on an idle connection that
    suffers no failure, the sequence being ahead of the table.  When the
    caller already has a category named [n], the answer is the handler's
    own 409 "Duplicate category" and no row is added; otherwise the answer
    is 201 with the new row, which carries the next value of the sequence,
    the caller as owner and the server time, and the row is appended. *)
Theorem category_is_created_or_refused env req u n a s now l :
  truthy (optional_userId req) = true ->
  bind_text (optional_userId req) = inr (Some u) ->
  truthy (get (req_body req) "name") = true ->
  bind_text (get (req_body req) "name") = inr (Some n) ->
  bind_int4 (get (req_body req) "amount") = inr (Some a) ->
  idle s ->
  (forall c, In c (budget_categories (committed s)) -> bc_id c <> budget_categories_id_seq s) ->
  let new := mkCategory (budget_categories_id_seq s) u n a now in
  let sent := l ++ [Query (InsertCategory (optional_userId req) (get (req_body req) "name")
                             (get (req_body req) "amount"))] in
  app env POST_budget_categories req (mkWorld s now [] l)
  = if existsb (fun c => (bc_user_id c =? u)%string && (bc_name c =? n)%string)
         (budget_categories (committed s))
    then (Returned duplicate_category,
          mkWorld (mkStore (committed s) None (transactions_id_seq s)
                     (budget_categories_id_seq s + 1)) now [] sent)
    else (Returned (mkResponse 201 (category_json new)),
          mkWorld (mkStore (mkTables (transactions (committed s))
                              (budget_categories (committed s) ++ [new]))
                     None (transactions_id_seq s) (budget_categories_id_seq s + 1))
            now [] sent).
Proof.
  intros Hu Hb Hn Hbn Ha Hi Hfresh new sent. subst new sent.
  destruct s as [[tx bc] pend seq bseq]. unfold idle in Hi; cbn in Hi; subst pend.
  cbn [committed budget_categories transactions transactions_id_seq
       budget_categories_id_seq] in *.
  enter_handler Hu.
  assert (Hpresent : is_undefined (get (req_body req) "amount") = false).
  { destruct (get (req_body req) "amount"); try reflexivity. discriminate Ha. }
  rewrite Hn, Hpresent. cbn [negb orb].
  rewrite client_query_nil. cbn [exec].
  unfold insert_category. rewrite Hb, Hbn, Ha.
  cbn [and_then required visible pending committed budget_categories transactions
       transactions_id_seq budget_categories_id_seq bc_id bc_user_id bc_name].
  rewrite existsb_false_forall.
  2:{ intros c Hc. apply Z.eqb_neq. auto. }
  destruct (existsb _ bc); cbn [fst snd write pending]; reflexivity.
Qed.

(** X24.  DELETE /budget-categories/:id hands the path parameter to the
    storage layer as text (DELETE /transactions/:id parses it first).
    (1) When the text is an integer [i] and the caller has the category
    [i], the caller's categories with that identifier are removed and the
    answer is 200 with, as [id], the text as it was given: a string.
    (2) When the text is no integer, the statement fails, nothing is
    deleted and the answer is the error handler's. *)
Theorem category_delete_takes_the_path_as_it_is env req u s now l :
  truthy (optional_userId req) = true ->
  bind_text (optional_userId req) = inr (Some u) ->
  idle s ->
  let sent := l ++ [Query (DeleteCategory (JsString (req_params_id req))
                             (optional_userId req))] in
  (forall i,
      int4in (req_params_id req) = Some i ->
      (exists c, In c (budget_categories (committed s))
                 /\ bc_id c = i /\ bc_user_id c = u) ->
      app env DELETE_budget_categories_id req (mkWorld s now [] l)
      = (Returned (category_deleted (JsString (req_params_id req))),
         mkWorld
           (mkStore
              (mkTables (transactions (committed s))
                 (filter (fun c => negb (mine_category i u c))
                    (budget_categories (committed s))))
              None (transactions_id_seq s) (budget_categories_id_seq s))
           now [] sent))
  /\ (int4in (req_params_id req) = None ->
      app env DELETE_budget_categories_id req (mkWorld s now [] l)
      = (Returned (errorHandler env invalid_integer), mkWorld s now [] sent)).
Proof.
  intros Hu Hb Hi sent. subst sent.
  destruct s as [[tx bc] pend seq bseq]. unfold idle in Hi; cbn in Hi; subst pend.
  cbn [committed budget_categories transactions transactions_id_seq
       budget_categories_id_seq].
  split.
  - intros i Hid (c & Hc & Hci & Hcu).
    enter_handler Hu. rewrite client_query_nil. cbn [exec].
    unfold delete_category. cbn [bind_int4]. rewrite Hid, Hb.
    cbn [and_then eq_int eq_text visible pending committed budget_categories transactions
         fst snd write].
    fold (mine_category i u).
    assert (Hhit : existsb (mine_category i u) bc = true).
    { apply existsb_exists. exists c. split; [exact Hc|]. unfold mine_category.
      rewrite Hci, Hcu, Z.eqb_refl, String.eqb_refl. reflexivity. }
    destruct (existsb_filter _ _ Hhit) as (x & rest & ->).
    cbn [map no_rows List.length Nat.eqb]. reflexivity.
  - intros Hid.
    enter_handler Hu. rewrite client_query_nil. cbn [exec].
    unfold delete_category. cbn [bind_int4]. rewrite Hid.
    cbn [and_then fst snd]. reflexivity.
Qed.

(** X25.  PUT /budget-categories/:id that gives the caller's category [c]
    the name of another category [o] of the caller.  The handler has no
    catch of its own for SQLSTATE 23505 (POST has one), so the answer is
    the error handler's 409 Conflict, whose message speaks of a
    transaction; the store is unchanged. *)
Theorem category_rename_onto_another_is_a_conflict env req u i n a c o s now l :
  truthy (optional_userId req) = true ->
  bind_text (optional_userId req) = inr (Some u) ->
  int4in (req_params_id req) = Some i ->
  truthy (get (req_body req) "name") = true ->
  bind_text (get (req_body req) "name") = inr (Some n) ->
  bind_int4 (get (req_body req) "amount") = inr (Some a) ->
  idle s ->
  In c (budget_categories (committed s)) -> bc_id c = i -> bc_user_id c = u ->
  In o (budget_categories (committed s)) -> bc_id o <> i -> bc_user_id o = u ->
  bc_name o = n ->
  app env PUT_budget_categories_id req (mkWorld s now [] l)
  = (Returned
       (mkResponse 409
          (JsObject [("error", JsString "Conflict");
                     ("message", JsString "This transaction already exists")])),
     mkWorld s now []
       (l ++ [Query (UpdateCategory (get (req_body req) "name")
                       (get (req_body req) "amount")
                       (JsString (req_params_id req)) (optional_userId req))])).
Proof.
  intros Hu Hb Hid Hn Hbn Ha Hi Hc Hci Hcu Ho Hoi Hou Hon.
  destruct s as [[tx bc] pend seq bseq]. unfold idle in Hi; cbn in Hi; subst pend.
  cbn [committed budget_categories] in Hc, Ho.
  enter_handler Hu.
  assert (Hpresent : is_undefined (get (req_body req) "amount") = false).
  { destruct (get (req_body req) "amount"); try reflexivity. discriminate Ha. }
  rewrite Hn, Hpresent. cbn [negb orb].
  rewrite client_query_nil. cbn [exec].
  unfold update_category. cbn [bind_int4]. rewrite Hbn, Ha, Hid, Hb.
  cbn [and_then required eq_int eq_text visible pending committed budget_categories
       transactions].
  assert (Hhit : existsb (fun r => (i =? bc_id r) && (u =? bc_user_id r)%string) bc = true).
  { apply existsb_exists. exists c. split; [exact Hc|].
    rewrite Hci, Hcu, Z.eqb_refl, String.eqb_refl. reflexivity. }
  rewrite Hhit. cbn [negb].
  match goal with
  | |- context [if existsb ?f bc then _ else _] =>
      assert (Hclash : existsb f bc = true)
  end.
  { apply existsb_exists. exists c. split; [exact Hc|].
    rewrite Hci, Hcu, Z.eqb_refl, String.eqb_refl. cbn [andb].
    apply existsb_exists. exists o. split.
    - apply in_map_iff. exists o. split; [|exact Ho].
      replace (i =? bc_id o) with false; [reflexivity|].
      symmetry. apply Z.eqb_neq. auto.
    - apply Z.eqb_neq in Hoi. rewrite Hoi, Hou, Hon, !String.eqb_refl. reflexivity. }
  rewrite Hclash. cbn [fst snd]. reflexivity.
Qed.

End Categories.

(* ================================================================== *)
(** * Status codes *)
(* ================================================================== *)

Section Statuses.

Context {P : Platform}.

Variable codes : list Z.

Lemma answers_within_ret resp : In (status resp) codes -> answers_within codes (ret resp).
Proof. intros H w r [= <-]. exact H. Qed.

Lemma answers_within_bind {A} (m : Async A) (k : A -> Async Response) :
  (forall x, answers_within codes (k x)) -> answers_within codes (bind m k).
Proof.
  intros Hk w resp. unfold bind. destruct (m w) as [[x|e] w']; cbn [fst].
  - apply Hk.
  - discriminate.
Qed.

Lemma answers_within_try_catch (m : Async Response) (h : JsError -> Async Response) :
  answers_within codes m -> (forall e, answers_within codes (h e)) ->
  answers_within codes (try_catch m h).
Proof.
  intros Hm Hh w resp. unfold try_catch. specialize (Hm w resp).
  destruct (m w) as [[x|e] w']; cbn [fst] in *; [exact Hm | apply Hh].
Qed.

Lemma answers_within_finally (m : Async Response) (f : Async unit) :
  answers_within codes m -> answers_within codes (finally m f).
Proof.
  intros Hm w resp. unfold finally. specialize (Hm w resp).
  destruct (m w) as [r w']. destruct (f w') as [[[]|e] w'']; cbn [fst] in *;
    [exact Hm | discriminate].
Qed.

Lemma answers_within_next env e :
  In 409 codes -> In 500 codes -> answers_within codes (next env e).
Proof.
  intros H409 H500. apply answers_within_ret. unfold errorHandler.
  destruct (has_code e "23505"); assumption.
Qed.

End Statuses.

Ltac answering :=
  repeat first
    [ apply answers_within_next; cbn; tauto
    | apply answers_within_ret; cbn; tauto
    | apply answers_within_bind
    | apply answers_within_try_catch
    | apply answers_within_finally
    | match goal with
      | |- forall _, answers_within _ _ => intro
      | |- answers_within _ (if ?b then _ else _) => destruct b
      end ].

Section StatusProperties.

Context {P : Platform}.

(** X26.  Whenever a route answers, the status is one of [statuses]: GET
    /health answers 200 only; 400 and 404 come from the handlers that set
    them and from no other; 401 comes from [requireAuth]; 409 and 500 can
    come from the error handler on every protected route. *)
Theorem answers_carry_the_statuses_of_the_route env r req w resp :
  fst (app env r req w) = Returned resp -> In (status resp) (statuses r).
Proof.
  revert w resp. change (answers_within (statuses r) (app env r req)).
  destruct r; cbn [app statuses];
    [intros w resp [= <-]; left; reflexivity|..];
    unfold requireAuth; (destruct (negb _); [apply answers_within_ret; cbn; tauto|]);
    unfold get_budget_categories, post_budget_categories, put_budget_categories,
           delete_budget_categories, get_transactions, post_transactions, put_transactions,
           delete_transactions, write_guard, duplicate_transaction, missing_fields,
           not_found;
    cbn zeta; answering.
Qed.

End StatusProperties.

(* ================================================================== *)
(** * What reaches the storage layer *)
(* ================================================================== *)

Section Atomic.

Context {P : Platform}.

Lemma required_present req :
  required_missing req = false ->
  truthy (get (req_body req) "description") = true
  /\ is_undefined (get (req_body req) "amount") = false
  /\ truthy (get (req_body req) "category") = true
  /\ truthy (get (req_body req) "date") = true.
Proof.
  unfold required_missing. intros Hm.
  destruct (truthy (get (req_body req) "description")); [|discriminate Hm].
  destruct (is_undefined (get (req_body req) "amount")); [discriminate Hm|].
  destruct (truthy (get (req_body req) "category")); [|discriminate Hm].
  destruct (truthy (get (req_body req) "date")); [|discriminate Hm].
  auto.
Qed.

(** X14.  POST /transactions accepts every number but NaN as the amount.
    When the number is no integer of the INTEGER column (a fraction, a
    value beyond 32 bits, Infinity), the request passes validation, the
    duplicate check fails in the storage layer with [e], the transaction
    is rolled back, nothing is stored and the answer is
    [errorHandler env e]. *)
Theorem create_leaves_the_integer_check_to_storage env req n e s now l :
  truthy (optional_userId req) = true ->
  required_missing req = false ->
  get (req_body req) "amount" = JsNumber n ->
  n <> NaN ->
  Date_new (get (req_body req) "date") <> None ->
  int4_of_num n = inl e ->
  idle s ->
  passes_validation req = true
  /\ app env POST_transactions req (mkWorld s now [] l)
     = (Returned (errorHandler env e),
        mkWorld s now []
          (l ++ [Connect; Query BEGIN; Query (select_of req); Query ROLLBACK; Release])).
Proof.
  intros Hu Hm Ha Hn Hd He Hi.
  assert (H2 : not_a_valid_number (get (req_body req) "amount") = false).
  { rewrite Ha. destruct n; [contradiction | reflexivity | reflexivity]. }
  assert (H3 : isNaN_getTime (JsDate (Date_new (get (req_body req) "date"))) = false).
  { destruct (Date_new _); [reflexivity | contradiction]. }
  destruct (required_present req Hm) as (Hfd & Hfa & Hfc & Hft).
  assert (Hv : passes_validation req = true).
  { unfold passes_validation. rewrite Hfd, Hfa, Hfc, Hft, H2, H3. reflexivity. }
  split; [exact Hv|].
  destruct s as [tb pend seq bseq]. unfold idle in Hi; cbn in Hi; subst pend.
  enter_guard req Hu Hm H2 H3.
  do 2 (run_query; simpl_run).
  unfold select_recent. rewrite Ha. cbn [bind_int4]. rewrite He.
  destruct (bind_text_truthy _ Hu) as (u & ->).
  destruct (bind_text_truthy _ Hfd) as (d & ->). cbn [and_then].
  run_query; simpl_run. unfold select_of. rewrite Ha. finish_run.
Qed.

(** X10.  Whatever the request and whatever failures strike, after PUT
    /transactions/:id on an idle connection the committed tables are
    either those before, or those the UPDATE statement wrote, and then the
    answer is 200 with the row the statement returned. *)
Theorem update_is_all_or_nothing env req s now fs l :
  idle s ->
  let '(out, w') := app env PUT_transactions_id req (mkWorld s now fs l) in
  committed (store w') = committed s
  \/ exists rows s',
       exec (update_of req) now (begun s) = (inr rows, s')
       /\ out = Returned (mkResponse 200 (first_row rows))
       /\ committed (store w') = visible s'.
Proof.
  intros Hi.
  destruct s as [tb pend seq bseq]. unfold idle in Hi; cbn in Hi; subst pend.
  cbn [app]. unfold requireAuth.
  destruct (truthy (optional_userId req)) eqn:Hu; cbn [negb]; [|left; reflexivity].
  unfold put_transactions. rewrite (authenticated_userId _ Hu).
  unfold bind, finally, try_catch, pool_connect, client_release, record, ret, next.
  cbn [store clock faults log].
  destruct (_ || _); [left; reflexivity|].
  destruct (Date_new (get (req_body req) "date")) as [t|] eqn:Hd;
    cbn [isNaN_getTime]; [|left; reflexivity].
  unfold bind, update_of, begun. rewrite Hd.
  cbn [exec committed transactions_id_seq budget_categories_id_seq].
  repeat
    (first
       [ run_query
       | match goal with
         | |- context [select_owned ?i ?u ?tb] =>
             destruct (select_owned i u tb) as [?e|[|?x ?rest]]
         | |- context [update_transaction ?d ?a ?c ?t ?i ?u ?s] =>
             let H := fresh "Hupd" in
             destruct (update_transaction d a c t i u s) as [[?e|?rows] ?s'] eqn:H
         end ];
     simpl_run).
  all: cbn [store committed];
    first [ left; reflexivity
          | right; eexists; eexists; split; [reflexivity | split; reflexivity]
          | idtac ].
  all: unfold update_transaction in Hupd;
    repeat match type of Hupd with
           | context [match ?x with _ => _ end] => destruct x
           | context [if ?x then _ else _] => destruct x
           end;
    inversion Hupd; subst; left; reflexivity.
Qed.

End Atomic.

(* ================================================================== *)
(** * The claims on the sample platform *)
(* ================================================================== *)

Lemma unauthorized_before_data_access_witness :
  let w := mkWorld Sample.coffee_store 1000 [] [] in
  protected POST_transactions = true
  /\ truthy (identity Sample.anonymous_coffee) = false
  /\ handle (P := Sample.platform) Sample.env POST_transactions Sample.anonymous_coffee w
     = (Returned unauthorized, w)
  /\ truthy (identity Sample.truncated) = false
  /\ exists resp,
       handle (P := Sample.platform) Sample.env POST_transactions Sample.truncated w
       = (Returned resp, w)
       /\ status resp = 500.
Proof.
  intros w. split; [reflexivity | split; [reflexivity |]].
  split; [|split; [reflexivity|]].
  - apply (proj1 (unauthorized_before_data_access (P := Sample.platform) Sample.env
                    POST_transactions Sample.anonymous_coffee w eq_refl eq_refl)
             Sample.coffee eq_refl).
  - destruct (proj2 (unauthorized_before_data_access (P := Sample.platform) Sample.env
                       POST_transactions Sample.truncated w eq_refl eq_refl)
                _ eq_refl eq_refl) as [Hrun Hstatus].
    eexists. split; [exact Hrun | exact Hstatus].
Defined.

Lemma duplicate_within_window_is_conflict_witness :
  let first := app (P := Sample.platform) Sample.env POST_transactions
                 Sample.create_coffee (mkWorld Sample.empty_store 1000000 [] []) in
  truthy (optional_userId Sample.create_coffee) = true
  /\ passes_validation (P := Sample.platform) Sample.create_coffee = true
  /\ request_key (P := Sample.platform) Sample.create_coffee = Some Sample.coffee_key
  /\ idle Sample.coffee_store
  /\ unique_constraint (transactions (committed Sample.coffee_store))
  /\ In Sample.coffee_row (transactions (committed Sample.coffee_store))
  /\ key_of Sample.coffee_row = Sample.coffee_key
  /\ 1030000 - one_minute < created_at Sample.coffee_row
  /\ app (P := Sample.platform) Sample.env POST_transactions Sample.create_coffee
       (mkWorld Sample.coffee_store 1030000 [] [])
     = (Returned (duplicate_transaction (JsInt 1)),
        mkWorld Sample.coffee_store 1030000 []
          [Connect; Query BEGIN; Query (select_of (P := Sample.platform) Sample.create_coffee);
           Query ROLLBACK; Release])
  /\ int4_min <= transactions_id_seq Sample.empty_store <= int4_max
  /\ fst first = Returned (mkResponse 201 (transaction_json Sample.coffee_row))
  /\ fst (app (P := Sample.platform) Sample.env POST_transactions Sample.create_coffee
            (mkWorld (store (snd first)) 1030000 [] []))
     = Returned (duplicate_transaction (JsInt 1)).
Proof.
  intros first.
  assert (Hu : unique_constraint (transactions (committed Sample.coffee_store))).
  { intros a b [<-|[]] [<-|[]] _. reflexivity. }
  assert (Hseq : int4_min <= transactions_id_seq Sample.empty_store <= int4_max)
    by (unfold int4_min, int4_max; cbn; lia).
  assert (Hwin : 1030000 - one_minute < 1000000) by (unfold one_minute; lia).
  pose proof (duplicate_within_window_is_conflict (P := Sample.platform) Sample.env
                Sample.create_coffee Sample.coffee_key eq_refl eq_refl eq_refl)
    as [H1 H2].
  do 8 (split; [first [reflexivity | exact Hu | left; reflexivity]|]).
  split; [|split; [exact Hseq|]].
  - apply (H1 Sample.coffee_store 1030000 [] Sample.coffee_row eq_refl Hu
             (or_introl eq_refl) eq_refl eq_refl).
  - destruct (H2 Sample.empty_store 1000000 1030000 [] [] eq_refl
                (fun r (H : In r []) => match H with end)
                (fun r (H : In r []) => match H with end) Hseq Hwin)
      as (Ha & Hb & _).
    split; [exact Ha | exact Hb].
Defined.

Lemma failed_rollback_sends_no_answer_witness :
  let lost := Sample.connection_lost in
  truthy (optional_userId Sample.create_coffee) = true
  /\ passes_validation (P := Sample.platform) Sample.create_coffee = true
  /\ idle Sample.empty_store
  /\ app (P := Sample.platform) Sample.env POST_transactions Sample.create_coffee
       (mkWorld Sample.empty_store 1000000 [None; Some lost; Some lost] [])
     = (Thrown lost,
        mkWorld (mkStore (mkTables [] []) (Some (mkTables [] [])) 1 1) 1000000 []
          [Connect; Query BEGIN; Query (select_of (P := Sample.platform) Sample.create_coffee);
           Query ROLLBACK; Release]).
Proof.
  intros lost. do 3 (split; [reflexivity|]).
  apply (proj1 (failed_rollback_sends_no_answer (P := Sample.platform) Sample.env
                  Sample.create_coffee Sample.empty_store 1000000 lost lost [] []
                  eq_refl eq_refl eq_refl)).
Defined.

Lemma changed_tuple_is_not_a_duplicate_witness :
  (forall k, request_key (P := Sample.platform) Sample.create_tea = Some k ->
             request_key (P := Sample.platform) Sample.create_coffee <> Some k)
  /\ forall dup,
       fst (app (P := Sample.platform) Sample.env POST_transactions Sample.create_tea
              (mkWorld
                 (store (snd (app (P := Sample.platform) Sample.env POST_transactions
                                Sample.create_coffee
                                (mkWorld Sample.empty_store 1000000 [] []))))
                 1000001 [] []))
       <> Returned (duplicate_transaction dup).
Proof.
  assert (H : forall k, request_key (P := Sample.platform) Sample.create_tea = Some k ->
                        request_key (P := Sample.platform) Sample.create_coffee <> Some k).
  { intros k H1 H2. rewrite <- H1 in H2. discriminate H2. }
  split; [exact H|].
  intros dup.
  apply (proj2 (changed_tuple_is_not_a_duplicate (P := Sample.platform) Sample.env
                  Sample.create_coffee Sample.create_tea H)
           Sample.empty_store 1000000 1000001 [] [] [] [] dup).
  intros r [].
Defined.

Lemma create_then_read_witness :
  truthy (optional_userId Sample.create_coffee) = true
  /\ passes_validation (P := Sample.platform) Sample.create_coffee = true
  /\ request_key (P := Sample.platform) Sample.create_coffee = Some Sample.coffee_key
  /\ idle Sample.empty_store
  /\ int4_min <= transactions_id_seq Sample.empty_store <= int4_max
  /\ app (P := Sample.platform) Sample.env POST_transactions Sample.create_coffee
       (mkWorld Sample.empty_store 1000000 [] [])
     = (Returned (mkResponse 201 (transaction_json Sample.coffee_row)),
        mkWorld Sample.coffee_store 1000000 []
          [Connect; Query BEGIN; Query (select_of (P := Sample.platform) Sample.create_coffee);
           Query (insert_of (P := Sample.platform) Sample.create_coffee); Query COMMIT;
           Release])
  /\ idle Sample.coffee_store
  /\ int4_min <= transactions_id_seq Sample.coffee_store <= int4_max
  /\ unique_constraint (transactions (committed Sample.coffee_store))
  /\ In Sample.coffee_row (transactions (committed Sample.coffee_store))
  /\ key_of Sample.coffee_row = Sample.coffee_key
  /\ created_at Sample.coffee_row <= 1120000 - one_minute
  /\ app (P := Sample.platform) Sample.env POST_transactions Sample.create_coffee
       (mkWorld Sample.coffee_store 1120000 [] [])
     = (Returned
          (mkResponse 409
             (JsObject [("error", JsString "Conflict");
                        ("message", JsString "This transaction already exists")])),
        mkWorld (mkStore (mkTables [Sample.coffee_row] []) None 3 1) 1120000 []
          [Connect; Query BEGIN; Query (select_of (P := Sample.platform) Sample.create_coffee);
           Query (insert_of (P := Sample.platform) Sample.create_coffee); Query ROLLBACK;
           Release]).
Proof.
  assert (Hseq : int4_min <= transactions_id_seq Sample.empty_store <= int4_max)
    by (unfold int4_min, int4_max; cbn; lia).
  assert (Hseq' : int4_min <= transactions_id_seq Sample.coffee_store <= int4_max)
    by (unfold int4_min, int4_max; cbn; lia).
  assert (Hu : unique_constraint (transactions (committed Sample.coffee_store))).
  { intros a b [<-|[]] [<-|[]] _. reflexivity. }
  assert (Hold : created_at Sample.coffee_row <= 1120000 - one_minute)
    by (unfold one_minute; cbn; lia).
  pose proof (create_then_read (P := Sample.platform) Sample.env Sample.create_coffee
                Sample.coffee_key eq_refl eq_refl eq_refl) as [H1 H2].
  do 4 (split; [reflexivity|]). split; [exact Hseq|]. split.
  - apply (proj1 (H1 Sample.empty_store 1000000 [] eq_refl Hseq
                    (fun r (H : In r []) => match H with end)
                    (fun r (H : In r []) => match H with end))).
  - split; [reflexivity|]. split; [exact Hseq'|]. split; [exact Hu|].
    split; [left; reflexivity|]. split; [reflexivity|]. split; [exact Hold|].
    apply (H2 Sample.coffee_store 1120000 [] Sample.coffee_row eq_refl Hseq' Hu
             (or_introl eq_refl) eq_refl Hold).
Defined.

Lemma list_is_scoped_filtered_and_ordered_witness :
  let req := mkRequest Sample.alice "" Sample.january [] in
  truthy (optional_userId req) = true
  /\ bind_text (P := Sample.platform) (optional_userId req) = inr (Some "alice")
  /\ truthy (get (req_query req) "startDate") = true
  /\ truthy (get (req_query req) "endDate") = true
  /\ bind_timestamp (P := Sample.platform) (get (req_query req) "startDate")
     = inr (Some 1704067200000)
  /\ bind_timestamp (P := Sample.platform) (get (req_query req) "endDate")
     = inr (Some 1706659200000)
  /\ exists rows,
       fst (app (P := Sample.platform) Sample.env GET_transactions req
              (mkWorld Sample.shared_store 1000000 [] []))
       = Returned (mkResponse 200 (JsArray (map transaction_json rows)))
       /\ (forall r, In r rows -> user_id r = "alice")
       /\ StronglySorted date_then_creation_desc rows.
Proof.
  intros req.
  do 6 (split; [reflexivity|]).
  destruct (list_is_scoped_filtered_and_ordered (P := Sample.platform) Sample.env req
              "alice" 1704067200000 1706659200000 Sample.shared_store 1000000 []
              eq_refl eq_refl eq_refl eq_refl eq_refl eq_refl)
    as (rows & Hrun & Hin & Hsorted).
  exists rows. split; [rewrite Hrun; reflexivity|]. split; [|exact Hsorted].
  intros r Hr. apply Hin in Hr. destruct Hr as (_ & Hu & _). exact Hu.
Defined.


Lemma delete_takes_the_parsed_id_witness :
  let req := mkRequest Sample.alice "7abc" [] [] in
  let far := mkRequest Sample.alice "4294967297abc" [] [] in
  truthy (optional_userId req) = true
  /\ bind_text (P := Sample.platform) (optional_userId req) = inr (Some "alice")
  /\ idle Sample.seventh_store
  /\ parseInt "7abc" = Finite 7 0
  /\ app (P := Sample.platform) Sample.env DELETE_transactions_id req
       (mkWorld Sample.seventh_store 1000000 [] [])
     = (Returned (transaction_deleted (JsInt 7)),
        mkWorld (mkStore (mkTables [] []) None 8 1) 1000000 []
          [Connect; Query (DeleteTransaction (JsInt 7) (JsString "alice")); Release])
  /\ parseInt "4294967297abc" = Finite 4294967297 0
  /\ app (P := Sample.platform) Sample.env DELETE_transactions_id far
       (mkWorld Sample.seventh_store 1000000 [] [])
     = (Returned (errorHandler Sample.env integer_out_of_range),
        mkWorld Sample.seventh_store 1000000 []
          [Connect; Query (deleted_of far); Release])
  /\ parseInt "9007199254740993" = to_double 9007199254740993
  /\ parseInt "9007199254740993" = Finite 4503599627370496 1
  /\ exists e,
       app (P := Sample.platform) Sample.env DELETE_transactions_id
         (mkRequest Sample.alice "9007199254740993" [] [])
         (mkWorld Sample.seventh_store 1000000 [] [])
       = (Returned (errorHandler Sample.env e),
          mkWorld Sample.seventh_store 1000000 []
            [Connect;
             Query (deleted_of (mkRequest Sample.alice "9007199254740993" [] []));
             Release])
       /\ status (errorHandler Sample.env e) = 500.
Proof.
  intros req far.
  do 4 (split; [reflexivity|]).
  assert (Hrange : int4_min <= 7 <= int4_max) by (unfold int4_min, int4_max; lia).
  assert (Hout : 4294967297 < int4_min \/ int4_max < 4294967297)
    by (right; unfold int4_max; lia).
  assert (Hfar : 9007199254740993 < int4_min \/ int4_max < 9007199254740993)
    by (right; unfold int4_max; lia).
  split; [|split; [reflexivity|split; [|split; [reflexivity|split; [reflexivity|]]]]].
  - apply (proj1 (proj1 (delete_takes_the_parsed_id (P := Sample.platform) Sample.env req
                           "alice" Sample.seventh_store 1000000 [] eq_refl eq_refl eq_refl)
                    7 eq_refl Hrange)).
    exists Sample.seventh_row. repeat split. left. reflexivity.
  - apply (proj1 (proj1 (proj2 (proj2 (delete_takes_the_parsed_id (P := Sample.platform)
                                  Sample.env far "alice" Sample.seventh_store 1000000 []
                                  eq_refl eq_refl eq_refl))) 4294967297 eq_refl Hout)).
  - apply (proj2 (proj2 (proj2 (delete_takes_the_parsed_id (P := Sample.platform)
                                  Sample.env
                                  (mkRequest Sample.alice "9007199254740993" [] [])
                                  "alice" Sample.seventh_store 1000000 []
                                  eq_refl eq_refl eq_refl)))
             9007199254740993 eq_refl Hfar).
Defined.

Lemma foreign_record_is_not_found_witness :
  let req := mkRequest Sample.alice "2" [] Sample.tea in
  let w := mkWorld Sample.shared_store 1000000 [] [] in
  truthy (optional_userId req) = true
  /\ bind_text (P := Sample.platform) (optional_userId req) = inr (Some "alice")
  /\ idle Sample.shared_store
  /\ NoDup (map id (transactions (committed Sample.shared_store)))
  /\ In Sample.tea_row (transactions (committed Sample.shared_store))
  /\ user_id Sample.tea_row <> "alice"
  /\ NoDup (map bc_id (budget_categories (committed Sample.shared_store)))
  /\ In Sample.rent (budget_categories (committed Sample.shared_store))
  /\ bc_user_id Sample.rent <> "alice"
  /\ idle Sample.empty_store
  /\ (forall x, In x (transactions (committed Sample.empty_store)) ->
                id x <> id Sample.tea_row)
  /\ (forall x, In x (budget_categories (committed Sample.empty_store)) ->
                bc_id x <> bc_id Sample.rent)
  /\ fst (app (P := Sample.platform) Sample.env PUT_transactions_id req w)
     = Returned (not_found "Transaction not found or not authorized to update")
  /\ fst (app (P := Sample.platform) Sample.env DELETE_transactions_id req w)
     = Returned (not_found "Transaction not found or not authorized to delete")
  /\ fst (app (P := Sample.platform) Sample.env PUT_budget_categories_id req w)
     = Returned (not_found "Category not found or not authorized to update")
  /\ fst (app (P := Sample.platform) Sample.env DELETE_budget_categories_id req w)
     = Returned (not_found "Category not found or not authorized to delete").
Proof.
  intros req w.
  assert (Hpk : NoDup (map id (transactions (committed Sample.shared_store)))).
  { repeat constructor; cbn; intuition discriminate. }
  assert (Hpkc : NoDup (map bc_id (budget_categories (committed Sample.shared_store)))).
  { repeat constructor; cbn; intuition discriminate. }
  assert (Hr : In Sample.tea_row (transactions (committed Sample.shared_store)))
    by (right; left; reflexivity).
  assert (Hc : In Sample.rent (budget_categories (committed Sample.shared_store)))
    by (left; reflexivity).
  assert (Ho : user_id Sample.tea_row <> "alice") by discriminate.
  assert (Hoc : bc_user_id Sample.rent <> "alice") by discriminate.
  assert (Ha : forall x, In x (transactions (committed Sample.empty_store)) ->
                         id x <> id Sample.tea_row) by (intros x []).
  assert (Hac : forall x, In x (budget_categories (committed Sample.empty_store)) ->
                          bc_id x <> bc_id Sample.rent) by (intros x []).
  assert (Hrange : int4_min <= id Sample.tea_row <= int4_max)
    by (unfold int4_min, int4_max; cbn; lia).
  assert (Hd : @Date_new Sample.platform (get (req_body req) "date") <> None)
    by discriminate.
  do 12 (split; [first [reflexivity | assumption]|]).
  destruct (foreign_record_is_not_found (P := Sample.platform) Sample.env req "alice"
              Sample.shared_store Sample.empty_store 1000000 [] Sample.tea_row Sample.rent
              eq_refl eq_refl eq_refl Hpk Hr Ho Hpkc Hc Hoc eq_refl Ha Hac)
    as (H1 & H2 & H3 & H4 & _).
  split; [exact (proj1 (H1 eq_refl eq_refl Hd))|].
  split; [exact (proj1 (H2 eq_refl Hrange))|].
  split; [exact (proj1 (H3 eq_refl eq_refl (ex_intro _ (Some 0) eq_refl)))|].
  exact (proj1 (H4 eq_refl)).
Defined.

(** C8, as stated, fails: the request carries no identity and goes to a
    protected route, but its body breaks off; the body parser, which runs
    before [requireAuth], refuses it, and the answer is the error
    handler's 500, not 401. *)
Lemma refused_body_is_not_unauthorized :
  let w := mkWorld Sample.coffee_store 1000 [] [] in
  protected POST_transactions = true
  /\ truthy (identity Sample.truncated) = false
  /\ handle (P := Sample.platform) Sample.env POST_transactions Sample.truncated w
     = (Returned
          (mkResponse 500
             (JsObject [("error", JsString "Internal Server Error");
                        ("message", JsString "An unexpected error occurred")])),
        w)
  /\ fst (handle (P := Sample.platform) Sample.env POST_transactions Sample.truncated w)
     <> Returned unauthorized.
Proof.
  intros w. repeat (split; [reflexivity|]). discriminate.
Qed.

(** C5, as stated, fails: the sample request is valid and the only stored
    row with its tuple was created two minutes before, outside the window,
    yet the insert violates the uniqueness constraint of line 59: the
    answer is 409 Conflict, not 201, and no row is added. *)
Lemma older_duplicate_is_rejected :
  passes_validation (P := Sample.platform) Sample.create_coffee = true
  /\ filter (fun r => has_key Sample.coffee_key r && within_window 1120000 r)
       (transactions (committed Sample.coffee_store)) = []
  /\ app (P := Sample.platform) Sample.env POST_transactions Sample.create_coffee
       (mkWorld Sample.coffee_store 1120000 [] [])
     = (Returned
          (mkResponse 409
             (JsObject [("error", JsString "Conflict");
                        ("message", JsString "This transaction already exists")])),
        mkWorld (mkStore (mkTables [Sample.coffee_row] []) None 3 1) 1120000 []
          [Connect; Query BEGIN; Query (select_of (P := Sample.platform) Sample.create_coffee);
           Query (insert_of (P := Sample.platform) Sample.create_coffee); Query ROLLBACK;
           Release])
  /\ ~ (exists body,
          fst (app (P := Sample.platform) Sample.env POST_transactions Sample.create_coffee
                 (mkWorld Sample.coffee_store 1120000 [] []))
          = Returned (mkResponse 201 body)).
Proof.
  repeat (split; [reflexivity|]).
  intros (body & H). discriminate H.
Qed.

(** C10, as stated, fails: for the path parameter "abc", [parseInt] is
    NaN and the answer is the error handler's 500, not 404. *)
Lemma non_numeric_id_is_an_internal_error :
  let req := mkRequest Sample.alice "abc" [] [] in
  let w := mkWorld Sample.coffee_store 1120000 [] [] in
  parseInt (req_params_id req) = NaN
  /\ app (P := Sample.platform) Sample.env DELETE_transactions_id req w
     = (Returned
          (mkResponse 500
             (JsObject [("error", JsString "Internal Server Error");
                        ("message", JsString "An unexpected error occurred")])),
        mkWorld Sample.coffee_store 1120000 []
          [Connect; Query (DeleteTransaction (JsNumber NaN) (JsString "alice")); Release])
  /\ fst (app (P := Sample.platform) Sample.env DELETE_transactions_id req w)
     <> Returned (not_found "Transaction not found or not authorized to delete").
Proof.
  intros req w. repeat (split; [reflexivity|]). discriminate.
Qed.

(** C3.  The request body [{"description":"Coffee","amount":1e999,
    "category":"Food","date":"2024-01-01"}], whose amount JSON.parse reads
    as Infinity: the check of line 238 lets it through, the request
    passes validation, BEGIN and the duplicate check are sent, the
    INTEGER column refuses the value, and the answer is 500, not 400. *)
Theorem infinite_amount_reaches_storage :
  not_a_valid_number (JsNumber (Infinity false)) = false
  /\ passes_validation (P := Sample.platform) Sample.infinite_coffee = true
  /\ app (P := Sample.platform) Sample.env POST_transactions Sample.infinite_coffee
       (mkWorld Sample.empty_store 1000000 [] [])
     = (Returned
          (mkResponse 500
             (JsObject [("error", JsString "Internal Server Error");
                        ("message", JsString "An unexpected error occurred")])),
        mkWorld Sample.empty_store 1000000 []
          [Connect; Query BEGIN;
           Query (select_of (P := Sample.platform) Sample.infinite_coffee);
           Query ROLLBACK; Release]).
Proof. repeat split. Qed.

(* ================================================================== *)
(** * The further properties on the sample platform *)
(* ================================================================== *)

Lemma rows_of_others_are_untouched_witness :
  let req := mkRequest Sample.alice "1" [] [] in
  let w := mkWorld Sample.shared_store 1000000 [] [] in
  bind_text (P := Sample.platform) (optional_userId req) = inr (Some "alice")
  /\ idle (store w)
  /\ transactions
       (committed (store (snd (app (P := Sample.platform) Sample.env
                                 DELETE_transactions_id req w)))) = [Sample.tea_row]
  /\ foreign "alice"
       (committed (store (snd (app (P := Sample.platform) Sample.env
                                 DELETE_transactions_id req w))))
     = foreign "alice" (committed (store w)).
Proof.
  intros req w. do 3 (split; [reflexivity|]).
  apply (rows_of_others_are_untouched (P := Sample.platform) Sample.env
           DELETE_transactions_id req "alice" w); reflexivity.
Defined.

Lemma constraints_are_kept_witness :
  let w := mkWorld Sample.coffee_store 1000000 [] [] in
  consistent (store w)
  /\ consistent (store (snd (app (P := Sample.platform) Sample.env POST_transactions
                               Sample.create_tea w))).
Proof.
  intros w.
  assert (H : consistent (store w)).
  { split; [|discriminate]. repeat split.
    - repeat constructor. intros [].
    - intros a b [<-|[]] [<-|[]] _. reflexivity.
    - intros r [<-|[]]. reflexivity. }
  split; [exact H|].
  apply (constraints_are_kept (P := Sample.platform) Sample.env POST_transactions
           Sample.create_tea w H).
Defined.

Lemma client_is_always_released_witness :
  let w := mkWorld Sample.empty_store 1000000 [None; Some Sample.connection_lost] [] in
  truthy (optional_userId Sample.create_coffee) = true
  /\ exists qs,
       log (snd (app (P := Sample.platform) Sample.env POST_transactions
                   Sample.create_coffee w))
       = Connect :: map Query qs ++ [Release].
Proof.
  intros w. split; [reflexivity|].
  exact (client_is_always_released (P := Sample.platform) Sample.env POST_transactions
           Sample.create_coffee w eq_refl).
Defined.

Lemma only_a_failed_rollback_rejects_witness :
  let w := mkWorld Sample.empty_store 1000000
             [None; Some Sample.connection_lost; Some Sample.connection_lost] [] in
  fst (app (P := Sample.platform) Sample.env POST_transactions Sample.create_coffee w)
  = Thrown Sample.connection_lost
  /\ rolls_back POST_transactions = true
  /\ In (Some Sample.connection_lost) (faults w).
Proof.
  intros w. split; [reflexivity|].
  apply (only_a_failed_rollback_rejects (P := Sample.platform) Sample.env
           POST_transactions Sample.create_coffee w Sample.connection_lost).
  reflexivity.
Defined.

Lemma no_transaction_is_left_open_witness :
  let w := mkWorld Sample.empty_store 1000000 [None; Some Sample.connection_lost] [] in
  idle (store w)
  /\ fst (app (P := Sample.platform) Sample.env POST_transactions Sample.create_coffee w)
     = Returned (errorHandler Sample.env Sample.connection_lost)
  /\ idle (store (snd (app (P := Sample.platform) Sample.env POST_transactions
                         Sample.create_coffee w))).
Proof.
  intros w. do 2 (split; [reflexivity|]).
  apply (no_transaction_is_left_open (P := Sample.platform) Sample.env POST_transactions
           Sample.create_coffee w (errorHandler Sample.env Sample.connection_lost));
    reflexivity.
Defined.

Lemma failures_reach_the_error_handler_witness :
  let req := mkRequest Sample.alice "1" [] [] in
  let w := mkWorld Sample.shared_store 1000000 [Some Sample.connection_lost] [] in
  truthy (optional_userId req) = true
  /\ fst (app (P := Sample.platform) Sample.env DELETE_transactions_id req w)
     = Returned (errorHandler Sample.env Sample.connection_lost)
  /\ store (snd (app (P := Sample.platform) Sample.env DELETE_transactions_id req w))
     = Sample.shared_store.
Proof.
  intros req w. split; [reflexivity|].
  exact (proj1 (proj2 (proj2 (proj2 (proj2 (proj2
           (failures_reach_the_error_handler (P := Sample.platform) Sample.env req
              Sample.shared_store 1000000 Sample.connection_lost [] [] eq_refl))))))).
Defined.

Lemma update_replaces_the_record_witness :
  let req := mkRequest Sample.alice "1" [] Sample.lunch in
  truthy (optional_userId req) = true
  /\ required_missing req = false
  /\ request_key (P := Sample.platform) req = Some Sample.lunch_key
  /\ int4in (Platform := Sample.platform) (req_params_id req) = Some (id Sample.coffee_row)
  /\ idle Sample.coffee_store
  /\ NoDup (map id (transactions (committed Sample.coffee_store)))
  /\ In Sample.coffee_row (transactions (committed Sample.coffee_store))
  /\ user_id Sample.coffee_row = key_user Sample.lunch_key
  /\ app (P := Sample.platform) Sample.env PUT_transactions_id req
       (mkWorld Sample.coffee_store 1000000 [] [])
     = (Returned (mkResponse 200
                    (transaction_json
                       (mkTransaction 1 "alice" "Lunch" 1200 "Food" 1704153600000 1000000))),
        mkWorld
          (mkStore
             (mkTables [mkTransaction 1 "alice" "Lunch" 1200 "Food" 1704153600000 1000000]
                [])
             None 2 1)
          1000000 []
          [Connect; Query BEGIN; Query (owned_of req);
           Query (update_of (P := Sample.platform) req); Query COMMIT; Release]).
Proof.
  intros req.
  assert (Hpk : NoDup (map id (transactions (committed Sample.coffee_store)))).
  { repeat constructor. intros []. }
  assert (Hin : In Sample.coffee_row (transactions (committed Sample.coffee_store)))
    by (left; reflexivity).
  do 8 (split; [first [reflexivity | assumption]|]).
  apply (proj1 (update_replaces_the_record (P := Sample.platform) Sample.env req
                  Sample.lunch_key Sample.coffee_row Sample.coffee_store 1000000 []
                  eq_refl eq_refl eq_refl eq_refl eq_refl Hpk Hin eq_refl
                  (fun o Ho Hne => match Ho with
                                   | or_introl E => fun _ => Hne (f_equal id (eq_sym E))
                                   | or_intror F => match F with end
                                   end))).
Defined.

Lemma update_with_the_same_values_changes_nothing_witness :
  let req := mkRequest Sample.alice "1" [] Sample.coffee in
  truthy (optional_userId req) = true
  /\ required_missing req = false
  /\ request_key (P := Sample.platform) req = Some (key_of Sample.coffee_row)
  /\ int4in (Platform := Sample.platform) (req_params_id req) = Some (id Sample.coffee_row)
  /\ idle Sample.coffee_store
  /\ NoDup (map id (transactions (committed Sample.coffee_store)))
  /\ unique_constraint (transactions (committed Sample.coffee_store))
  /\ In Sample.coffee_row (transactions (committed Sample.coffee_store))
  /\ app (P := Sample.platform) Sample.env PUT_transactions_id req
       (mkWorld Sample.coffee_store 1000000 [] [])
     = (Returned (mkResponse 200 (transaction_json Sample.coffee_row)),
        mkWorld Sample.coffee_store 1000000 []
          [Connect; Query BEGIN; Query (owned_of req);
           Query (update_of (P := Sample.platform) req); Query COMMIT; Release]).
Proof.
  intros req.
  assert (Hpk : NoDup (map id (transactions (committed Sample.coffee_store)))).
  { repeat constructor. intros []. }
  assert (Huq : unique_constraint (transactions (committed Sample.coffee_store))).
  { intros a b [<-|[]] [<-|[]] _. reflexivity. }
  assert (Hin : In Sample.coffee_row (transactions (committed Sample.coffee_store)))
    by (left; reflexivity).
  do 8 (split; [first [reflexivity | assumption]|]).
  apply (update_with_the_same_values_changes_nothing (P := Sample.platform) Sample.env
           req Sample.coffee_row Sample.coffee_store 1000000 []
           eq_refl eq_refl eq_refl eq_refl eq_refl Hpk Huq Hin).
Defined.

Lemma update_onto_another_record_is_a_conflict_witness :
  let req := mkRequest Sample.alice "1" [] Sample.lunch in
  truthy (optional_userId req) = true
  /\ required_missing req = false
  /\ request_key (P := Sample.platform) req = Some Sample.lunch_key
  /\ int4in (Platform := Sample.platform) (req_params_id req) = Some (id Sample.coffee_row)
  /\ idle Sample.both_store
  /\ NoDup (map id (transactions (committed Sample.both_store)))
  /\ In Sample.coffee_row (transactions (committed Sample.both_store))
  /\ user_id Sample.coffee_row = key_user Sample.lunch_key
  /\ In Sample.seventh_row (transactions (committed Sample.both_store))
  /\ id Sample.seventh_row <> id Sample.coffee_row
  /\ key_of Sample.seventh_row = Sample.lunch_key
  /\ app (P := Sample.platform) Sample.env PUT_transactions_id req
       (mkWorld Sample.both_store 1000000 [] [])
     = (Returned
          (mkResponse 409
             (JsObject [("error", JsString "Conflict");
                        ("message", JsString "This transaction already exists")])),
        mkWorld Sample.both_store 1000000 []
          [Connect; Query BEGIN; Query (owned_of req);
           Query (update_of (P := Sample.platform) req); Query ROLLBACK; Release]).
Proof.
  intros req.
  assert (Hpk : NoDup (map id (transactions (committed Sample.both_store)))).
  { repeat constructor; cbn; intuition discriminate. }
  assert (Hin : In Sample.coffee_row (transactions (committed Sample.both_store)))
    by (left; reflexivity).
  assert (Hin' : In Sample.seventh_row (transactions (committed Sample.both_store)))
    by (right; left; reflexivity).
  assert (Hne : id Sample.seventh_row <> id Sample.coffee_row) by discriminate.
  do 11 (split; [first [reflexivity | assumption]|]).
  apply (update_onto_another_record_is_a_conflict (P := Sample.platform) Sample.env req
           Sample.lunch_key Sample.coffee_row Sample.seventh_row Sample.both_store 1000000 []
           eq_refl eq_refl eq_refl eq_refl eq_refl Hpk Hin eq_refl Hin' Hne eq_refl).
Defined.

Lemma update_leaves_the_amount_to_storage_witness :
  let req := mkRequest Sample.alice "1" [] Sample.priceless in
  truthy (optional_userId req) = true
  /\ bind_text (P := Sample.platform) (optional_userId req) = inr (Some "alice")
  /\ int4in (Platform := Sample.platform) (req_params_id req) = Some 1
  /\ required_missing req = false
  /\ @Date_new Sample.platform (get (req_body req) "date") <> None
  /\ idle Sample.coffee_store
  /\ existsb (mine 1 "alice") (transactions (committed Sample.coffee_store)) = true
  /\ get (req_body req) "amount" = JsNull
  /\ app (P := Sample.platform) Sample.env PUT_transactions_id req
       (mkWorld Sample.coffee_store 1000000 [] [])
     = (Returned (errorHandler Sample.env (not_null_violation "amount")),
        mkWorld Sample.coffee_store 1000000 []
          [Connect; Query BEGIN; Query (owned_of req);
           Query (update_of (P := Sample.platform) req); Query ROLLBACK; Release]).
Proof.
  intros req.
  assert (Hd : @Date_new Sample.platform (get (req_body req) "date") <> None)
    by discriminate.
  do 8 (split; [first [reflexivity | assumption]|]).
  apply (update_leaves_the_amount_to_storage (P := Sample.platform) Sample.env req
           "alice" 1 Sample.coffee_store 1000000 [] (not_null_violation "amount")
           eq_refl eq_refl eq_refl eq_refl Hd eq_refl eq_refl
           (or_intror (conj eq_refl eq_refl))).
Defined.



Lemma create_then_delete_restores_the_table_witness :
  let del := mkRequest Sample.alice "1" [] [] in
  truthy (optional_userId Sample.create_coffee) = true
  /\ passes_validation (P := Sample.platform) Sample.create_coffee = true
  /\ request_key (P := Sample.platform) Sample.create_coffee = Some Sample.coffee_key
  /\ idle Sample.empty_store
  /\ req_auth del = req_auth Sample.create_coffee
  /\ parseInt (req_params_id del) = Finite (transactions_id_seq Sample.empty_store) 0
  /\ app (P := Sample.platform) Sample.env DELETE_transactions_id del
       (mkWorld
          (store (snd (app (P := Sample.platform) Sample.env POST_transactions
                         Sample.create_coffee (mkWorld Sample.empty_store 1000000 [] []))))
          1000900 [] [])
     = (Returned (transaction_deleted (JsInt 1)),
        mkWorld (mkStore (mkTables [] []) None 2 1) 1000900 []
          [Connect; Query (deleted_of del); Release]).
Proof.
  intros del. do 6 (split; [reflexivity|]).
  assert (Hrange : int4_min <= transactions_id_seq Sample.empty_store <= int4_max)
    by (unfold int4_min, int4_max; cbn; lia).
  assert (Hnone : forall r, In r (transactions (committed Sample.empty_store)) ->
                    has_key Sample.coffee_key r = false) by (intros r []).
  assert (Hfresh : forall r, In r (transactions (committed Sample.empty_store)) ->
                     id r <> transactions_id_seq Sample.empty_store) by (intros r []).
  apply (proj2 (create_then_delete_restores_the_table (P := Sample.platform) Sample.env
                  Sample.create_coffee del Sample.coffee_key Sample.empty_store
                  1000000 1000900 [] [] eq_refl eq_refl eq_refl eq_refl Hnone Hfresh
                  eq_refl eq_refl Hrange)).
Defined.

Lemma delete_twice_is_not_found_witness :
  let req := mkRequest Sample.alice "7" [] [] in
  let first := app (P := Sample.platform) Sample.env DELETE_transactions_id req
                 (mkWorld Sample.seventh_store 1000000 [] []) in
  truthy (optional_userId req) = true
  /\ bind_text (P := Sample.platform) (optional_userId req) = inr (Some "alice")
  /\ parseInt (req_params_id req) = Finite 7 0
  /\ idle Sample.seventh_store
  /\ fst first = Returned (transaction_deleted (JsInt 7))
  /\ fst (app (P := Sample.platform) Sample.env DELETE_transactions_id req
            (mkWorld (store (snd first)) 1000100 [] []))
     = Returned (not_found "Transaction not found or not authorized to delete").
Proof.
  intros req first. do 5 (split; [reflexivity|]).
  assert (Hrange : int4_min <= 7 <= int4_max) by (unfold int4_min, int4_max; lia).
  apply (proj1 (proj2 (delete_twice_is_not_found (P := Sample.platform) Sample.env req
                         "alice" 7 Sample.seventh_store 1000000 1000100 [] []
                         eq_refl eq_refl eq_refl Hrange eq_refl))).
Defined.

Lemma delete_refuses_an_id_out_of_range_witness :
  let req := mkRequest Sample.alice "4294967297" [] [] in
  truthy (optional_userId req) = true
  /\ idle Sample.coffee_store
  /\ parseInt (req_params_id req) = Finite 4294967297 0
  /\ int4_max < 4294967297
  /\ app (P := Sample.platform) Sample.env DELETE_transactions_id req
       (mkWorld Sample.coffee_store 1000000 [] [])
     = (Returned (errorHandler Sample.env integer_out_of_range),
        mkWorld Sample.coffee_store 1000000 []
          [Connect; Query (deleted_of req); Release]).
Proof.
  intros req.
  assert (Hout : int4_max < 4294967297) by (unfold int4_max; lia).
  do 4 (split; [first [reflexivity | assumption]|]).
  apply (proj1 (delete_refuses_an_id_out_of_range (P := Sample.platform) Sample.env req
                  Sample.coffee_store 1000000 [] 4294967297 eq_refl eq_refl eq_refl
                  (or_intror Hout))).
Defined.

Lemma storage_errors_roll_back_witness :
  truthy (optional_userId Sample.create_coffee) = true
  /\ idle Sample.empty_store
  /\ passes_validation (P := Sample.platform) Sample.create_coffee = true
  /\ app (P := Sample.platform) Sample.env POST_transactions Sample.create_coffee
       (mkWorld Sample.empty_store 1000000 [None; Some Sample.connection_lost] [])
     = (Returned
          (mkResponse 500
             (JsObject [("error", JsString "Internal Server Error");
                        ("message", JsString "An unexpected error occurred")])),
        mkWorld Sample.empty_store 1000000 []
          [Connect; Query BEGIN; Query (select_of (P := Sample.platform) Sample.create_coffee);
           Query ROLLBACK; Release]).
Proof.
  do 3 (split; [reflexivity|]).
  apply (proj1 (proj2 (storage_errors_roll_back (P := Sample.platform) Sample.env
                         Sample.create_coffee Sample.empty_store eq_refl eq_refl))
           eq_refl 1000000 Sample.connection_lost [] [] eq_refl).
Defined.

Lemma list_ignores_half_a_date_range_witness :
  let req := mkRequest Sample.alice "" [("startDate", JsString "2024-01-02")] [] in
  truthy (optional_userId req) = true
  /\ bind_text (P := Sample.platform) (optional_userId req) = inr (Some "alice")
  /\ truthy (get (req_query req) "endDate") = false
  /\ exists rows,
       fst (app (P := Sample.platform) Sample.env GET_transactions req
              (mkWorld Sample.both_store 1000000 [] []))
       = Returned (mkResponse 200 (JsArray (map transaction_json rows)))
       /\ Permutation rows [Sample.coffee_row; Sample.seventh_row].
Proof.
  intros req. do 3 (split; [reflexivity|]).
  destruct (list_ignores_half_a_date_range (P := Sample.platform) Sample.env req "alice"
              Sample.both_store 1000000 [] eq_refl eq_refl (or_intror eq_refl))
    as (rows & keep & Hrun & Hperm & Hkeep & _).
  exists rows. split; [rewrite Hrun; reflexivity|].
  assert (H1 : keep Sample.coffee_row = true)
    by (apply Hkeep; split; [reflexivity | discriminate]).
  assert (H2 : keep Sample.seventh_row = true)
    by (apply Hkeep; split; [reflexivity | discriminate]).
  cbn [Sample.both_store visible pending committed transactions filter] in Hperm.
  rewrite H1, H2 in Hperm. exact Hperm.
Defined.

Lemma list_with_an_unreadable_date_is_an_error_witness :
  let req := mkRequest Sample.alice ""
               [("startDate", JsString "abc"); ("endDate", JsString "2024-01-31")]
               [] in
  truthy (optional_userId req) = true
  /\ truthy (get (req_query req) "startDate") = true
  /\ truthy (get (req_query req) "endDate") = true
  /\ bind_timestamp (P := Sample.platform) (get (req_query req) "startDate")
     = inl invalid_timestamp
  /\ fst (app (P := Sample.platform) Sample.env GET_transactions req
            (mkWorld Sample.shared_store 1000000 [] []))
     = Returned (errorHandler Sample.env invalid_timestamp).
Proof.
  intros req. do 4 (split; [reflexivity|]).
  rewrite (list_with_an_unreadable_date_is_an_error (P := Sample.platform) Sample.env req
             Sample.shared_store 1000000 [] invalid_timestamp eq_refl eq_refl eq_refl
             (or_introl eq_refl)).
  reflexivity.
Defined.

Lemma reading_routes_change_nothing_witness :
  let req := mkRequest Sample.alice "" Sample.january [] in
  let w := mkWorld Sample.shared_store 1000000 [Some Sample.connection_lost] [] in
  only_reads GET_transactions = true
  /\ store (snd (app (P := Sample.platform) Sample.env GET_transactions req w))
     = Sample.shared_store.
Proof.
  intros req w. split; [reflexivity|].
  exact (reading_routes_change_nothing (P := Sample.platform) Sample.env GET_transactions
           req w eq_refl).
Defined.

Lemma categories_are_listed_newest_first_witness :
  let req := mkRequest Sample.alice "" [] [] in
  truthy (optional_userId req) = true
  /\ bind_text (P := Sample.platform) (optional_userId req) = inr (Some "alice")
  /\ exists rows,
       fst (app (P := Sample.platform) Sample.env GET_budget_categories req
              (mkWorld Sample.category_store 1000000 [] []))
       = Returned (mkResponse 200 (JsArray (map category_json rows)))
       /\ Permutation rows [Sample.groceries; Sample.drinks]
       /\ StronglySorted creation_desc rows.
Proof.
  intros req. do 2 (split; [reflexivity|]).
  destruct (categories_are_listed_newest_first (P := Sample.platform) Sample.env req
              "alice" Sample.category_store 1000000 [] eq_refl eq_refl)
    as (rows & Hrun & Hperm & Hsorted).
  exists rows. split; [rewrite Hrun; reflexivity|]. split; assumption.
Defined.

Lemma category_is_created_or_refused_witness :
  truthy (optional_userId Sample.create_tea) = true
  /\ bind_text (P := Sample.platform) (optional_userId Sample.create_tea)
     = inr (Some "alice")
  /\ truthy (get (req_body Sample.create_tea) "name") = true
  /\ bind_text (P := Sample.platform) (get (req_body Sample.create_tea) "name")
     = inr (Some "Drinks")
  /\ bind_int4 (P := Sample.platform) (get (req_body Sample.create_tea) "amount")
     = inr (Some 0)
  /\ idle Sample.category_store
  /\ fst (app (P := Sample.platform) Sample.env POST_budget_categories Sample.create_tea
            (mkWorld Sample.category_store 1000000 [] []))
     = Returned duplicate_category
  /\ fst (app (P := Sample.platform) Sample.env POST_budget_categories Sample.create_tea
            (mkWorld Sample.empty_store 1000000 [] []))
     = Returned (mkResponse 201 (category_json (mkCategory 1 "alice" "Drinks" 0 1000000))).
Proof.
  do 6 (split; [reflexivity|]).
  split.
  - rewrite (category_is_created_or_refused (P := Sample.platform) Sample.env
               Sample.create_tea "alice" "Drinks" 0 Sample.category_store 1000000 []
               eq_refl eq_refl eq_refl eq_refl eq_refl eq_refl).
    + reflexivity.
    + intros c [<-|[<-|[<-|[]]]]; discriminate.
  - rewrite (category_is_created_or_refused (P := Sample.platform) Sample.env
               Sample.create_tea "alice" "Drinks" 0 Sample.empty_store 1000000 []
               eq_refl eq_refl eq_refl eq_refl eq_refl eq_refl).
    + reflexivity.
    + intros c [].
Defined.

Lemma category_delete_takes_the_path_as_it_is_witness :
  let req := mkRequest Sample.alice "1" [] [] in
  let odd := mkRequest Sample.alice "1abc" [] [] in
  truthy (optional_userId req) = true
  /\ bind_text (P := Sample.platform) (optional_userId req) = inr (Some "alice")
  /\ idle Sample.category_store
  /\ int4in (Platform := Sample.platform) (req_params_id req) = Some 1
  /\ int4in (Platform := Sample.platform) (req_params_id odd) = None
  /\ app (P := Sample.platform) Sample.env DELETE_budget_categories_id req
       (mkWorld Sample.category_store 1000000 [] [])
     = (Returned (category_deleted (JsString "1")),
        mkWorld (mkStore (mkTables [] [Sample.rent; Sample.drinks]) None 1 4) 1000000 []
          [Query (DeleteCategory (JsString "1") (JsString "alice"))])
  /\ fst (app (P := Sample.platform) Sample.env DELETE_budget_categories_id odd
            (mkWorld Sample.category_store 1000000 [] []))
     = Returned (errorHandler Sample.env invalid_integer).
Proof.
  intros req odd. do 5 (split; [reflexivity|]).
  split.
  - apply (proj1 (category_delete_takes_the_path_as_it_is (P := Sample.platform)
                    Sample.env req "alice" Sample.category_store 1000000 []
                    eq_refl eq_refl eq_refl) 1 eq_refl).
    exists Sample.groceries. repeat split. left. reflexivity.
  - rewrite (proj2 (category_delete_takes_the_path_as_it_is (P := Sample.platform)
                      Sample.env odd "alice" Sample.category_store 1000000 []
                      eq_refl eq_refl eq_refl) eq_refl).
    reflexivity.
Defined.

Lemma category_rename_onto_another_is_a_conflict_witness :
  let req := mkRequest Sample.alice "1" [] Sample.tea in
  truthy (optional_userId req) = true
  /\ int4in (Platform := Sample.platform) (req_params_id req) = Some 1
  /\ bind_text (P := Sample.platform) (get (req_body req) "name") = inr (Some "Drinks")
  /\ idle Sample.category_store
  /\ In Sample.groceries (budget_categories (committed Sample.category_store))
  /\ In Sample.drinks (budget_categories (committed Sample.category_store))
  /\ app (P := Sample.platform) Sample.env PUT_budget_categories_id req
       (mkWorld Sample.category_store 1000000 [] [])
     = (Returned
          (mkResponse 409
             (JsObject [("error", JsString "Conflict");
                        ("message", JsString "This transaction already exists")])),
        mkWorld Sample.category_store 1000000 []
          [Query (UpdateCategory (JsString "Drinks") (JsInt 0) (JsString "1")
                    (JsString "alice"))]).
Proof.
  intros req.
  assert (H1 : In Sample.groceries (budget_categories (committed Sample.category_store)))
    by (left; reflexivity).
  assert (H3 : In Sample.drinks (budget_categories (committed Sample.category_store)))
    by (right; right; left; reflexivity).
  assert (Hne : bc_id Sample.drinks <> 1) by discriminate.
  do 6 (split; [first [reflexivity | assumption]|]).
  apply (category_rename_onto_another_is_a_conflict (P := Sample.platform) Sample.env req
           "alice" 1 "Drinks" 0 Sample.groceries Sample.drinks Sample.category_store 1000000 []
           eq_refl eq_refl eq_refl eq_refl eq_refl eq_refl eq_refl H1 eq_refl eq_refl H3
           Hne eq_refl eq_refl).
Defined.

Lemma answers_carry_the_statuses_of_the_route_witness :
  let req := mkRequest Sample.alice "abc" [] [] in
  let w := mkWorld Sample.coffee_store 1000000 [] [] in
  fst (app (P := Sample.platform) Sample.env DELETE_transactions_id req w)
  = Returned (errorHandler Sample.env invalid_integer)
  /\ In (status (errorHandler Sample.env invalid_integer)) [200; 401; 404; 409; 500].
Proof.
  intros req w. split; [reflexivity|].
  apply (answers_carry_the_statuses_of_the_route (P := Sample.platform) Sample.env
           DELETE_transactions_id req w (errorHandler Sample.env invalid_integer)).
  reflexivity.
Defined.

Lemma create_leaves_the_integer_check_to_storage_witness :
  let req := mkRequest Sample.alice "" [] Sample.fraction in
  truthy (optional_userId req) = true
  /\ required_missing req = false
  /\ get (req_body req) "amount" = JsNumber (Finite 9 (-1))
  /\ @Date_new Sample.platform (get (req_body req) "date") <> None
  /\ int4_of_num (Finite 9 (-1)) = inl invalid_integer
  /\ idle Sample.empty_store
  /\ app (P := Sample.platform) Sample.env POST_transactions req
       (mkWorld Sample.empty_store 1000000 [] [])
     = (Returned (errorHandler Sample.env invalid_integer),
        mkWorld Sample.empty_store 1000000 []
          [Connect; Query BEGIN; Query (select_of (P := Sample.platform) req);
           Query ROLLBACK; Release]).
Proof.
  intros req.
  assert (Hd : @Date_new Sample.platform (get (req_body req) "date") <> None)
    by discriminate.
  assert (Hn : Finite 9 (-1) <> NaN) by discriminate.
  do 6 (split; [first [reflexivity | assumption]|]).
  apply (proj2 (create_leaves_the_integer_check_to_storage (P := Sample.platform)
                  Sample.env req (Finite 9 (-1)) invalid_integer Sample.empty_store
                  1000000 [] eq_refl eq_refl eq_refl Hn Hd eq_refl eq_refl)).
Defined.

Lemma update_is_all_or_nothing_witness :
  let req := mkRequest Sample.alice "1" [] Sample.lunch in
  let w := mkWorld Sample.coffee_store 1000000
             [None; None; None; Some Sample.connection_lost] [] in
  idle Sample.coffee_store
  /\ fst (app (P := Sample.platform) Sample.env PUT_transactions_id req w)
     = Returned (errorHandler Sample.env Sample.connection_lost)
  /\ (let '(out, w') := app (P := Sample.platform) Sample.env PUT_transactions_id req w in
      committed (store w') = committed Sample.coffee_store
      \/ exists rows s',
           exec (P := Sample.platform) (update_of (P := Sample.platform) req) 1000000
             (begun Sample.coffee_store) = (inr rows, s')
           /\ out = Returned (mkResponse 200 (first_row rows))
           /\ committed (store w') = visible s').
Proof.
  intros req w. do 2 (split; [reflexivity|]).
  exact (update_is_all_or_nothing (P := Sample.platform) Sample.env req
           Sample.coffee_store 1000000
           [None; None; None; Some Sample.connection_lost] [] eq_refl).
Defined.
